(** * AWS cost estimator: plan parsing, price resolution and aggregation

    A shallow embedding of [scripts/aws-cost-estimate.py] (class
    [AWSCostEstimator]) and the properties of its plan-to-cost pipeline.

    - [Dec]: Python's [decimal.Decimal] under the default context
      ([prec=28], [ROUND_HALF_EVEN]), restricted to finite numbers.
    - [Plan]: the Terraform plan document as [json.load] delivers it.
    - [Estimator]: [get_ec2_price], [get_rds_price], the fixed prices,
      [parse_terraform_plan] and [estimate_cost]. *)

From Stdlib Require Import ZArith QArith Qpower Lia List Bool.
From Stdlib Require Import Ascii String DecimalString.
From Stdlib Require Import Lqa Permutation.
From stdpp Require Import gmap strings.

Import ListNotations.
Local Open Scope Z_scope.

(* ===================================================================== *)
(** ** Decimal arithmetic *)
(* ===================================================================== *)

Module Dec.

(** A finite [decimal.Decimal]: the value [coefficient * 10^exponent].
    Python stores a sign flag and an unsigned digit string; here the sign
    is the sign of [coefficient].  The special values (NaN, Infinity), the
    negative zero and the exponent limits [Emin]/[Emax] of the context are
    outside this type. *)
Record Decimal := mk { coefficient : Z; exponent : Z }.

(** [getcontext().prec] of the default context. *)
Definition prec : Z := 28.

(** [len(str(n))] for [n >= 0], by repeated division; the fuel is the
    bit length of [n], which bounds its number of decimal digits. *)
Fixpoint digits_fuel (fuel : nat) (n : Z) : Z :=
  match fuel with
  | O => 1
  | S f => if n <? 10 then 1 else 1 + digits_fuel f (n / 10)
  end.

Definition ndigits (n : Z) : Z := digits_fuel (Z.to_nat (Z.log2 n)) n.

(** [n / 10^s] rounded to the nearest integer, ties to the even one
    ([_round_half_even]); [n >= 0], [s >= 1]. *)
Definition round_half_even (n s : Z) : Z :=
  let d := 10 ^ s in
  let q := n / d in
  let r := n mod d in
  if 2 * r <? d then q
  else if d <? 2 * r then q + 1
  else if Z.even q then q else q + 1.

(** [Decimal._fix]: round to at most [prec] significant digits. *)
Definition fix_ (d : Decimal) : Decimal :=
  let c := Z.abs (coefficient d) in
  let n := ndigits c in
  if n <=? prec then d
  else
    let s := n - prec in
    let q := round_half_even c s in
    if prec <? ndigits q
    then mk (Z.sgn (coefficient d) * (q / 10)) (exponent d + s + 1)
    else mk (Z.sgn (coefficient d) * q) (exponent d + s).

(** The exact sum, on the smaller of the two exponents. *)
Definition add_exact (a b : Decimal) : Decimal :=
  let e := Z.min (exponent a) (exponent b) in
  mk (coefficient a * 10 ^ (exponent a - e)
      + coefficient b * 10 ^ (exponent b - e)) e.

(** [Decimal.__add__]: the exact sum, then [_fix]. *)
Definition add (a b : Decimal) : Decimal := fix_ (add_exact a b).

Definition mul_exact (a b : Decimal) : Decimal :=
  mk (coefficient a * coefficient b) (exponent a + exponent b).

(** [Decimal.__mul__]: the exact product, then [_fix]. *)
Definition mul (a b : Decimal) : Decimal := fix_ (mul_exact a b).

(** [Decimal(n)] for a Python [int]: exact. *)
Definition of_int (n : Z) : Decimal := mk n 0.

(** [bool(d)]: a finite decimal is true when its coefficient is not zero. *)
Definition truthy (d : Decimal) : bool := negb (coefficient d =? 0).

(** [d > 0]. *)
Definition gt0 (d : Decimal) : bool := 0 <? coefficient d.

(** The rational number a decimal denotes. *)
Definition value (d : Decimal) : Q :=
  (inject_Z (coefficient d) * 10 ^ exponent d)%Q.

(** *** Text *)

(** [str(n)] for [n >= 0]. *)
Definition digits_of (n : Z) : string :=
  NilZero.string_of_uint (N.to_uint (Z.to_N n)).

Fixpoint zeros (n : nat) : string :=
  match n with O => EmptyString | S k => String "0" (zeros k) end.

Definition slen (s : string) : Z := Z.of_nat (String.length s).

(** ["%+d" % n]. *)
Definition signed_digits (n : Z) : string :=
  (if n <? 0 then "-"%string else "+"%string) +:+ digits_of (Z.abs n).

(** [str(d)], which is also what an f-string field without a format
    specification prints: plain notation when the exponent is at most 0
    and the number is not too small, scientific notation otherwise. *)
Definition str (d : Decimal) : string :=
  let sign := if coefficient d <? 0 then "-"%string else ""%string in
  let int_ := digits_of (Z.abs (coefficient d)) in
  let leftdigits := exponent d + slen int_ in
  let dotplace :=
    if (exponent d <=? 0) && (-6 <? leftdigits) then leftdigits else 1 in
  let intpart :=
    if dotplace <=? 0 then "0"%string
    else if slen int_ <=? dotplace
         then int_ +:+ zeros (Z.to_nat (dotplace - slen int_))
         else substring 0 (Z.to_nat dotplace) int_ in
  let fracpart :=
    if dotplace <=? 0
    then "."%string +:+ zeros (Z.to_nat (- dotplace)) +:+ int_
    else if slen int_ <=? dotplace then ""%string
         else "."%string +:+
              substring (Z.to_nat dotplace)
                        (String.length int_ - Z.to_nat dotplace) int_ in
  let exp :=
    if leftdigits =? dotplace then ""%string
    else "E"%string +:+ signed_digits (leftdigits - dotplace) in
  sign +:+ intpart +:+ fracpart +:+ exp.

(** [d._rescale(-2, ROUND_HALF_EVEN)]: the coefficient of [d] on the
    exponent -2. *)
Definition rescale2 (d : Decimal) : Z :=
  let c := Z.abs (coefficient d) in
  if -2 <=? exponent d then c * 10 ^ (exponent d + 2)
  else round_half_even c (-2 - exponent d).

(** [format(d, '.2f')]: rescale to two decimals, then fixed notation. *)
Definition format_2f (d : Decimal) : string :=
  let sign := if coefficient d <? 0 then "-"%string else ""%string in
  let int_ := digits_of (rescale2 d) in
  let dotplace := slen int_ - 2 in
  let intpart :=
    if dotplace <=? 0 then "0"%string
    else substring 0 (Z.to_nat dotplace) int_ in
  let fracpart :=
    if dotplace <? 0 then zeros (Z.to_nat (- dotplace)) +:+ int_
    else substring (Z.to_nat dotplace) 2 int_ in
  sign +:+ intpart +:+ "."%string +:+ fracpart.

(** *** Notions used to state the rounding facts *)

(** The rounded coefficient, on the exponent of the input. *)
Definition rnd (c : Z) : Z :=
  if ndigits c <=? prec then c
  else round_half_even c (ndigits c - prec) * 10 ^ (ndigits c - prec).

Definition nonneg (d : Decimal) : Prop := 0 <= coefficient d.

(** A coefficient of at most [prec] digits: [_fix] rounds to such. *)
Definition fits (d : Decimal) : Prop := Z.abs (coefficient d) < 10 ^ prec.

(** The state of an accumulator that has not been rounded: a non-negative
    decimal of value [q] with an exponent of at least [E]. *)
Definition holds (E : Z) (d : Decimal) (q : Q) : Prop :=
  nonneg d /\ E <= exponent d /\ (value d == q)%Q.

End Dec.

(* ===================================================================== *)
(** ** The plan document *)
(* ===================================================================== *)

Module Plan.

(** The scalar JSON values an attribute of [after] can hold, as Python
    objects: [None], [bool], [int], [str].  (Terraform gives
    [instance_type] and [instance_class] as strings; arrays, objects and
    floats are not modelled as attribute values.) *)
Inductive json :=
| JNull
| JBool (b : bool)
| JInt (n : Z)
| JStr (s : string).

#[global] Instance json_eq_dec : EqDecision json.
Proof. solve_decision. Defined.

(** Python truthiness, the test of [if instance_type:]. *)
Definition truthy (v : json) : bool :=
  match v with
  | JNull => false
  | JBool b => b
  | JInt n => negb (n =? 0)
  | JStr s => negb (String.eqb s "")
  end.

(** [str(v)], what an f-string field prints. *)
Definition py_str (v : json) : string :=
  match v with
  | JNull => "None"
  | JBool true => "True"
  | JBool false => "False"
  | JInt n => (if n <? 0 then "-"%string else ""%string) +:+ Dec.digits_of (Z.abs n)
  | JStr s => s
  end.

(** The value under the key ['after']: JSON [null] (Terraform writes it
    for a resource that does not exist after the change) or an object. *)
Inductive after_value :=
| AfterNull
| AfterObj (attrs : gmap string json).

(** The object under ['change']; [None] is a missing key. *)
Record change_body := mkBody {
  actions : option (list string);
  after : option after_value
}.

(** One entry of ['resource_changes']; [None] is a missing key.  (A key
    that holds JSON [null] where an object or a list is expected is
    modelled for ['after'] only.) *)
Record resource_change := mkChange {
  type_ : option string;
  change : option change_body
}.

Record plan := mkPlan {
  resource_changes : option (list resource_change)
}.

(** [d.get(key)] on a Python dict: [None] when the key is missing. *)
Definition dict_get (d : gmap string json) (key : string) : json :=
  match d !! key with Some v => v | None => JNull end.

End Plan.

(* ===================================================================== *)
(** ** The estimator *)
(* ===================================================================== *)

Module Estimator.
Import Plan.

(** One filter of a [get_products] request. *)
Record Filter := mkFilter { Type_ : string; Field : string; Value : json }.

(** What one [get_products] call and the decoding of its first price
    record come to.  [Raises]: the call raised.  [Response l]: the call
    returned with ['PriceList'] of the length of [l]; an entry is the
    [Decimal] that lines 36-40 read from the record
    ([terms.OnDemand.<first>.priceDimensions.<first>.pricePerUnit.USD]),
    or [None] when reading it raises.  The price strings of the catalogue
    are taken to denote finite numbers. *)
Inductive response :=
| Raises
| Response (PriceList : list (option Dec.Decimal)).

(** The estimator object: its region and its pricing client (the
    catalogue, a function of the request).  The attribute [costs] is never
    read or written after [__init__] and is left out. *)
Record AWSCostEstimator := mkEstimator {
  region : string;
  get_products : string -> list Filter -> response
}.

Definition _region_to_location (self : AWSCostEstimator) : string :=
  let r := region self in
  if String.eqb r "eu-north-1" then "EU (Stockholm)"
  else if String.eqb r "us-east-1" then "US East (N. Virginia)"
  else if String.eqb r "us-west-2" then "US West (Oregon)"
  else if String.eqb r "eu-west-1" then "EU (Ireland)"
  else "EU (Stockholm)".

Definition term_match (field : string) (v : json) : Filter :=
  mkFilter "TERM_MATCH" field v.

(** The body of the [try] of both price getters once the call is made:
    [None] is Python's [None] (the call or the decoding raised and the
    handler printed a warning, or ['PriceList'] is empty). *)
Definition first_price (r : response) : option Dec.Decimal :=
  match r with
  | Raises => None
  | Response [] => None
  | Response (price_item :: _) => price_item
  end.

(** The [Filters] argument of the call in [get_ec2_price]. *)
Definition ec2_filters (self : AWSCostEstimator) (instance_type : json)
  : list Filter :=
  [ term_match "instanceType" instance_type;
    term_match "location" (JStr (_region_to_location self));
    term_match "operatingSystem" (JStr "Linux");
    term_match "tenancy" (JStr "Shared");
    term_match "capacitystatus" (JStr "Used");
    term_match "preInstalledSw" (JStr "NA") ].

Definition get_ec2_price (self : AWSCostEstimator) (instance_type : json)
  : option Dec.Decimal :=
  first_price (get_products self "AmazonEC2" (ec2_filters self instance_type)).

(** The [Filters] argument of the call in [get_rds_price]; the [engine]
    parameter of the method is not used by its body. *)
Definition rds_filters (self : AWSCostEstimator) (instance_class : json)
  : list Filter :=
  [ term_match "instanceType" instance_class;
    term_match "location" (JStr (_region_to_location self));
    term_match "databaseEngine" (JStr "PostgreSQL");
    term_match "deploymentOption" (JStr "Single-AZ") ].

Definition get_rds_price (self : AWSCostEstimator) (instance_class : json)
  : option Dec.Decimal :=
  first_price (get_products self "AmazonRDS" (rds_filters self instance_class)).

(** [Decimal('0.0225')] *)
Definition get_alb_price : Dec.Decimal := Dec.mk 225 (-4).

(** [Decimal('0.045')] *)
Definition get_nat_gateway_price : Dec.Decimal := Dec.mk 45 (-3).

(** *** parse_terraform_plan *)

Record resources := mkResources {
  ec2_instances : list json;
  rds_instances : list json;
  albs : nat;
  nat_gateways : nat
}.

Definition no_resources : resources := mkResources [] [] 0 0.

(** [change.get('change', {}).get('actions', [])] *)
Definition change_action (c : resource_change) : list string :=
  match change c with
  | Some b => match actions b with Some a => a | None => [] end
  | None => []
  end.

(** [change.get('change', {}).get('after', {})] *)
Definition change_after (c : resource_change) : after_value :=
  match change c with
  | Some b => match after b with Some a => a | None => AfterObj ∅ end
  | None => AfterObj ∅
  end.

(** [after.get(key)]; on [None] the attribute lookup raises
    [AttributeError], which nothing catches: the result is [None]. *)
Definition after_get (a : after_value) (key : string) : option json :=
  match a with
  | AfterNull => None
  | AfterObj d => Some (dict_get d key)
  end.

Definition is_type (resource_type : option string) (tag : string) : bool :=
  match resource_type with
  | Some t => String.eqb t tag
  | None => false
  end.

(** The [if]/[elif] chain on the type tag, for an entry that is not
    skipped. *)
Definition classify (r : resources) (c : resource_change) : option resources :=
  let resource_type := type_ c in
  let after := change_after c in
  if is_type resource_type "aws_instance" then
    match after_get after "instance_type" with
    | None => None
    | Some instance_type =>
        Some (if truthy instance_type
              then mkResources (ec2_instances r ++ [instance_type])
                     (rds_instances r) (albs r) (nat_gateways r)
              else r)
    end
  else if is_type resource_type "aws_launch_template" then
    match after_get after "instance_type" with
    | None => None
    | Some instance_type =>
        Some (if truthy instance_type
              then mkResources (ec2_instances r ++ [instance_type])
                     (rds_instances r) (albs r) (nat_gateways r)
              else r)
    end
  else if is_type resource_type "aws_db_instance" then
    match after_get after "instance_class" with
    | None => None
    | Some instance_class =>
        Some (if truthy instance_class
              then mkResources (ec2_instances r)
                     (rds_instances r ++ [instance_class])
                     (albs r) (nat_gateways r)
              else r)
    end
  else if is_type resource_type "aws_lb" || is_type resource_type "aws_alb" then
    Some (mkResources (ec2_instances r) (rds_instances r)
            (S (albs r)) (nat_gateways r))
  else if is_type resource_type "aws_nat_gateway" then
    Some (mkResources (ec2_instances r) (rds_instances r)
            (albs r) (S (nat_gateways r)))
  else Some r.

(** The test [change_action == ['delete']]. *)
Definition delete_only (c : resource_change) : bool :=
  bool_decide (change_action c = ["delete"%string]).

(** The body of the loop over the change entries; [None]: an exception
    leaves the function. *)
Definition loop_body (r : resources) (c : resource_change) : option resources :=
  if delete_only c then Some r else classify r c.

Fixpoint parse_loop (r : resources) (cs : list resource_change)
  : option resources :=
  match cs with
  | [] => Some r
  | c :: cs' =>
      match loop_body r c with
      | Some r' => parse_loop r' cs'
      | None => None
      end
  end.

(** [plan.get('resource_changes', [])] *)
Definition changes_of (p : plan) : list resource_change :=
  match resource_changes p with Some cs => cs | None => [] end.

Definition parse_terraform_plan (p : plan) : option resources :=
  parse_loop no_resources (changes_of p).

(** *** estimate_cost *)

(** The accumulators of [estimate_cost]: a running [Decimal] and the
    breakdown list. *)
Definition acc := (Dec.Decimal * list string)%type.

(** One iteration of the loops of lines 145-149 and 158-162. *)
Definition price_step (get_price : json -> option Dec.Decimal)
    (label : string) (st : acc) (id : json) : acc :=
  match get_price id with
  | Some price =>
      if Dec.truthy price
      then (Dec.add (fst st) price,
            snd st ++ [label +:+ " " +:+ py_str id +:+ ": $"
                         +:+ Dec.str price +:+ "/hour"])
      else st
  | None => st
  end.

Definition price_loop (get_price : json -> option Dec.Decimal)
    (label : string) (ids : list json) (breakdown : list string) : acc :=
  fold_left (price_step get_price label) ids (Dec.mk 0 0, breakdown).

(** The [if hourly > 0:] blocks of lines 151-154 and 164-167, on
    [(monthly_cost, breakdown)]. *)
Definition add_total (label : string) (hourly : Dec.Decimal) (st : acc) : acc :=
  if Dec.gt0 hourly then
    let monthly := Dec.mul hourly (Dec.of_int 730) in
    (Dec.add (fst st) monthly,
     snd st ++ ["**" +:+ label +:+ " Total**: $"
                  +:+ Dec.format_2f monthly +:+ "/month"])
  else st.

(** The flat-rate blocks of lines 170-174 and 177-181. *)
Definition add_flat (label note : string) (price : Dec.Decimal) (count : nat)
    (st : acc) : acc :=
  if (0 <? count)%nat then
    let monthly :=
      Dec.mul (Dec.mul price (Dec.of_int 730)) (Dec.of_int (Z.of_nat count)) in
    (Dec.add (fst st) monthly,
     snd st ++ [label +:+ " (" +:+ Dec.digits_of (Z.of_nat count) +:+ "x): $"
                  +:+ Dec.format_2f monthly +:+ "/month (excluding "
                  +:+ note +:+ ")"])
  else st.

(** The returned dict.  [monthly_cost] is the [Decimal] total that the
    source hands to [float()] on return; the conversion to binary
    floating point is not part of the model. *)
Record estimate := mkEstimate {
  monthly_cost : Dec.Decimal;
  breakdown : list string;
  resources_ : resources
}.

(** Lines 140-187, on the parsed resources. *)
Definition aggregate (self : AWSCostEstimator) (res : resources) : estimate :=
  let st0 : acc := (Dec.mk 0 0, []) in
  let ec2 := price_loop (get_ec2_price self) "EC2" (ec2_instances res) (snd st0) in
  let st1 := add_total "EC2" (fst ec2) (fst st0, snd ec2) in
  let rds := price_loop (get_rds_price self) "RDS" (rds_instances res) (snd st1) in
  let st2 := add_total "RDS" (fst rds) (fst st1, snd rds) in
  let st3 := add_flat "ALB" "LCU" get_alb_price (albs res) st2 in
  let st4 := add_flat "NAT Gateway" "data transfer" get_nat_gateway_price
               (nat_gateways res) st3 in
  mkEstimate (fst st4) (snd st4) res.

Definition estimate_cost (self : AWSCostEstimator) (p : plan) : option estimate :=
  match parse_terraform_plan p with
  | Some res => Some (aggregate self res)
  | None => None
  end.

(** *** Notions used to state the properties *)

(** The inventory of two stretches of a plan, one after the other. *)
Definition res_app (a b : resources) : resources :=
  mkResources (ec2_instances a ++ ec2_instances b)
              (rds_instances a ++ rds_instances b)
              (albs a + albs b) (nat_gateways a + nat_gateways b).

(** The [Decimal] accumulator alone of the price loops: the running
    hourly sum. *)
Definition hourly_step (get_price : json -> option Dec.Decimal)
    (h : Dec.Decimal) (id : json) : Dec.Decimal :=
  match get_price id with
  | Some price => if Dec.truthy price then Dec.add h price else h
  | None => h
  end.

Definition hourly (get_price : json -> option Dec.Decimal) (ids : list json)
  : Dec.Decimal :=
  fold_left (hourly_step get_price) ids (Dec.mk 0 0).

(** [monthly_cost] after a category block, from its value [m] before. *)
Definition tot (h m : Dec.Decimal) : Dec.Decimal :=
  if Dec.gt0 h then Dec.add m (Dec.mul h (Dec.of_int 730)) else m.

(** [monthly_cost] after a flat-rate block, from its value [m] before. *)
Definition flat (price : Dec.Decimal) (count : nat) (m : Dec.Decimal)
  : Dec.Decimal :=
  if (0 <? count)%nat
  then Dec.add m (Dec.mul (Dec.mul price (Dec.of_int 730))
                          (Dec.of_int (Z.of_nat count)))
  else m.

Definition total (self : AWSCostEstimator) (res : resources) : Dec.Decimal :=
  flat get_nat_gateway_price (nat_gateways res)
    (flat get_alb_price (albs res)
       (tot (hourly (get_rds_price self) (rds_instances res))
          (tot (hourly (get_ec2_price self) (ec2_instances res))
             (Dec.mk 0 0)))).

(** Every price the catalogue resolves is zero or more. *)
Definition prices_nonneg (self : AWSCostEstimator) : Prop :=
  forall id p,
    get_ec2_price self id = Some p \/ get_rds_price self id = Some p ->
    0 <= Dec.coefficient p.

(** A change entry the parser takes into the inventory: not a pure
    deletion, of a recognised type, with the parameter its type needs. *)
Definition priceable (c : resource_change) : bool :=
  negb (delete_only c) &&
  (if is_type (type_ c) "aws_instance" || is_type (type_ c) "aws_launch_template"
   then match after_get (change_after c) "instance_type" with
        | Some v => truthy v
        | None => false
        end
   else if is_type (type_ c) "aws_db_instance"
   then match after_get (change_after c) "instance_class" with
        | Some v => truthy v
        | None => false
        end
   else is_type (type_ c) "aws_lb" || is_type (type_ c) "aws_alb"
        || is_type (type_ c) "aws_nat_gateway").

(** The plan [p] with the entry [c] appended to its change list. *)
Definition append_change (p : plan) (c : resource_change) : plan :=
  mkPlan (Some (changes_of p ++ [c])).

(** A change entry with all its fields present. *)
Definition entry (t : option string) (acts : option (list string))
    (aft : option after_value) : resource_change :=
  mkChange t (Some (mkBody acts aft)).

(** The type tag is one of those the parser has a branch for. *)
Definition recognised (t : option string) : bool :=
  is_type t "aws_instance" || is_type t "aws_launch_template"
  || is_type t "aws_db_instance" || is_type t "aws_lb" || is_type t "aws_alb"
  || is_type t "aws_nat_gateway".

(** [c] is a compute-instance entry that the parser records under the
    identifier [id]. *)
Definition compute_change (c : resource_change) (id : json) : Prop :=
  (is_type (type_ c) "aws_instance" || is_type (type_ c) "aws_launch_template")
    = true /\
  delete_only c = false /\
  after_get (change_after c) "instance_type" = Some id /\
  truthy id = true.

(** [c] is a database entry that the parser records under [id]. *)
Definition database_change (c : resource_change) (id : json) : Prop :=
  is_type (type_ c) "aws_db_instance" = true /\
  delete_only c = false /\
  after_get (change_after c) "instance_class" = Some id /\
  truthy id = true.

(** The catalogue call did not give a price: it raised, it returned an
    empty ['PriceList'], or reading the first record raised. *)
Definition lookup_fails (r : response) : Prop :=
  r = Raises \/ r = Response [] \/ exists rest, r = Response (None :: rest).

(** The test [if price:] fails: the price is [None] or a zero. *)
Definition unpriced (price : option Dec.Decimal) : bool :=
  match price with
  | Some p => negb (Dec.truthy p)
  | None => true
  end.

(** [pat in s] on Python strings. *)
Fixpoint has_infix (pat s : string) : bool :=
  String.prefix pat s ||
  match s with
  | EmptyString => false
  | String _ s' => has_infix pat s'
  end.

(** The result [r] is the result [r0] with one more compute identifier
    [id] in the inventory, at the same cost and with the same lines. *)
Definition ec2_counted_only (id : json) (r0 r : estimate) : Prop :=
  monthly_cost r = monthly_cost r0 /\
  breakdown r = breakdown r0 /\
  In id (ec2_instances (resources_ r)) /\
  List.length (ec2_instances (resources_ r))
  = S (List.length (ec2_instances (resources_ r0))) /\
  rds_instances (resources_ r) = rds_instances (resources_ r0) /\
  albs (resources_ r) = albs (resources_ r0) /\
  nat_gateways (resources_ r) = nat_gateways (resources_ r0).

(** The same for a database identifier. *)
Definition rds_counted_only (id : json) (r0 r : estimate) : Prop :=
  monthly_cost r = monthly_cost r0 /\
  breakdown r = breakdown r0 /\
  In id (rds_instances (resources_ r)) /\
  List.length (rds_instances (resources_ r))
  = S (List.length (rds_instances (resources_ r0))) /\
  ec2_instances (resources_ r) = ec2_instances (resources_ r0) /\
  albs (resources_ r) = albs (resources_ r0) /\
  nat_gateways (resources_ r) = nat_gateways (resources_ r0).

(** *** Notions used to state further properties *)

Definition is_compute (c : resource_change) : bool :=
  is_type (type_ c) "aws_instance" || is_type (type_ c) "aws_launch_template".

Definition is_database (c : resource_change) : bool :=
  is_type (type_ c) "aws_db_instance".

Definition is_load_balancer (c : resource_change) : bool :=
  is_type (type_ c) "aws_lb" || is_type (type_ c) "aws_alb".

Definition is_nat_gateway (c : resource_change) : bool :=
  is_type (type_ c) "aws_nat_gateway".

(** The attribute [key] of the entry when it is there and true. *)
Definition param_of (c : resource_change) (key : string) : list json :=
  match after_get (change_after c) key with
  | Some v => if truthy v then [v] else []
  | None => []
  end.

(** The inventory as comprehensions over the change list. *)
Definition ec2_ids (cs : list resource_change) : list json :=
  flat_map (fun c => if negb (delete_only c) && is_compute c
                     then param_of c "instance_type" else []) cs.

Definition rds_ids (cs : list resource_change) : list json :=
  flat_map (fun c => if negb (delete_only c) && is_database c
                     then param_of c "instance_class" else []) cs.

Definition lb_count (cs : list resource_change) : nat :=
  List.length (List.filter (fun c => negb (delete_only c) && is_load_balancer c) cs).

Definition nat_count (cs : list resource_change) : nat :=
  List.length (List.filter (fun c => negb (delete_only c) && is_nat_gateway c) cs).

(** The entries on which [after.get] is called on [None]. *)
Definition raises (c : resource_change) : bool :=
  negb (delete_only c) && (is_compute c || is_database c) &&
  match change_after c with
  | AfterNull => true
  | AfterObj _ => false
  end.

(** The price of an item as a rational, 0 when there is none. *)
Definition price_value (price : option Dec.Decimal) : Q :=
  match price with
  | Some p => Dec.value p
  | None => 0%Q
  end.

Fixpoint hourly_exact (get_price : json -> option Dec.Decimal)
    (ids : list json) : Q :=
  match ids with
  | [] => 0%Q
  | id :: rest => (price_value (get_price id) + hourly_exact get_price rest)%Q
  end.

(** The monthly total in exact rational arithmetic. *)
Definition exact_total (self : AWSCostEstimator) (res : resources) : Q :=
  (730 * hourly_exact (get_ec2_price self) (ec2_instances res)
   + 730 * hourly_exact (get_rds_price self) (rds_instances res)
   + inject_Z (Z.of_nat (albs res)) * (Dec.value get_alb_price * 730)
   + inject_Z (Z.of_nat (nat_gateways res))
     * (Dec.value get_nat_gateway_price * 730))%Q.

(** No resolved price has an exponent below [E]. *)
Definition prices_above (E : Z) (self : AWSCostEstimator) : Prop :=
  forall id p,
    get_ec2_price self id = Some p \/ get_rds_price self id = Some p ->
    E <= Dec.exponent p.

(** The number of identifiers of [ids] with a price that passes
    [if price:]. *)
Definition count_priced (get_price : json -> option Dec.Decimal)
    (ids : list json) : nat :=
  List.length (List.filter (fun id => negb (unpriced (get_price id))) ids).

Definition one_if (b : bool) : nat := if b then 1 else 0.

(** The number of items of an inventory. *)
Definition inventory_size (r : resources) : nat :=
  (List.length (ec2_instances r) + List.length (rds_instances r)
   + albs r + nat_gateways r)%nat.

(** The inventory of a change list [pre ++ c :: post] from the inventories
    of its three parts; [None] when a part raises. *)
Definition place (a d b : option resources) : option resources :=
  match a, d, b with
  | Some a, Some d, Some b => Some (res_app a (res_app d b))
  | _, _, _ => None
  end.

End Estimator.

(* ===================================================================== *)
(** ** Sample catalogues and plans *)
(* ===================================================================== *)

Module Samples.
Import Plan Estimator.

Definition first_value (fs : list Filter) : json :=
  match fs with
  | f :: _ => Value f
  | [] => JNull
  end.

(** A catalogue keyed by service code and instance type. *)
Definition catalogue (svc : string) (fs : list Filter) : response :=
  match first_value fs with
  | JStr s =>
      if String.eqb svc "AmazonEC2" then
        if String.eqb s "t3.micro" then Response [Some (Dec.mk 104000000 (-10))]
        else if String.eqb s "t3.nano" then Response []
        else if String.eqb s "t4g.free" then Response [Some (Dec.mk 0 (-10))]
        else Raises
      else if String.eqb svc "AmazonRDS" then
        if String.eqb s "db.t3.micro" then Response [Some (Dec.mk 180000000 (-10))]
        else if String.eqb s "db.free" then Response [Some (Dec.mk 0 (-10))]
        else if String.eqb s "db.long"
             then Response [Some (Dec.mk 1234567890123456789012345678 (-28))]
        else Raises
      else Raises
  | _ => Raises
  end.

(** The same catalogue with one negative price, [-0.0050000000]. *)
Definition rebate_catalogue (svc : string) (fs : list Filter) : response :=
  match first_value fs with
  | JStr s =>
      if String.eqb svc "AmazonEC2" && String.eqb s "promo"
      then Response [Some (Dec.mk (-50000000) (-10))]
      else catalogue svc fs
  | _ => catalogue svc fs
  end.

(** A catalogue that knows one instance type only, whatever the service
    and the location. *)
Definition small_catalogue (svc : string) (fs : list Filter) : response :=
  match first_value fs with
  | JStr s =>
      if String.eqb s "t3.micro"
      then Response [Some (Dec.mk 104000000 (-10)); None]
      else Response []
  | _ => Response []
  end.

Definition estimator : AWSCostEstimator := mkEstimator "eu-north-1" catalogue.

Definition rebate_estimator : AWSCostEstimator :=
  mkEstimator "eu-north-1" rebate_catalogue.

Definition small_estimator : AWSCostEstimator :=
  mkEstimator "us-west-2" small_catalogue.

Definition create (t : string) (attrs : list (string * json)) : resource_change :=
  entry (Some t) (Some ["create"%string]) (Some (AfterObj (list_to_map attrs))).

(** A pure deletion, as Terraform writes it: [after] is [null]. *)
Definition destroy (t : string) : resource_change :=
  entry (Some t) (Some ["delete"%string]) (Some AfterNull).

Definition instance (ty : string) : resource_change :=
  create "aws_instance" [("instance_type"%string, JStr ty)].

Definition database (cls : string) : resource_change :=
  create "aws_db_instance" [("instance_class"%string, JStr cls);
                            ("engine"%string, JStr "postgres")].

Definition load_balancer : resource_change :=
  create "aws_lb" [("internal"%string, JBool false)].

(** A replacement: the action list is [['delete', 'create']]. *)
Definition entry_replace_database : resource_change :=
  entry (Some "aws_db_instance"%string) (Some ["delete"; "create"]%string)
        (Some (AfterObj {[ "instance_class"%string := JStr "db.t3.micro" ]})).

Definition bucket : resource_change :=
  create "aws_s3_bucket" [("bucket"%string, JStr "logs")].

Definition plan_of (cs : list resource_change) : plan := mkPlan (Some cs).

(** A catalogue with one negative database price, [-0.0050000000]. *)
Definition credit_catalogue (svc : string) (fs : list Filter) : response :=
  match first_value fs with
  | JStr s =>
      if String.eqb svc "AmazonRDS" && String.eqb s "db.credit"
      then Response [Some (Dec.mk (-50000000) (-10))]
      else Raises
  | _ => Raises
  end.

Definition credit_estimator : AWSCostEstimator :=
  mkEstimator "eu-north-1" credit_catalogue.

End Samples.

(* ===================================================================== *)
(** ** Evaluation checks *)
(* ===================================================================== *)

(** The embedding, run on inputs for which Python's results are known. *)
Module Checks.
Import Plan Estimator.

Example alb_monthly_amount :
  Dec.mul (Dec.mul get_alb_price (Dec.of_int 730)) (Dec.of_int 1)
  = Dec.mk 164250 (-4).
Proof. reflexivity. Qed.

Example format_tie_to_even : Dec.format_2f (Dec.mk 164250 (-4)) = "16.42"%string.
Proof. reflexivity. Qed.

Example format_tie_to_odd_neighbour : Dec.format_2f (Dec.mk 15 (-3)) = "0.02"%string.
Proof. reflexivity. Qed.

Example format_nat_gateway : Dec.format_2f (Dec.mk 32850 (-3)) = "32.85"%string.
Proof. reflexivity. Qed.

Example format_small_negative : Dec.format_2f (Dec.mk (-1) (-3)) = "-0.00"%string.
Proof. reflexivity. Qed.

Example format_pads_zeros : Dec.format_2f (Dec.mk 12345 (-1)) = "1234.50"%string.
Proof. reflexivity. Qed.

Example format_positive_exponent : Dec.format_2f (Dec.mk 1 3) = "1000.00"%string.
Proof. reflexivity. Qed.

Example str_scientific_small : Dec.str (Dec.mk 1 (-7)) = "1E-7"%string.
Proof. reflexivity. Qed.

Example str_scientific_large : Dec.str (Dec.mk 1 3) = "1E+3"%string.
Proof. reflexivity. Qed.

Example str_catalogue_price :
  Dec.str (Dec.mk 416000000 (-10)) = "0.0416000000"%string.
Proof. reflexivity. Qed.

Example add_keeps_smaller_exponent :
  Dec.str (Dec.add (Dec.mk 0 (-20)) (Dec.mk 15 (-1)))
  = "1.50000000000000000000"%string.
Proof. vm_compute. reflexivity. Qed.

Example product_rounded_to_prec :
  let p := Dec.mk 1234567890123456789012345678 (-28) in
  Dec.mul (Dec.add (Dec.add (Dec.mk 0 0) p) p) (Dec.of_int 730)
  = Dec.mk 1802469119580246911958024690 (-25).
Proof. vm_compute. reflexivity. Qed.

Example full_run :
  estimate_cost Samples.estimator
    (Samples.plan_of
       [ Samples.instance "t3.micro"; Samples.instance "t3.nano";
         Samples.entry_replace_database; Samples.database "db.t3.micro";
         Samples.load_balancer; Samples.create "aws_alb" [];
         Samples.create "aws_nat_gateway" []; Samples.bucket;
         Samples.destroy "aws_instance" ])
  = Some (mkEstimate (Dec.mk 995720000000 (-10))
            [ "EC2 t3.micro: $0.0104000000/hour";
              "**EC2 Total**: $7.59/month";
              "RDS db.t3.micro: $0.0180000000/hour";
              "RDS db.t3.micro: $0.0180000000/hour";
              "**RDS Total**: $26.28/month";
              "ALB (2x): $32.85/month (excluding LCU)";
              "NAT Gateway (1x): $32.85/month (excluding data transfer)" ]%string
            (mkResources [JStr "t3.micro"; JStr "t3.nano"]
                         [JStr "db.t3.micro"; JStr "db.t3.micro"] 2 1)).
Proof. vm_compute. reflexivity. Qed.

(** A pure deletion is skipped before its [after] is looked at; the same
    entry under another action list stops the run. *)
Example null_after_raises :
  estimate_cost Samples.estimator
    (Samples.plan_of [entry (Some "aws_instance"%string)
                            (Some ["forget"%string]) (Some AfterNull)])
  = None.
Proof. reflexivity. Qed.

End Checks.

(* ===================================================================== *)
(** ** Facts about decimal rounding *)
(* ===================================================================== *)

Module DecFacts.
Import Dec.

Lemma pow10_pos (k : Z) : 0 <= k -> 0 < 10 ^ k.
Proof. intros; apply Z.pow_pos_nonneg; lia. Qed.

Lemma pow10_S (k : Z) : 0 <= k -> 10 ^ (k + 1) = 10 * 10 ^ k.
Proof. intros; rewrite Z.pow_add_r by lia; lia. Qed.

Lemma pow10_le (a b : Z) : 0 <= a <= b -> 10 ^ a <= 10 ^ b.
Proof. intros; apply Z.pow_le_mono_r; lia. Qed.

Lemma pow10_split (a b : Z) : 0 <= a <= b -> 10 ^ b = 10 ^ (b - a) * 10 ^ a.
Proof. intros; rewrite <- Z.pow_add_r by lia; f_equal; lia. Qed.

(** *** Number of digits *)

Lemma digits_fuel_spec (fuel : nat) :
  forall n, 0 < n < 2 ^ (Z.of_nat fuel + 1) ->
    1 <= digits_fuel fuel n /\
    10 ^ (digits_fuel fuel n - 1) <= n < 10 ^ digits_fuel fuel n.
Proof.
  induction fuel as [|f IH]; intros n Hn.
  - simpl in *. lia.
  - cbn [digits_fuel]. destruct (Z.ltb_spec n 10) as [Hlt|Hge].
    + simpl; lia.
    + assert (Hq : 0 < n / 10 < 2 ^ (Z.of_nat f + 1)).
      { split.
        - apply Z.div_str_pos; lia.
        - apply Z.div_lt_upper_bound; [lia|].
          replace (Z.of_nat (S f) + 1) with ((Z.of_nat f + 1) + 1) in Hn by lia.
          rewrite Z.pow_add_r in Hn by lia. lia. }
      destruct (IH _ Hq) as (H1 & H2 & H3).
      set (D := digits_fuel f (n / 10)) in *.
      replace (1 + D - 1) with ((D - 1) + 1) by lia.
      replace (1 + D) with (D + 1) by lia.
      rewrite !pow10_S by lia.
      pose proof (Z.div_mod n 10 ltac:(lia)) as E.
      pose proof (Z.mod_pos_bound n 10 ltac:(lia)) as B.
      lia.
Qed.

Lemma ndigits_spec (n : Z) : 0 < n ->
  1 <= ndigits n /\ 10 ^ (ndigits n - 1) <= n < 10 ^ ndigits n.
Proof.
  intros Hn. unfold ndigits. apply digits_fuel_spec.
  split; [lia|].
  rewrite Z2Nat.id by apply Z.log2_nonneg.
  replace (Z.log2 n + 1) with (Z.succ (Z.log2 n)) by lia.
  apply Z.log2_spec; lia.
Qed.

Lemma ndigits_0 : ndigits 0 = 1.
Proof. reflexivity. Qed.

Lemma ndigits_pos (n : Z) : 0 <= n -> 1 <= ndigits n.
Proof.
  intros Hn. destruct (Z.eq_dec n 0) as [->|].
  - rewrite ndigits_0; lia.
  - apply ndigits_spec; lia.
Qed.

(** The number of digits is determined by the decade. *)
Lemma ndigits_unique (n k : Z) :
  1 <= k -> 10 ^ (k - 1) <= n < 10 ^ k -> ndigits n = k.
Proof.
  intros Hk [Hlo Hhi].
  assert (Hn : 0 < n) by (pose proof (pow10_pos (k - 1)); lia).
  destruct (ndigits_spec n Hn) as (H1 & H2 & H3).
  set (D := ndigits n) in *.
  destruct (Z.lt_trichotomy D k) as [Hlt|[->|Hgt]]; [exfalso| reflexivity |exfalso].
  - pose proof (pow10_le D (k - 1) ltac:(lia)). lia.
  - pose proof (pow10_le k (D - 1) ltac:(lia)). lia.
Qed.

Lemma ndigits_le_iff (n k : Z) : 0 <= n -> 1 <= k ->
  ndigits n <= k <-> n < 10 ^ k.
Proof.
  intros Hn Hk. destruct (Z.eq_dec n 0) as [->|Hne].
  - rewrite ndigits_0. pose proof (pow10_pos k). lia.
  - destruct (ndigits_spec n ltac:(lia)) as (H1 & H2 & H3).
    set (D := ndigits n) in *. split; intros H.
    + pose proof (pow10_le D k ltac:(lia)). lia.
    + destruct (Z.le_gt_cases D k) as [|Hgt]; [assumption|exfalso].
      pose proof (pow10_le k (D - 1) ltac:(lia)). lia.
Qed.

Lemma ndigits_mono (a b : Z) : 0 <= a <= b -> ndigits a <= ndigits b.
Proof.
  intros [Ha Hab].
  pose proof (ndigits_pos b ltac:(lia)) as Hb.
  apply ndigits_le_iff; [lia | lia |].
  destruct (Z.eq_dec b 0) as [->|Hb0].
  - assert (a = 0) by lia; subst. rewrite ndigits_0. lia.
  - destruct (ndigits_spec b ltac:(lia)) as (_ & _ & H3). lia.
Qed.

Lemma ndigits_scale (n j : Z) : 0 < n -> 0 <= j ->
  ndigits (n * 10 ^ j) = ndigits n + j.
Proof.
  intros Hn Hj. destruct (ndigits_spec n Hn) as (H1 & H2 & H3).
  set (D := ndigits n) in *.
  apply ndigits_unique; [lia|].
  pose proof (pow10_pos j Hj).
  replace (D + j - 1) with ((D - 1) + j) by lia.
  rewrite !Z.pow_add_r by lia. nia.
Qed.

(** *** Rounding half to even *)

Lemma rhe_bounds (n s : Z) : 0 <= n -> 0 <= s ->
  n / 10 ^ s <= round_half_even n s <= n / 10 ^ s + 1.
Proof.
  intros Hn Hs. unfold round_half_even.
  repeat match goal with |- context [if ?b then _ else _] => destruct b end; lia.
Qed.

Lemma rhe_exact (m s : Z) : 0 <= s -> round_half_even (m * 10 ^ s) s = m.
Proof.
  intros Hs. unfold round_half_even. pose proof (pow10_pos s Hs) as Hd.
  rewrite Z.mod_mul, Z.div_mul by lia.
  destruct (Z.ltb_spec (2 * 0) (10 ^ s)); lia.
Qed.

Lemma rhe_scale (n s j : Z) : 0 <= n -> 0 <= s -> 0 <= j ->
  round_half_even (n * 10 ^ j) (s + j) = round_half_even n s.
Proof.
  intros Hn Hs Hj. unfold round_half_even.
  pose proof (pow10_pos s Hs) as Hd. pose proof (pow10_pos j Hj) as Hp.
  rewrite Z.pow_add_r by lia.
  rewrite Z.div_mul_cancel_r by lia.
  rewrite Z.mul_mod_distr_r by lia.
  set (q := n / 10 ^ s). set (r := n mod 10 ^ s). set (d := 10 ^ s) in *.
  set (t := 10 ^ j) in *.
  assert (E1 : (2 * (r * t) <? d * t) = (2 * r <? d)).
  { destruct (Z.ltb_spec (2 * r) d), (Z.ltb_spec (2 * (r * t)) (d * t)); nia. }
  assert (E2 : (d * t <? 2 * (r * t)) = (d <? 2 * r)).
  { destruct (Z.ltb_spec d (2 * r)), (Z.ltb_spec (d * t) (2 * (r * t))); nia. }
  rewrite E1, E2. reflexivity.
Qed.

Lemma rhe_mono (a b s : Z) : 0 <= a <= b -> 0 <= s ->
  round_half_even a s <= round_half_even b s.
Proof.
  intros [Ha Hab] Hs. pose proof (pow10_pos s Hs) as Hd.
  pose proof (rhe_bounds a s Ha Hs) as Ba.
  pose proof (rhe_bounds b s ltac:(lia) Hs) as Bb.
  assert (Hq : a / 10 ^ s <= b / 10 ^ s) by (apply Z.div_le_mono; lia).
  destruct (Z.eq_dec (a / 10 ^ s) (b / 10 ^ s)) as [E|NE]; [|lia].
  clear Ba Bb.
  assert (Hr : a mod 10 ^ s <= b mod 10 ^ s).
  { pose proof (Z.div_mod a (10 ^ s) ltac:(lia)).
    pose proof (Z.div_mod b (10 ^ s) ltac:(lia)). nia. }
  unfold round_half_even. rewrite E.
  set (q := b / 10 ^ s). set (ra := a mod 10 ^ s) in *.
  set (rb := b mod 10 ^ s) in *. set (d := 10 ^ s) in *.
  destruct (Z.ltb_spec (2 * ra) d), (Z.ltb_spec (2 * rb) d),
    (Z.ltb_spec d (2 * ra)), (Z.ltb_spec d (2 * rb)), (Z.even q); lia.
Qed.

(** *** [_fix] on non-negative coefficients *)

Lemma fix_spec (c e : Z) : 0 <= c ->
  let d := fix_ (mk c e) in
  (e <= exponent d) /\ (0 <= coefficient d < 10 ^ prec) /\ (coefficient d * 10 ^ (exponent d - e) = rnd c).
Proof.
  intros Hc. unfold fix_, rnd; cbn [coefficient exponent].
  rewrite Z.abs_eq by lia.
  destruct (Z.leb_spec (ndigits c) prec) as [Hle|Hgt]; cbn [coefficient exponent].
  - replace (e - e) with 0 by lia. rewrite Z.pow_0_r.
    split; [lia|]. split; [|lia].
    split; [lia|]. apply ndigits_le_iff; unfold prec in *; lia.
  - assert (Hc0 : 0 < c).
    { destruct (Z.eq_dec c 0) as [->|]; [rewrite ndigits_0 in Hgt; unfold prec in Hgt|]; lia. }
    destruct (ndigits_spec c Hc0) as (H1 & H2 & H3).
    set (n := ndigits c) in *. set (s := n - prec) in *.
    assert (Hs : 1 <= s) by (unfold s; lia).
    pose proof (pow10_pos s ltac:(lia)) as Hd.
    pose proof (rhe_bounds c s Hc ltac:(lia)) as Bq.
    set (q := round_half_even c s) in *.
    assert (Hq0 : 10 ^ (prec - 1) <= c / 10 ^ s < 10 ^ prec).
    { split.
      - apply Z.div_le_lower_bound; [lia|].
        rewrite Z.mul_comm, <- Z.pow_add_r by (unfold prec; lia).
        replace (prec - 1 + s) with (n - 1) by (unfold s; lia). lia.
      - apply Z.div_lt_upper_bound; [lia|].
        rewrite <- Z.pow_add_r by (unfold prec; lia).
        replace (s + prec) with n by (unfold s; lia). lia. }
    assert (Hsgn : Z.sgn c = 1) by (apply Z.sgn_pos; lia).
    rewrite Hsgn, !Z.mul_1_l.
    destruct (Z.ltb_spec prec (ndigits q)) as [Hbig|Hsmall]; cbn [coefficient exponent].
    + assert (Hq : q = 10 ^ prec).
      { assert (~ q < 10 ^ prec); [|lia].
        intros Hlt. apply (ndigits_le_iff q prec) in Hlt; unfold prec in *; lia. }
      rewrite Hq. replace (e + s + 1 - e) with (s + 1) by lia.
      rewrite pow10_S by lia.
      change (10 ^ prec) with (10 * 10 ^ (prec - 1)).
      rewrite Z.mul_comm, Z.div_mul by lia.
      split; [lia|]. split; [|lia]. unfold prec; simpl; lia.
    + replace (e + s - e) with s by lia.
      split; [lia|]. split; [|reflexivity].
      split; [lia|]. apply ndigits_le_iff; unfold prec in *; lia.
Qed.

Lemma rnd_nonneg (c : Z) : 0 <= c -> 0 <= rnd c.
Proof.
  intros Hc. unfold rnd.
  destruct (Z.leb_spec (ndigits c) prec) as [Hle|Hgt]; [lia|].
  pose proof (ndigits_pos c Hc).
  pose proof (rhe_bounds c (ndigits c - prec) Hc ltac:(unfold prec in *; lia)).
  pose proof (pow10_pos (ndigits c - prec) ltac:(unfold prec in *; lia)).
  pose proof (Z.div_pos c (10 ^ (ndigits c - prec)) Hc ltac:(lia)). nia.
Qed.

(** Scaling the coefficient by a power of ten scales its rounding. *)
Lemma rnd_scale (c j : Z) : 0 <= c -> 0 <= j -> rnd (c * 10 ^ j) = rnd c * 10 ^ j.
Proof.
  intros Hc Hj. destruct (Z.eq_dec c 0) as [->|Hc0]; [reflexivity|].
  unfold rnd. rewrite ndigits_scale by lia.
  pose proof (ndigits_pos c Hc) as Hn. set (n := ndigits c) in *.
  destruct (Z.leb_spec n prec) as [Hle|Hgt];
    destruct (Z.leb_spec (n + j) prec) as [Hle'|Hgt']; try lia.
  - (* the scaled coefficient is rounded on a multiple of its digits *)
    set (s := n + j - prec).
    rewrite (pow10_split s j) by (unfold s; lia).
    rewrite Z.mul_assoc, rhe_exact by (unfold s, prec in *; lia).
    rewrite <- Z.mul_assoc. reflexivity.
  - replace (n + j - prec) with ((n - prec) + j) by lia.
    rewrite rhe_scale by lia.
    rewrite Z.pow_add_r by lia. lia.
Qed.

Lemma rnd_mono (a b : Z) : 0 <= a <= b -> rnd a <= rnd b.
Proof.
  intros [Ha Hab].
  destruct (Z.eq_dec a 0) as [->|Ha0].
  { change (rnd 0) with 0. apply rnd_nonneg; lia. }
  pose proof (ndigits_mono a b ltac:(lia)) as Hn.
  destruct (ndigits_spec a ltac:(lia)) as (A1 & A2 & A3).
  destruct (ndigits_spec b ltac:(lia)) as (B1 & B2 & B3).
  unfold rnd.
  set (na := ndigits a) in *. set (nb := ndigits b) in *.
  destruct (Z.leb_spec na prec) as [Hla|Hga];
    destruct (Z.leb_spec nb prec) as [Hlb|Hgb]; try lia.
  - (* only [b] is rounded: [a < 10^prec <= rnd b] *)
    set (s := nb - prec) in *.
    pose proof (pow10_pos s ltac:(unfold s; lia)) as Hd.
    pose proof (rhe_bounds b s ltac:(lia) ltac:(unfold s; lia)) as Bq.
    assert (10 ^ (prec - 1) <= b / 10 ^ s).
    { apply Z.div_le_lower_bound; [lia|].
      rewrite Z.mul_comm, <- Z.pow_add_r by (unfold s, prec in *; lia).
      replace (prec - 1 + s) with (nb - 1) by (unfold s; lia). lia. }
    assert (a < 10 ^ prec).
    { pose proof (pow10_le na prec ltac:(lia)). lia. }
    assert (10 ^ prec <= 10 ^ (prec - 1) * 10 ^ s).
    { rewrite <- Z.pow_add_r by (unfold s, prec in *; lia).
      apply pow10_le. unfold s, prec in *; lia. }
    nia.
  - destruct (Z.eq_dec na nb) as [E|NE].
    + rewrite E. apply Z.mul_le_mono_nonneg_r.
      * pose proof (pow10_pos (nb - prec) ltac:(lia)); lia.
      * apply rhe_mono; lia.
    + (* [rnd a <= 10^na <= 10^(nb-1) <= rnd b] *)
      set (sa := na - prec) in *. set (sb := nb - prec) in *.
      pose proof (pow10_pos sa ltac:(unfold sa; lia)) as Hda.
      pose proof (pow10_pos sb ltac:(unfold sb; lia)) as Hdb.
      pose proof (rhe_bounds a sa ltac:(lia) ltac:(unfold sa; lia)) as Bqa.
      pose proof (rhe_bounds b sb ltac:(lia) ltac:(unfold sb; lia)) as Bqb.
      assert (a / 10 ^ sa < 10 ^ prec).
      { apply Z.div_lt_upper_bound; [lia|].
        rewrite <- Z.pow_add_r by (unfold sa, prec in *; lia).
        replace (sa + prec) with na by (unfold sa; lia). lia. }
      assert (10 ^ (prec - 1) <= b / 10 ^ sb).
      { apply Z.div_le_lower_bound; [lia|].
        rewrite Z.mul_comm, <- Z.pow_add_r by (unfold sb, prec in *; lia).
        replace (prec - 1 + sb) with (nb - 1) by (unfold sb; lia). lia. }
      assert (10 ^ prec * 10 ^ sa <= 10 ^ (prec - 1) * 10 ^ sb).
      { rewrite <- !Z.pow_add_r by (unfold sa, sb, prec in *; lia).
        apply pow10_le. unfold sa, sb, prec in *; lia. }
      nia.
Qed.

(** *** Values *)

Lemma ten_neq0 : ~ (10 == 0)%Q.
Proof. intros H; discriminate H. Qed.

Lemma pow10Q_pos (e : Z) : (0 < 10 ^ e)%Q.
Proof. apply Qpower_0_lt. reflexivity. Qed.

Lemma value_shift (c e j : Z) : 0 <= j ->
  (inject_Z (c * 10 ^ j) * 10 ^ e == inject_Z c * 10 ^ (e + j))%Q.
Proof.
  intros Hj. rewrite inject_Z_mult, Zpower_Qpower by lia.
  rewrite (Qpower_plus 10 e j ten_neq0).
  change (inject_Z 10) with 10%Q. ring.
Qed.

(** Two values compare as their coefficients on a common exponent. *)
Lemma value_le_common (a b : Decimal) (m : Z) :
  m <= exponent a -> m <= exponent b ->
  (value a <= value b)%Q <->
  coefficient a * 10 ^ (exponent a - m) <= coefficient b * 10 ^ (exponent b - m).
Proof.
  intros Ha Hb.
  assert (E : forall d, m <= exponent d ->
            (value d == inject_Z (coefficient d * 10 ^ (exponent d - m)) * 10 ^ m)%Q).
  { intros d Hd. unfold value. rewrite value_shift by lia.
    replace (m + (exponent d - m)) with (exponent d) by lia. reflexivity. }
  rewrite (E a Ha), (E b Hb).
  rewrite (Qmult_le_r _ _ (10 ^ m)%Q (pow10Q_pos m)).
  rewrite <- Zle_Qle. reflexivity.
Qed.

Lemma value_fix (d : Decimal) : nonneg d ->
  (value (fix_ d) == inject_Z (rnd (coefficient d)) * 10 ^ exponent d)%Q.
Proof.
  destruct d as [c e]; unfold nonneg; cbn [coefficient exponent]; intros Hc.
  destruct (fix_spec c e Hc) as (He & _ & Hr).
  rewrite <- Hr. unfold value.
  rewrite value_shift by lia.
  replace (e + (exponent (fix_ (mk c e)) - e)) with (exponent (fix_ (mk c e))) by lia.
  reflexivity.
Qed.

Lemma fix_nonneg (d : Decimal) : nonneg d -> nonneg (fix_ d).
Proof.
  destruct d as [c e]; unfold nonneg; cbn [coefficient]; intros Hc.
  destruct (fix_spec c e Hc) as (_ & H & _). lia.
Qed.

Lemma fix_fits (d : Decimal) : nonneg d -> fits (fix_ d).
Proof.
  destruct d as [c e]; unfold nonneg, fits; cbn [coefficient]; intros Hc.
  destruct (fix_spec c e Hc) as (_ & H & _). lia.
Qed.

(** [_fix] leaves a coefficient of at most [prec] digits as it is. *)
Lemma fix_id (d : Decimal) : fits d -> fix_ d = d.
Proof.
  unfold fits, fix_. intros H.
  destruct (Z.leb_spec (ndigits (Z.abs (coefficient d))) prec) as [|Hgt];
    [reflexivity|exfalso].
  apply (ndigits_le_iff (Z.abs (coefficient d)) prec) in H; unfold prec in *; lia.
Qed.

(** Rounding is monotone on non-negative decimals. *)
Lemma fix_mono (a b : Decimal) : nonneg a -> nonneg b ->
  (value a <= value b)%Q -> (value (fix_ a) <= value (fix_ b))%Q.
Proof.
  intros Ha Hb Hab. unfold nonneg in *.
  set (m := Z.min (exponent a) (exponent b)).
  apply (value_le_common a b m) in Hab; try (unfold m; lia).
  rewrite (value_fix a Ha), (value_fix b Hb).
  pose proof (pow10_pos (exponent a - m) ltac:(unfold m; lia)) as Pa.
  pose proof (pow10_pos (exponent b - m) ltac:(unfold m; lia)) as Pb.
  assert (H : rnd (coefficient a) * 10 ^ (exponent a - m)
              <= rnd (coefficient b) * 10 ^ (exponent b - m)).
  { rewrite <- !rnd_scale by (unfold m; lia). apply rnd_mono. nia. }
  apply (value_le_common (mk (rnd (coefficient a)) (exponent a))
           (mk (rnd (coefficient b)) (exponent b)) m);
    cbn [coefficient exponent]; unfold m; try lia. exact H.
Qed.

Lemma value_nonneg (d : Decimal) : nonneg d -> (0 <= value d)%Q.
Proof.
  intros H. unfold value. apply Qmult_le_0_compat.
  - change 0%Q with (inject_Z 0). rewrite <- Zle_Qle. exact H.
  - apply Qlt_le_weak, pow10Q_pos.
Qed.

Lemma value_add_exact (a b : Decimal) :
  (value (add_exact a b) == value a + value b)%Q.
Proof.
  unfold add_exact, value; cbn [coefficient exponent].
  set (m := Z.min (exponent a) (exponent b)).
  rewrite inject_Z_plus, Qmult_plus_distr_l.
  rewrite !value_shift by (unfold m; lia).
  replace (m + (exponent a - m)) with (exponent a) by lia.
  replace (m + (exponent b - m)) with (exponent b) by lia.
  reflexivity.
Qed.

Lemma value_mul_exact (a b : Decimal) :
  (value (mul_exact a b) == value a * value b)%Q.
Proof.
  unfold mul_exact, value; cbn [coefficient exponent].
  rewrite inject_Z_mult, (Qpower_plus 10 _ _ ten_neq0). ring.
Qed.

Lemma add_exact_nonneg (a b : Decimal) :
  nonneg a -> nonneg b -> nonneg (add_exact a b).
Proof.
  unfold nonneg, add_exact; cbn [coefficient]; intros Ha Hb.
  pose proof (pow10_pos (exponent a - Z.min (exponent a) (exponent b)) ltac:(lia)).
  pose proof (pow10_pos (exponent b - Z.min (exponent a) (exponent b)) ltac:(lia)).
  nia.
Qed.

Lemma mul_exact_nonneg (a b : Decimal) :
  nonneg a -> nonneg b -> nonneg (mul_exact a b).
Proof. unfold nonneg, mul_exact; cbn [coefficient]; nia. Qed.

Lemma add_nonneg (a b : Decimal) : nonneg a -> nonneg b -> nonneg (add a b).
Proof. intros; apply fix_nonneg, add_exact_nonneg; assumption. Qed.

Lemma mul_nonneg (a b : Decimal) : nonneg a -> nonneg b -> nonneg (mul a b).
Proof. intros; apply fix_nonneg, mul_exact_nonneg; assumption. Qed.

Lemma add_fits (a b : Decimal) : nonneg a -> nonneg b -> fits (add a b).
Proof. intros; apply fix_fits, add_exact_nonneg; assumption. Qed.

Lemma add_mono (a a' b b' : Decimal) :
  nonneg a -> nonneg a' -> nonneg b -> nonneg b' ->
  (value a <= value a')%Q -> (value b <= value b')%Q ->
  (value (add a b) <= value (add a' b'))%Q.
Proof.
  intros Ha Ha' Hb Hb' H1 H2. apply fix_mono.
  - apply add_exact_nonneg; assumption.
  - apply add_exact_nonneg; assumption.
  - rewrite !value_add_exact. apply Qplus_le_compat; assumption.
Qed.

Lemma mul_mono (a a' b : Decimal) :
  nonneg a -> nonneg a' -> nonneg b ->
  (value a <= value a')%Q -> (value (mul a b) <= value (mul a' b))%Q.
Proof.
  intros Ha Ha' Hb H. apply fix_mono.
  - apply mul_exact_nonneg; assumption.
  - apply mul_exact_nonneg; assumption.
  - rewrite !value_mul_exact. apply Qmult_le_compat_r; [assumption|].
    apply value_nonneg; assumption.
Qed.

(** Adding a non-negative decimal to a rounded one does not decrease it. *)
Lemma add_ge_l (a b : Decimal) : nonneg a -> fits a -> nonneg b ->
  (value a <= value (add a b))%Q.
Proof.
  intros Ha Fa Hb. rewrite <- (fix_id a Fa) at 1. apply fix_mono.
  - assumption.
  - apply add_exact_nonneg; assumption.
  - rewrite value_add_exact. pose proof (value_nonneg b Hb) as Hv.
    rewrite <- (Qplus_0_r (value a)) at 1.
    apply Qplus_le_compat; [apply Qle_refl | exact Hv].
Qed.

(** *** Positive coefficients and exact results *)

Lemma rnd_pos (c : Z) : 0 < c -> 0 < rnd c.
Proof.
  intros Hc. unfold rnd.
  destruct (Z.leb_spec (ndigits c) prec) as [Hle|Hgt]; [lia|].
  destruct (ndigits_spec c Hc) as (H1 & H2 & H3).
  set (n := ndigits c) in *. set (s := n - prec).
  assert (Hs : 1 <= s) by (unfold s; lia).
  pose proof (pow10_pos s ltac:(lia)) as Hd.
  pose proof (rhe_bounds c s ltac:(lia) ltac:(lia)) as Bq.
  assert (10 ^ (prec - 1) <= c / 10 ^ s).
  { apply Z.div_le_lower_bound; [lia|].
    rewrite Z.mul_comm, <- Z.pow_add_r by (unfold s, prec in *; lia).
    replace (prec - 1 + s) with (n - 1) by (unfold s; lia). lia. }
  pose proof (pow10_pos (prec - 1) ltac:(unfold prec; lia)). nia.
Qed.

Lemma fix_pos (d : Decimal) : 0 < coefficient d -> 0 < coefficient (fix_ d).
Proof.
  destruct d as [c e]; cbn [coefficient]; intros Hc.
  destruct (fix_spec c e ltac:(lia)) as (He & Hb & Hr).
  pose proof (rnd_pos c Hc) as Hp. rewrite <- Hr in Hp.
  pose proof (pow10_pos (exponent (fix_ (mk c e)) - e) ltac:(lia)). nia.
Qed.

Lemma add_pos (a b : Decimal) :
  nonneg a -> 0 < coefficient b -> 0 < coefficient (add a b).
Proof.
  unfold nonneg; intros Ha Hb. apply fix_pos.
  unfold add_exact; cbn [coefficient].
  pose proof (pow10_pos (exponent a - Z.min (exponent a) (exponent b)) ltac:(lia)).
  pose proof (pow10_pos (exponent b - Z.min (exponent a) (exponent b)) ltac:(lia)).
  nia.
Qed.

(** Adding to [Decimal('0')] a decimal whose exponent is not positive
    gives it back, digit for digit. *)
Lemma add_exact_zero_l (d : Decimal) :
  exponent d <= 0 -> add_exact (mk 0 0) d = d.
Proof.
  intros He. destruct d as [c e]; unfold add_exact; cbn [coefficient exponent] in *.
  rewrite Z.min_r by lia. rewrite Z.sub_diag, Z.pow_0_r. f_equal. lia.
Qed.

Lemma add_exact_exponent (a b : Decimal) :
  exponent (add_exact a b) = Z.min (exponent a) (exponent b).
Proof. reflexivity. Qed.

Lemma value_zero : (value (mk 0 0) == 0)%Q.
Proof. reflexivity. Qed.

Lemma value_of_int (n : Z) : (value (of_int n) == inject_Z n)%Q.
Proof. unfold value, of_int; cbn [coefficient exponent]. cbn. ring. Qed.

End DecFacts.

(* ===================================================================== *)
(** ** Facts about the parser *)
(* ===================================================================== *)

Module ParseFacts.
Import Plan Estimator.

Lemma res_app_nil_r (r : resources) : res_app r no_resources = r.
Proof.
  destruct r; unfold res_app; cbn.
  rewrite !app_nil_r, !Nat.add_0_r. reflexivity.
Qed.

Lemma res_app_nil_l (r : resources) : res_app no_resources r = r.
Proof. destruct r; reflexivity. Qed.

Lemma res_app_assoc (a b c : resources) :
  res_app (res_app a b) c = res_app a (res_app b c).
Proof.
  unfold res_app; cbn. rewrite <- !app_assoc, <- !Nat.add_assoc. reflexivity.
Qed.

(** What an entry adds does not depend on what was collected before. *)
Lemma classify_app (r : resources) (c : resource_change) :
  classify r c = option_map (res_app r) (classify no_resources c).
Proof.
  unfold classify.
  repeat match goal with
         | |- context [if ?b then _ else _] => destruct b
         | |- context [match ?x with Some _ => _ | None => _ end] => destruct x
         end; cbn; unfold res_app; cbn;
    rewrite ?app_nil_r, ?Nat.add_0_r, ?Nat.add_1_r; try reflexivity;
    destruct r; reflexivity.
Qed.

Lemma loop_body_app (r : resources) (c : resource_change) :
  loop_body r c = option_map (res_app r) (loop_body no_resources c).
Proof.
  unfold loop_body. destruct (delete_only c).
  - cbn. rewrite res_app_nil_r. reflexivity.
  - apply classify_app.
Qed.

Lemma parse_loop_res (cs : list resource_change) : forall r,
  parse_loop r cs = option_map (res_app r) (parse_loop no_resources cs).
Proof.
  induction cs as [|c cs IH]; intros r; cbn [parse_loop].
  - cbn. rewrite res_app_nil_r. reflexivity.
  - rewrite (loop_body_app r c).
    destruct (loop_body no_resources c) as [d|]; cbn [option_map]; [|reflexivity].
    rewrite (IH (res_app r d)), (IH d).
    destruct (parse_loop no_resources cs) as [t|]; cbn [option_map]; [|reflexivity].
    rewrite res_app_assoc. reflexivity.
Qed.

Lemma parse_loop_app (cs1 cs2 : list resource_change) : forall r,
  parse_loop r (cs1 ++ cs2) =
  match parse_loop r cs1 with
  | Some r' => parse_loop r' cs2
  | None => None
  end.
Proof.
  induction cs1 as [|c cs1 IH]; intros r; cbn [parse_loop app]; [reflexivity|].
  destruct (loop_body r c); [apply IH|reflexivity].
Qed.

(** The inventory of a plan with one more entry [c], in terms of the
    inventories of what comes before and after it. *)
Lemma parse_insert (pre post : list resource_change) (c : resource_change)
    (d : resources) :
  loop_body no_resources c = Some d ->
  parse_loop no_resources (pre ++ c :: post) =
  match parse_loop no_resources pre, parse_loop no_resources post with
  | Some a, Some b => Some (res_app a (res_app d b))
  | _, _ => None
  end.
Proof.
  intros Hd. rewrite parse_loop_app.
  destruct (parse_loop no_resources pre) as [a|]; [|reflexivity].
  cbn [parse_loop]. rewrite (loop_body_app a c), Hd. cbn [option_map].
  rewrite parse_loop_res.
  destruct (parse_loop no_resources post) as [b|]; cbn [option_map]; [|reflexivity].
  rewrite res_app_assoc. reflexivity.
Qed.

Lemma parse_concat (pre post : list resource_change) :
  parse_loop no_resources (pre ++ post) =
  match parse_loop no_resources pre, parse_loop no_resources post with
  | Some a, Some b => Some (res_app a b)
  | _, _ => None
  end.
Proof.
  rewrite parse_loop_app.
  destruct (parse_loop no_resources pre) as [a|]; [|reflexivity].
  rewrite parse_loop_res.
  destruct (parse_loop no_resources post) as [b|]; reflexivity.
Qed.

End ParseFacts.

(* ===================================================================== *)
(** ** Facts about the aggregation *)
(* ===================================================================== *)

Module AggFacts.
Import Plan Estimator DecFacts.

Lemma fst_price_fold (get_price : json -> option Dec.Decimal) (label : string)
    (ids : list json) : forall st,
  fst (fold_left (price_step get_price label) ids st)
  = fold_left (hourly_step get_price) ids (fst st).
Proof.
  induction ids as [|id ids IH]; intros st; cbn [fold_left]; [reflexivity|].
  rewrite IH. f_equal. unfold price_step, hourly_step.
  destruct (get_price id) as [p|]; [destruct (Dec.truthy p)|]; reflexivity.
Qed.

Lemma fst_price_loop get_price label ids bd :
  fst (price_loop get_price label ids bd) = hourly get_price ids.
Proof. unfold price_loop, hourly. apply fst_price_fold. Qed.

Lemma fst_add_total label h st : fst (add_total label h st) = tot h (fst st).
Proof. unfold add_total, tot. destruct (Dec.gt0 h); reflexivity. Qed.

Lemma fst_add_flat label note price n st :
  fst (add_flat label note price n st) = flat price n (fst st).
Proof. unfold add_flat, flat. destruct (0 <? n)%nat; reflexivity. Qed.

Lemma monthly_cost_aggregate self res :
  monthly_cost (aggregate self res) = total self res.
Proof.
  unfold aggregate, total; cbn [monthly_cost].
  rewrite !fst_add_flat, !fst_add_total. cbn [fst snd].
  rewrite !fst_price_loop. reflexivity.
Qed.

Lemma resources_aggregate self res : resources_ (aggregate self res) = res.
Proof. reflexivity. Qed.

Lemma zero_nonneg : Dec.nonneg (Dec.mk 0 0).
Proof. unfold Dec.nonneg; cbn; lia. Qed.

Lemma zero_fits : Dec.fits (Dec.mk 0 0).
Proof. unfold Dec.fits. vm_compute. reflexivity. Qed.

Lemma mul_comm (a b : Dec.Decimal) : Dec.mul a b = Dec.mul b a.
Proof.
  unfold Dec.mul, Dec.mul_exact. f_equal. f_equal; lia.
Qed.

Section Monotone.
Variable get_price : json -> option Dec.Decimal.
Hypothesis get_nonneg : forall id p, get_price id = Some p -> Dec.nonneg p.

Lemma hourly_step_inv (h : Dec.Decimal) (id : json) :
  Dec.nonneg h -> Dec.fits h ->
  Dec.nonneg (hourly_step get_price h id) /\
  Dec.fits (hourly_step get_price h id) /\
  (Dec.value h <= Dec.value (hourly_step get_price h id))%Q.
Proof.
  intros Hn Hf. unfold hourly_step.
  destruct (get_price id) as [p|] eqn:E;
    [destruct (Dec.truthy p)|]; try (repeat split; auto; apply Qle_refl).
  pose proof (get_nonneg _ _ E) as Hp.
  repeat split.
  - apply add_nonneg; assumption.
  - apply add_fits; assumption.
  - apply add_ge_l; assumption.
Qed.

Lemma hourly_fold_inv (ids : list json) : forall h,
  Dec.nonneg h -> Dec.fits h ->
  Dec.nonneg (fold_left (hourly_step get_price) ids h) /\
  Dec.fits (fold_left (hourly_step get_price) ids h) /\
  (Dec.value h <= Dec.value (fold_left (hourly_step get_price) ids h))%Q.
Proof.
  induction ids as [|id ids IH]; intros h Hn Hf; cbn [fold_left].
  - repeat split; auto. apply Qle_refl.
  - destruct (hourly_step_inv h id Hn Hf) as (H1 & H2 & H3).
    destruct (IH _ H1 H2) as (H4 & H5 & H6).
    repeat split; auto. eapply Qle_trans; eassumption.
Qed.

Lemma hourly_nonneg ids : Dec.nonneg (hourly get_price ids).
Proof. apply hourly_fold_inv; [apply zero_nonneg | apply zero_fits]. Qed.

(** A longer list of identifiers has an hourly sum at least as large. *)
Lemma hourly_app_le ids more :
  (Dec.value (hourly get_price ids)
   <= Dec.value (hourly get_price (ids ++ more)))%Q.
Proof.
  unfold hourly. rewrite fold_left_app.
  destruct (hourly_fold_inv ids (Dec.mk 0 0) zero_nonneg zero_fits) as (H1 & H2 & _).
  apply hourly_fold_inv; assumption.
Qed.
End Monotone.

Lemma of_int_nonneg (n : Z) : 0 <= n -> Dec.nonneg (Dec.of_int n).
Proof. unfold Dec.nonneg; cbn; lia. Qed.

Lemma gt0_false_value (h h' : Dec.Decimal) :
  Dec.nonneg h' -> Dec.gt0 h = true -> Dec.gt0 h' = false ->
  ~ (Dec.value h <= Dec.value h')%Q.
Proof.
  unfold Dec.nonneg, Dec.gt0. intros Hn Hh Hh' Hle.
  apply Z.ltb_lt in Hh. apply Z.ltb_ge in Hh'.
  set (m := Z.min (Dec.exponent h) (Dec.exponent h')).
  apply (value_le_common h h' m) in Hle; [| unfold m; lia | unfold m; lia].
  pose proof (pow10_pos (Dec.exponent h - m) ltac:(unfold m; lia)).
  pose proof (pow10_pos (Dec.exponent h' - m) ltac:(unfold m; lia)).
  nia.
Qed.

Lemma tot_inv (h m : Dec.Decimal) :
  Dec.nonneg h -> Dec.nonneg m -> Dec.fits m ->
  Dec.nonneg (tot h m) /\ Dec.fits (tot h m).
Proof.
  intros Hh Hm Hf. unfold tot. destruct (Dec.gt0 h); [|auto].
  assert (Dec.nonneg (Dec.mul h (Dec.of_int 730)))
    by (apply mul_nonneg; [assumption | apply of_int_nonneg; lia]).
  split; [apply add_nonneg | apply add_fits]; assumption.
Qed.

Lemma tot_mono (h h' m m' : Dec.Decimal) :
  Dec.nonneg h -> Dec.nonneg h' -> Dec.nonneg m -> Dec.nonneg m' ->
  Dec.fits m' ->
  (Dec.value h <= Dec.value h')%Q -> (Dec.value m <= Dec.value m')%Q ->
  (Dec.value (tot h m) <= Dec.value (tot h' m'))%Q.
Proof.
  intros Hh Hh' Hm Hm' Hf Lh Lm. unfold tot.
  assert (N730 : Dec.nonneg (Dec.of_int 730)) by (apply of_int_nonneg; lia).
  destruct (Dec.gt0 h) eqn:G, (Dec.gt0 h') eqn:G'.
  - apply add_mono; try assumption; try (apply mul_nonneg; assumption).
    apply mul_mono; assumption.
  - exfalso. exact (gt0_false_value h h' Hh' G G' Lh).
  - eapply Qle_trans; [exact Lm|].
    apply add_ge_l; try assumption. apply mul_nonneg; assumption.
  - exact Lm.
Qed.

Lemma flat_inv (price : Dec.Decimal) (n : nat) (m : Dec.Decimal) :
  Dec.nonneg price -> Dec.nonneg m -> Dec.fits m ->
  Dec.nonneg (flat price n m) /\ Dec.fits (flat price n m).
Proof.
  intros Hp Hm Hf. unfold flat. destruct (0 <? n)%nat; [|auto].
  assert (Dec.nonneg (Dec.mul (Dec.mul price (Dec.of_int 730))
                              (Dec.of_int (Z.of_nat n)))).
  { apply mul_nonneg; [apply mul_nonneg|]; try assumption;
      apply of_int_nonneg; lia. }
  split; [apply add_nonneg | apply add_fits]; assumption.
Qed.

Lemma value_of_int_le (a b : Z) : a <= b ->
  (Dec.value (Dec.of_int a) <= Dec.value (Dec.of_int b))%Q.
Proof.
  intros H. apply (value_le_common (Dec.of_int a) (Dec.of_int b) 0); cbn; lia.
Qed.

Lemma flat_mono (price : Dec.Decimal) (n n' : nat) (m m' : Dec.Decimal) :
  Dec.nonneg price -> Dec.nonneg m -> Dec.nonneg m' -> Dec.fits m' ->
  (n <= n')%nat -> (Dec.value m <= Dec.value m')%Q ->
  (Dec.value (flat price n m) <= Dec.value (flat price n' m'))%Q.
Proof.
  intros Hp Hm Hm' Hf Ln Lm. unfold flat.
  assert (N730 : Dec.nonneg (Dec.mul price (Dec.of_int 730)))
    by (apply mul_nonneg; [assumption | apply of_int_nonneg; lia]).
  destruct (Nat.ltb_spec 0 n) as [Hn|Hn], (Nat.ltb_spec 0 n') as [Hn'|Hn']; try lia.
  - apply add_mono; try assumption;
      try (apply mul_nonneg; [assumption | apply of_int_nonneg; lia]).
    rewrite (mul_comm _ (Dec.of_int (Z.of_nat n))),
            (mul_comm _ (Dec.of_int (Z.of_nat n'))).
    apply mul_mono; try assumption; try (apply of_int_nonneg; lia).
    apply value_of_int_le; lia.
  - eapply Qle_trans; [exact Lm|].
    apply add_ge_l; try assumption.
    apply mul_nonneg; [assumption | apply of_int_nonneg; lia].
  - exact Lm.
Qed.

(** The total cost does not decrease when the inventory grows. *)
Lemma total_mono (self : AWSCostEstimator) (r d : resources) :
  prices_nonneg self ->
  (Dec.value (total self r) <= Dec.value (total self (res_app r d)))%Q.
Proof.
  intros Hp. unfold total, res_app; cbn [ec2_instances rds_instances albs nat_gateways].
  assert (Hec2 : forall id p, get_ec2_price self id = Some p -> Dec.nonneg p)
    by (intros id p E; apply (Hp id p); left; exact E).
  assert (Hrds : forall id p, get_rds_price self id = Some p -> Dec.nonneg p)
    by (intros id p E; apply (Hp id p); right; exact E).
  assert (Nalb : Dec.nonneg get_alb_price) by (unfold Dec.nonneg; cbn; lia).
  assert (Nnat : Dec.nonneg get_nat_gateway_price) by (unfold Dec.nonneg; cbn; lia).
  pose proof (hourly_nonneg _ Hec2 (ec2_instances r)) as E1.
  pose proof (hourly_nonneg _ Hec2 (ec2_instances r ++ ec2_instances d)) as E2.
  pose proof (hourly_nonneg _ Hrds (rds_instances r)) as R1.
  pose proof (hourly_nonneg _ Hrds (rds_instances r ++ rds_instances d)) as R2.
  pose proof (hourly_app_le _ Hec2 (ec2_instances r) (ec2_instances d)) as LE.
  pose proof (hourly_app_le _ Hrds (rds_instances r) (rds_instances d)) as LR.
  destruct (tot_inv _ _ E1 zero_nonneg zero_fits) as (A1 & A1').
  destruct (tot_inv _ _ E2 zero_nonneg zero_fits) as (A2 & A2').
  destruct (tot_inv _ _ R1 A1 A1') as (B1 & B1').
  destruct (tot_inv _ _ R2 A2 A2') as (B2 & B2').
  destruct (flat_inv _ (albs r) _ Nalb B1 B1') as (C1 & C1').
  destruct (flat_inv _ (albs r + albs d) _ Nalb B2 B2') as (C2 & C2').
  apply flat_mono; try assumption; [lia|].
  apply flat_mono; try assumption; [lia|].
  apply tot_mono; try assumption.
  apply tot_mono; try assumption;
    first [apply Qle_refl | apply zero_nonneg | apply zero_fits].
Qed.

(** *** Items without a usable price *)

Lemma price_step_unpriced get_price label st id :
  unpriced (get_price id) = true -> price_step get_price label st id = st.
Proof.
  unfold unpriced, price_step. destruct (get_price id) as [p|]; [|reflexivity].
  destruct (Dec.truthy p); [discriminate|reflexivity].
Qed.

Lemma price_loop_skip get_price label a id b bd :
  unpriced (get_price id) = true ->
  price_loop get_price label (a ++ id :: b) bd
  = price_loop get_price label (a ++ b) bd.
Proof.
  intros H. unfold price_loop. rewrite !fold_left_app. cbn [fold_left].
  rewrite price_step_unpriced by exact H. reflexivity.
Qed.

Lemma aggregate_skip_ec2 self a id b rds n k :
  unpriced (get_ec2_price self id) = true ->
  monthly_cost (aggregate self (mkResources (a ++ id :: b) rds n k))
  = monthly_cost (aggregate self (mkResources (a ++ b) rds n k)) /\
  breakdown (aggregate self (mkResources (a ++ id :: b) rds n k))
  = breakdown (aggregate self (mkResources (a ++ b) rds n k)).
Proof.
  intros H. unfold aggregate; cbn [ec2_instances rds_instances albs nat_gateways
                                   monthly_cost breakdown fst snd].
  rewrite (price_loop_skip _ _ a id b _ H). split; reflexivity.
Qed.

Lemma aggregate_skip_rds self ec2 a id b n k :
  unpriced (get_rds_price self id) = true ->
  monthly_cost (aggregate self (mkResources ec2 (a ++ id :: b) n k))
  = monthly_cost (aggregate self (mkResources ec2 (a ++ b) n k)) /\
  breakdown (aggregate self (mkResources ec2 (a ++ id :: b) n k))
  = breakdown (aggregate self (mkResources ec2 (a ++ b) n k)).
Proof.
  intros H. unfold aggregate; cbn [ec2_instances rds_instances albs nat_gateways
                                   monthly_cost breakdown fst snd].
  rewrite (price_loop_skip _ _ a id b _ H). split; reflexivity.
Qed.

(** *** Dependence on the catalogue *)

Lemma price_fold_ext (g1 g2 : json -> option Dec.Decimal) label ids :
  (forall id, In id ids -> g1 id = g2 id) ->
  forall st, fold_left (price_step g1 label) ids st
             = fold_left (price_step g2 label) ids st.
Proof.
  induction ids as [|id ids IH]; intros H st; cbn [fold_left]; [reflexivity|].
  assert (E : price_step g1 label st id = price_step g2 label st id).
  { unfold price_step. rewrite (H id) by (left; reflexivity). reflexivity. }
  rewrite E. apply IH. intros id' Hin. apply H. right; exact Hin.
Qed.

Lemma aggregate_ext (self1 self2 : AWSCostEstimator) (res : resources) :
  (forall id, In id (ec2_instances res) ->
              get_ec2_price self1 id = get_ec2_price self2 id) ->
  (forall id, In id (rds_instances res) ->
              get_rds_price self1 id = get_rds_price self2 id) ->
  aggregate self1 res = aggregate self2 res.
Proof.
  intros H1 H2. unfold aggregate, price_loop.
  rewrite (price_fold_ext _ _ "EC2" _ H1).
  rewrite (price_fold_ext _ _ "RDS" _ H2).
  reflexivity.
Qed.

End AggFacts.

(* ===================================================================== *)
(** ** Totals without rounding *)
(* ===================================================================== *)

Module ExactFacts.
Import Dec DecFacts.

Lemma pow10Q_le (a b : Z) : a <= b -> (10 ^ a <= 10 ^ b)%Q.
Proof. intros H. apply Qpower_le_compat_l; [exact H|]. discriminate. Qed.

Lemma value_coeff0 (d : Decimal) : coefficient d = 0 -> (value d == 0)%Q.
Proof. intros H. unfold value. rewrite H. ring. Qed.

(** A non-negative decimal below [10^(prec+E)] whose exponent is at least
    [E] has at most [prec] digits. *)
Lemma fits_of_value (d : Decimal) (E : Z) :
  nonneg d -> E <= exponent d -> (value d < 10 ^ (prec + E))%Q -> fits d.
Proof.
  unfold nonneg, fits. intros Hn He Hv.
  rewrite Z.abs_eq by exact Hn.
  destruct (Z.lt_ge_cases (coefficient d) (10 ^ prec)) as [|Hge]; [assumption|].
  exfalso. apply (Qlt_not_le _ _ Hv).
  assert (Hb : (value (mk 1 (prec + E)) == 10 ^ (prec + E))%Q)
    by (unfold value; cbn [coefficient exponent]; ring).
  rewrite <- Hb.
  apply (value_le_common (mk 1 (prec + E)) d E); cbn [coefficient exponent];
    [unfold prec; lia | exact He |].
  replace (prec + E - E) with prec by lia.
  pose proof (pow10_pos (exponent d - E) ltac:(lia)).
  pose proof (pow10_pos prec ltac:(unfold prec; lia)). nia.
Qed.

Lemma holds_nonneg E d q : holds E d q -> (0 <= q)%Q.
Proof. intros (Hn & _ & Hv). rewrite <- Hv. apply value_nonneg, Hn. Qed.

Lemma add_holds (E : Z) (a b : Decimal) (qa qb : Q) :
  holds E a qa -> holds E b qb -> (qa + qb < 10 ^ (prec + E))%Q ->
  holds E (add a b) (qa + qb).
Proof.
  intros (Na & Ea & Va) (Nb & Eb & Vb) Hlt.
  assert (Hv : (value (add_exact a b) == qa + qb)%Q)
    by (rewrite value_add_exact, Va, Vb; reflexivity).
  assert (Hf : fits (add_exact a b)).
  { apply (fits_of_value _ E).
    - apply add_exact_nonneg; assumption.
    - rewrite add_exact_exponent. lia.
    - rewrite Hv. exact Hlt. }
  unfold add. rewrite (fix_id _ Hf). repeat split.
  - apply add_exact_nonneg; assumption.
  - rewrite add_exact_exponent. lia.
  - exact Hv.
Qed.

Lemma mul_int_holds (E : Z) (a : Decimal) (qa : Q) (n : Z) :
  holds E a qa -> 0 <= n -> (qa * inject_Z n < 10 ^ (prec + E))%Q ->
  holds E (mul a (of_int n)) (qa * inject_Z n).
Proof.
  intros (Na & Ea & Va) Hn Hlt.
  assert (Hv : (value (mul_exact a (of_int n)) == qa * inject_Z n)%Q)
    by (rewrite value_mul_exact, value_of_int, Va; reflexivity).
  assert (Hnn : nonneg (mul_exact a (of_int n)))
    by (apply mul_exact_nonneg; [exact Na | unfold nonneg; cbn; exact Hn]).
  assert (Hf : fits (mul_exact a (of_int n))).
  { apply (fits_of_value _ E); [exact Hnn | cbn; lia | rewrite Hv; exact Hlt]. }
  unfold mul. rewrite (fix_id _ Hf). repeat split.
  - exact Hnn.
  - cbn. lia.
  - exact Hv.
Qed.

End ExactFacts.

Module ExactAgg.
Import Plan Estimator DecFacts ExactFacts.

Lemma hourly_exact_nonneg get_price ids :
  (forall id p, get_price id = Some p -> Dec.nonneg p) ->
  (0 <= hourly_exact get_price ids)%Q.
Proof.
  intros Hn. induction ids as [|id ids IH]; cbn [hourly_exact]; [apply Qle_refl|].
  assert (0 <= price_value (get_price id))%Q.
  { unfold price_value. destruct (get_price id) as [p|] eqn:E; [|apply Qle_refl].
    apply value_nonneg, (Hn id p E). }
  lra.
Qed.

Lemma hourly_fold_holds (E : Z) get_price :
  (forall id p, get_price id = Some p -> Dec.nonneg p /\ E <= Dec.exponent p) ->
  forall ids h q,
    Dec.holds E h q ->
    (q + hourly_exact get_price ids < 10 ^ (Dec.prec + E))%Q ->
    Dec.holds E (fold_left (hourly_step get_price) ids h)
                (q + hourly_exact get_price ids).
Proof.
  intros Hp. induction ids as [|id ids IH]; intros h q Hh Hlt;
    cbn [fold_left hourly_exact] in *.
  - destruct Hh as (H1 & H2 & H3). repeat split; try assumption.
    rewrite H3. ring.
  - assert (Hrest : (0 <= hourly_exact get_price ids)%Q)
      by (apply hourly_exact_nonneg; intros i p' E'; apply (Hp i p' E')).
    assert (Hstep : Dec.holds E (hourly_step get_price h id)
                      (q + price_value (get_price id))).
    { unfold hourly_step, price_value.
      destruct (get_price id) as [p|] eqn:Ep.
      - destruct (Hp id p Ep) as [Np Xp].
        destruct (Dec.truthy p) eqn:T.
        + apply add_holds; [exact Hh | repeat split; auto; reflexivity |].
          unfold price_value in Hlt. lra.
        + destruct Hh as (H1 & H2 & H3). repeat split; try assumption.
          unfold Dec.truthy in T. apply negb_false_iff, Z.eqb_eq in T.
          rewrite (value_coeff0 p T), H3. ring.
      - destruct Hh as (H1 & H2 & H3). repeat split; try assumption.
        rewrite H3. ring. }
    assert (Hq : (q + price_value (get_price id) + hourly_exact get_price ids
                  < 10 ^ (Dec.prec + E))%Q) by lra.
    destruct (IH _ _ Hstep Hq) as (H1 & H2 & H3).
    repeat split; try assumption. rewrite H3. ring.
Qed.

Lemma zero_holds (E : Z) : E <= 0 -> Dec.holds E (Dec.mk 0 0) 0.
Proof.
  intros H. unfold Dec.holds, Dec.nonneg. cbn [Dec.coefficient Dec.exponent].
  repeat split; first [lia | reflexivity].
Qed.

Lemma hourly_holds (E : Z) get_price ids :
  E <= 0 ->
  (forall id p, get_price id = Some p -> Dec.nonneg p /\ E <= Dec.exponent p) ->
  (hourly_exact get_price ids < 10 ^ (Dec.prec + E))%Q ->
  Dec.holds E (hourly get_price ids) (hourly_exact get_price ids).
Proof.
  intros HE Hp Hlt.
  destruct (hourly_fold_holds E get_price Hp ids (Dec.mk 0 0) 0 (zero_holds E HE))
    as (H1 & H2 & H3); [lra|].
  repeat split; try assumption. unfold hourly. rewrite H3. ring.
Qed.

Lemma tot_holds (E : Z) (h m : Dec.Decimal) (qh qm : Q) :
  Dec.holds E h qh -> Dec.holds E m qm ->
  (qm + 730 * qh < 10 ^ (Dec.prec + E))%Q ->
  Dec.holds E (tot h m) (qm + 730 * qh).
Proof.
  intros Hh Hm Hlt. unfold tot.
  pose proof (holds_nonneg _ _ _ Hh) as Ph.
  pose proof (holds_nonneg _ _ _ Hm) as Pm.
  destruct (Dec.gt0 h) eqn:G.
  - assert (Hmul : Dec.holds E (Dec.mul h (Dec.of_int 730)) (qh * inject_Z 730)).
    { apply mul_int_holds; [exact Hh | lia |].
      change (inject_Z 730) with 730%Q. lra. }
    destruct (add_holds E _ _ _ _ Hm Hmul) as (H1 & H2 & H3).
    + change (inject_Z 730) with 730%Q. lra.
    + repeat split; try assumption. rewrite H3.
      change (inject_Z 730) with 730%Q. ring.
  - destruct Hh as (Nh & _ & Vh). destruct Hm as (H1 & H2 & H3).
    repeat split; try assumption.
    unfold Dec.gt0 in G. apply Z.ltb_ge in G. unfold Dec.nonneg in Nh.
    assert (Z0 : Dec.coefficient h = 0) by lia.
    rewrite <- Vh, (value_coeff0 h Z0), H3. ring.
Qed.

Lemma flat_holds (E : Z) (price m : Dec.Decimal) (n : nat) (qm : Q) :
  Dec.nonneg price -> E <= Dec.exponent price -> Dec.holds E m qm ->
  (qm + inject_Z (Z.of_nat n) * (Dec.value price * 730) < 10 ^ (Dec.prec + E))%Q ->
  Dec.holds E (flat price n m)
              (qm + inject_Z (Z.of_nat n) * (Dec.value price * 730)).
Proof.
  intros Np Ep Hm Hlt. unfold flat.
  pose proof (holds_nonneg _ _ _ Hm) as Pm.
  pose proof (value_nonneg price Np) as Pp.
  destruct (Nat.ltb_spec 0 n) as [Hn|Hn].
  - assert (H1n : (1 <= inject_Z (Z.of_nat n))%Q).
    { change 1%Q with (inject_Z 1). rewrite <- Zle_Qle. lia. }
    set (k := inject_Z (Z.of_nat n)) in *.
    set (v := Dec.value price) in *.
    assert (Hkv : (v * 730 <= k * (v * 730))%Q) by nra.
    assert (Hbase : Dec.holds E (Dec.mul price (Dec.of_int 730)) (v * inject_Z 730)).
    { apply mul_int_holds; [repeat split; auto; reflexivity | lia |].
      change (inject_Z 730) with 730%Q. lra. }
    assert (Hmul : Dec.holds E (Dec.mul (Dec.mul price (Dec.of_int 730))
                                        (Dec.of_int (Z.of_nat n)))
                              (v * inject_Z 730 * k)).
    { apply mul_int_holds; [exact Hbase | lia |].
      fold k. change (inject_Z 730) with 730%Q. lra. }
    destruct (add_holds E _ _ _ _ Hm Hmul) as (H1 & H2 & H3).
    + change (inject_Z 730) with 730%Q. lra.
    + repeat split; try assumption. rewrite H3.
      change (inject_Z 730) with 730%Q. ring.
  - assert (n = 0)%nat as -> by lia.
    destruct Hm as (H1 & H2 & H3). repeat split; try assumption.
    rewrite H3. cbn. ring.
Qed.

(** With prices that are zero or more and a total below [10^(28+E)], no
    operation of the run rounds: the total is the exact one. *)
Lemma total_exact (E : Z) (self : AWSCostEstimator) (res : resources) :
  E <= -4 -> prices_nonneg self -> prices_above E self ->
  (exact_total self res < 10 ^ (Dec.prec + E))%Q ->
  Dec.holds E (total self res) (exact_total self res).
Proof.
  intros HE Hn Ha Hlt. unfold exact_total in *.
  assert (Hec2 : forall id p, get_ec2_price self id = Some p ->
                   Dec.nonneg p /\ E <= Dec.exponent p).
  { intros id p Ep. split; [apply (Hn id p) | apply (Ha id p)]; left; exact Ep. }
  assert (Hrds : forall id p, get_rds_price self id = Some p ->
                   Dec.nonneg p /\ E <= Dec.exponent p).
  { intros id p Ep. split; [apply (Hn id p) | apply (Ha id p)]; right; exact Ep. }
  pose proof (hourly_exact_nonneg (get_ec2_price self) (ec2_instances res)
                (fun id p Ep => proj1 (Hec2 id p Ep))) as Pe.
  pose proof (hourly_exact_nonneg (get_rds_price self) (rds_instances res)
                (fun id p Ep => proj1 (Hrds id p Ep))) as Pr.
  set (qe := hourly_exact (get_ec2_price self) (ec2_instances res)) in *.
  set (qr := hourly_exact (get_rds_price self) (rds_instances res)) in *.
  assert (Pa : (0 <= inject_Z (Z.of_nat (albs res)) * (Dec.value get_alb_price * 730))%Q).
  { apply Qmult_le_0_compat.
    - change 0%Q with (inject_Z 0). rewrite <- Zle_Qle. lia.
    - vm_compute. discriminate. }
  assert (Pn : (0 <= inject_Z (Z.of_nat (nat_gateways res))
                     * (Dec.value get_nat_gateway_price * 730))%Q).
  { apply Qmult_le_0_compat.
    - change 0%Q with (inject_Z 0). rewrite <- Zle_Qle. lia.
    - vm_compute. discriminate. }
  set (qa := (inject_Z (Z.of_nat (albs res)) * (Dec.value get_alb_price * 730))%Q) in *.
  set (qn := (inject_Z (Z.of_nat (nat_gateways res))
              * (Dec.value get_nat_gateway_price * 730))%Q) in *.
  assert (He : Dec.holds E (hourly (get_ec2_price self) (ec2_instances res)) qe).
  { apply hourly_holds; [lia | exact Hec2 | fold qe; lra]. }
  assert (Hr : Dec.holds E (hourly (get_rds_price self) (rds_instances res)) qr).
  { apply hourly_holds; [lia | exact Hrds | fold qr; lra]. }
  assert (H1 : Dec.holds E (tot (hourly (get_ec2_price self) (ec2_instances res))
                               (Dec.mk 0 0)) (0 + 730 * qe)).
  { apply tot_holds; [exact He | apply zero_holds; lia | lra]. }
  assert (H2 : Dec.holds E
                 (tot (hourly (get_rds_price self) (rds_instances res))
                    (tot (hourly (get_ec2_price self) (ec2_instances res))
                       (Dec.mk 0 0))) (0 + 730 * qe + 730 * qr)).
  { apply tot_holds; [exact Hr | exact H1 | lra]. }
  unfold total.
  assert (H3 : Dec.holds E
                 (flat get_alb_price (albs res)
                    (tot (hourly (get_rds_price self) (rds_instances res))
                       (tot (hourly (get_ec2_price self) (ec2_instances res))
                          (Dec.mk 0 0)))) (0 + 730 * qe + 730 * qr + qa)).
  { apply flat_holds; [unfold Dec.nonneg; cbn; lia | cbn; lia | exact H2 |].
    fold qa. lra. }
  destruct (flat_holds E get_nat_gateway_price _ (nat_gateways res) _
              ltac:(unfold Dec.nonneg; cbn; lia) ltac:(cbn; lia) H3)
    as (G1 & G2 & G3).
  - fold qn. lra.
  - repeat split; try assumption. rewrite G3. fold qn. ring.
Qed.

(** One step of a price loop on an accumulator that has not been rounded. *)
Lemma hourly_step_holds (E : Z) get_price (h : Dec.Decimal) (q : Q)
    (id : json) (p : Dec.Decimal) :
  get_price id = Some p -> Dec.nonneg p -> E <= Dec.exponent p ->
  Dec.holds E h q -> (q + Dec.value p < 10 ^ (Dec.prec + E))%Q ->
  Dec.holds E (hourly_step get_price h id) (q + Dec.value p).
Proof.
  intros Ep Np Xp Hh Hlt. unfold hourly_step. rewrite Ep.
  destruct (Dec.truthy p) eqn:T.
  - apply add_holds; [exact Hh | repeat split; auto; reflexivity | exact Hlt].
  - destruct Hh as (H1 & H2 & H3). repeat split; try assumption.
    unfold Dec.truthy in T. apply negb_false_iff, Z.eqb_eq in T.
    rewrite (value_coeff0 p T), H3. ring.
Qed.

End ExactAgg.

(* ===================================================================== *)
(** ** The properties of the specification *)
(* ===================================================================== *)

Import Plan Estimator.

Lemma is_type_recognised (t : option string) (tag : string) :
  recognised t = false ->
  In tag ["aws_instance"; "aws_launch_template"; "aws_db_instance";
          "aws_lb"; "aws_alb"; "aws_nat_gateway"]%string ->
  is_type t tag = false.
Proof.
  unfold recognised. intros H Hin.
  repeat (apply orb_false_elim in H; destruct H as [H ?]).
  cbn [In] in Hin.
  repeat (destruct Hin as [<-|Hin]; [assumption|]). contradiction.
Qed.

Lemma parse_all_deleted (cs : list resource_change) :
  (forall c, In c cs -> change_action c = ["delete"%string]) ->
  forall r, parse_loop r cs = Some r.
Proof.
  induction cs as [|c cs IH]; intros H r; cbn [parse_loop]; [reflexivity|].
  unfold loop_body, delete_only.
  rewrite bool_decide_eq_true_2 by (apply H; left; reflexivity).
  apply IH. intros c' Hin. apply H. right; exact Hin.
Qed.

(** C2.  When the action list of every entry of [resource_changes] is
    exactly [['delete']], the run returns a monthly cost of 0, an empty
    breakdown and an empty inventory, whatever the catalogue, and whatever
    the entries' types and [after] values (a JSON [null] included). *)
Theorem C2_all_deleted_costs_nothing (self : AWSCostEstimator) (p : plan) :
  (forall c, In c (changes_of p) -> change_action c = ["delete"%string]) ->
  estimate_cost self p = Some (mkEstimate (Dec.mk 0 0) [] no_resources).
Proof.
  intros H. unfold estimate_cost, parse_terraform_plan.
  rewrite (parse_all_deleted _ H). reflexivity.
Qed.

Lemma C2_witness :
  estimate_cost Samples.estimator
    (Samples.plan_of [Samples.destroy "aws_instance"; Samples.destroy "aws_lb";
                      entry (Some "aws_db_instance"%string)
                            (Some ["delete"%string]) None])
  = Some (mkEstimate (Dec.mk 0 0) [] no_resources).
Proof.
  apply C2_all_deleted_costs_nothing.
  intros c Hin. cbn in Hin.
  destruct Hin as [<-|[<-|[<-|[]]]]; reflexivity.
Defined.

(** *** Skipping and classification *)

Lemma loop_body_delete (c : resource_change) (r : resources) :
  change_action c = ["delete"%string] -> loop_body r c = Some r.
Proof.
  intros H. unfold loop_body, delete_only.
  rewrite bool_decide_eq_true_2 by exact H. reflexivity.
Qed.

Lemma loop_body_other (c : resource_change) (r : resources) :
  change_action c <> ["delete"%string] -> loop_body r c = classify r c.
Proof.
  intros H. unfold loop_body, delete_only.
  rewrite bool_decide_eq_false_2 by exact H. reflexivity.
Qed.

Lemma classify_lb (c : resource_change) (r : resources) :
  (is_type (type_ c) "aws_lb" || is_type (type_ c) "aws_alb") = true ->
  classify r c = Some (mkResources (ec2_instances r) (rds_instances r)
                         (S (albs r)) (nat_gateways r)).
Proof.
  intros H. unfold classify. destruct (type_ c) as [t|]; [|discriminate H].
  cbn [is_type] in *.
  destruct (String.eqb_spec t "aws_lb") as [E1|N1]; [subst t; reflexivity|].
  destruct (String.eqb_spec t "aws_alb") as [E2|N2]; [subst t; reflexivity|].
  discriminate H.
Qed.

Lemma parse_plan_insert (pre post : list resource_change) (c : resource_change) :
  parse_terraform_plan (mkPlan (Some (pre ++ c :: post)))
  = place (parse_terraform_plan (mkPlan (Some pre)))
          (loop_body no_resources c)
          (parse_terraform_plan (mkPlan (Some post))).
Proof.
  unfold parse_terraform_plan, changes_of, place; cbn [resource_changes].
  rewrite ParseFacts.parse_loop_app.
  destruct (parse_loop no_resources pre) as [a|]; [|reflexivity].
  cbn [parse_loop]. rewrite (ParseFacts.loop_body_app a c).
  destruct (loop_body no_resources c) as [d|]; cbn [option_map]; [|reflexivity].
  rewrite ParseFacts.parse_loop_res.
  destruct (parse_loop no_resources post) as [b|]; cbn [option_map]; [|reflexivity].
  rewrite ParseFacts.res_app_assoc. reflexivity.
Qed.

Lemma parse_plan_concat (pre post : list resource_change) :
  parse_terraform_plan (mkPlan (Some (pre ++ post)))
  = place (parse_terraform_plan (mkPlan (Some pre))) (Some no_resources)
          (parse_terraform_plan (mkPlan (Some post))).
Proof.
  unfold parse_terraform_plan, changes_of, place; cbn [resource_changes].
  rewrite ParseFacts.parse_concat.
  destruct (parse_loop no_resources pre) as [a|]; [|reflexivity].
  destruct (parse_loop no_resources post) as [b|]; [|reflexivity].
  rewrite ParseFacts.res_app_nil_l. reflexivity.
Qed.

(** A load-balancer entry that is not a pure deletion, anywhere in a plan:
    the parser returns the inventory of the plan without it, with one more
    load balancer. *)
Lemma parse_plan_with_lb (pre post : list resource_change) (c : resource_change)
    (r0 : resources) :
  (is_type (type_ c) "aws_lb" || is_type (type_ c) "aws_alb") = true ->
  delete_only c = false ->
  parse_terraform_plan (mkPlan (Some (pre ++ post))) = Some r0 ->
  parse_terraform_plan (mkPlan (Some (pre ++ c :: post)))
  = Some (mkResources (ec2_instances r0) (rds_instances r0)
            (S (albs r0)) (nat_gateways r0)).
Proof.
  intros Ht Hd H0. rewrite parse_plan_insert. rewrite parse_plan_concat in H0.
  unfold loop_body. rewrite Hd, (classify_lb c no_resources Ht).
  unfold place in *.
  destruct (parse_terraform_plan (mkPlan (Some pre))) as [a|]; [|discriminate].
  destruct (parse_terraform_plan (mkPlan (Some post))) as [b|]; [|discriminate].
  injection H0 as <-. unfold res_app, no_resources;
    cbn [ec2_instances rds_instances albs nat_gateways app].
  f_equal. f_equal; lia.
Qed.

(** C6.  The parser skips an entry exactly when its action list is
    [['delete']].  Wherever such an entry stands in the plan,
    [parse_terraform_plan] returns what it returns for the plan without
    it; every other entry is classified on its type tag, and what the
    classification gives (an addition to the inventory, or the exception
    it raises) is placed between the inventories of the entries before
    and after it.  A replacement [['delete','create']], an empty list, a
    missing ['actions'] key and a missing ['change'] object are all
    classified; and on a load-balancer entry the difference shows: the
    parser returns the inventory of the plan without the entry if and
    only if the action list is exactly [['delete']]. *)
Theorem C6_skip_iff_delete_only :
  (forall pre post c,
      (change_action c = ["delete"%string] /\
       parse_terraform_plan (mkPlan (Some (pre ++ c :: post)))
       = parse_terraform_plan (mkPlan (Some (pre ++ post))))
      \/
      (change_action c <> ["delete"%string] /\
       parse_terraform_plan (mkPlan (Some (pre ++ c :: post)))
       = place (parse_terraform_plan (mkPlan (Some pre)))
               (classify no_resources c)
               (parse_terraform_plan (mkPlan (Some post)))))
  /\
  (forall pre post t aft c,
      c = entry t (Some ["delete"; "create"]%string) aft \/
      c = entry t (Some []) aft \/
      c = entry t None aft \/
      c = mkChange t None ->
      parse_terraform_plan (mkPlan (Some (pre ++ c :: post)))
      = place (parse_terraform_plan (mkPlan (Some pre)))
              (classify no_resources c)
              (parse_terraform_plan (mkPlan (Some post))))
  /\
  (forall pre post acts aft r0,
      parse_terraform_plan (mkPlan (Some (pre ++ post))) = Some r0 ->
      (parse_terraform_plan
         (mkPlan (Some (pre ++ entry (Some "aws_lb"%string) acts aft :: post)))
       = Some r0
       <-> acts = Some ["delete"%string])).
Proof.
  split; [|split].
  - intros pre post c.
    destruct (decide (change_action c = ["delete"%string])) as [E|N].
    + left. split; [exact E|].
      rewrite parse_plan_insert, parse_plan_concat.
      rewrite (loop_body_delete c no_resources E). reflexivity.
    + right. split; [exact N|].
      rewrite parse_plan_insert, (loop_body_other c no_resources N). reflexivity.
  - intros pre post t aft c Hc.
    rewrite parse_plan_insert, (loop_body_other c no_resources); [reflexivity|].
    destruct Hc as [-> | [-> | [-> | ->]]]; cbn; discriminate.
  - intros pre post acts aft r0 H0. split.
    + intros H.
      destruct (decide (acts = Some ["delete"%string])) as [E|N]; [exact E|].
      exfalso.
      assert (Hd : delete_only (entry (Some "aws_lb"%string) acts aft) = false).
      { unfold delete_only, change_action, entry; cbn [change actions].
        apply bool_decide_eq_false_2.
        destruct acts as [a|]; [congruence|discriminate]. }
      rewrite (parse_plan_with_lb pre post
                 (entry (Some "aws_lb"%string) acts aft) r0 eq_refl Hd H0) in H.
      injection H as H. destruct r0 as [e d n k]; cbn in H.
      injection H as H. lia.
    + intros ->. rewrite <- H0.
      rewrite parse_plan_insert, parse_plan_concat.
      rewrite (loop_body_delete _ no_resources) by reflexivity. reflexivity.
Qed.

Lemma C6_witness :
  parse_terraform_plan
    (mkPlan (Some ([Samples.instance "t3.micro"]
                   ++ entry (Some "aws_lb"%string) (Some ["delete"; "create"]%string)
                        (Some AfterNull)
                   :: [Samples.destroy "aws_instance"])))
  = Some (mkResources [JStr "t3.micro"] [] 0 0)
  <-> Some ["delete"; "create"]%string = Some ["delete"%string].
Proof.
  apply (proj2 (proj2 C6_skip_iff_delete_only)
           [Samples.instance "t3.micro"] [Samples.destroy "aws_instance"]).
  vm_compute. reflexivity.
Defined.

(** C9.  An entry tagged ['aws_alb'] is handled as one tagged ['aws_lb'].
    Unless it is a pure deletion, either makes [parse_terraform_plan]
    return the inventory of the plan without the entry with exactly one
    more load balancer and nothing else changed, wherever the entry
    stands and whatever its [after] value (missing, [null] or any
    object); and exchanging the two tags changes neither what the parser
    returns nor the result of the run. *)
Theorem C9_alb_counts_as_lb (self : AWSCostEstimator)
    (pre post : list resource_change) (c : resource_change) (r0 : resources) :
  (is_type (type_ c) "aws_lb" || is_type (type_ c) "aws_alb") = true ->
  delete_only c = false ->
  parse_terraform_plan (mkPlan (Some (pre ++ post))) = Some r0 ->
  parse_terraform_plan (mkPlan (Some (pre ++ c :: post)))
  = Some (mkResources (ec2_instances r0) (rds_instances r0)
            (S (albs r0)) (nat_gateways r0)) /\
  parse_terraform_plan
    (mkPlan (Some (pre ++ mkChange (Some "aws_alb"%string) (change c) :: post)))
  = parse_terraform_plan
      (mkPlan (Some (pre ++ mkChange (Some "aws_lb"%string) (change c) :: post))) /\
  estimate_cost self
    (mkPlan (Some (pre ++ mkChange (Some "aws_alb"%string) (change c) :: post)))
  = estimate_cost self
      (mkPlan (Some (pre ++ mkChange (Some "aws_lb"%string) (change c) :: post))).
Proof.
  intros Ht Hd H0.
  assert (Hd' : forall t, delete_only (mkChange t (change c)) = false)
    by (intros t; exact Hd).
  assert (E : parse_terraform_plan
                (mkPlan (Some (pre ++ mkChange (Some "aws_alb"%string) (change c)
                                 :: post)))
              = parse_terraform_plan
                  (mkPlan (Some (pre ++ mkChange (Some "aws_lb"%string) (change c)
                                   :: post)))).
  { rewrite (parse_plan_with_lb pre post
               (mkChange (Some "aws_alb"%string) (change c)) r0 eq_refl (Hd' _) H0).
    rewrite (parse_plan_with_lb pre post
               (mkChange (Some "aws_lb"%string) (change c)) r0 eq_refl (Hd' _) H0).
    reflexivity. }
  split; [|split].
  - apply parse_plan_with_lb; assumption.
  - exact E.
  - unfold estimate_cost. rewrite E. reflexivity.
Qed.

Lemma C9_witness :
  parse_terraform_plan
    (mkPlan (Some ([Samples.instance "t3.micro"; Samples.load_balancer]
                   ++ entry (Some "aws_alb"%string) (Some ["create"%string])
                        (Some AfterNull)
                   :: [Samples.create "aws_nat_gateway" []])))
  = Some (mkResources [JStr "t3.micro"] [] 2 1) /\
  parse_terraform_plan
    (mkPlan (Some ([Samples.instance "t3.micro"; Samples.load_balancer]
                   ++ mkChange (Some "aws_alb"%string)
                        (Some (mkBody (Some ["create"%string]) (Some AfterNull)))
                   :: [Samples.create "aws_nat_gateway" []])))
  = parse_terraform_plan
      (mkPlan (Some ([Samples.instance "t3.micro"; Samples.load_balancer]
                     ++ mkChange (Some "aws_lb"%string)
                          (Some (mkBody (Some ["create"%string]) (Some AfterNull)))
                     :: [Samples.create "aws_nat_gateway" []]))) /\
  estimate_cost Samples.estimator
    (mkPlan (Some ([Samples.instance "t3.micro"; Samples.load_balancer]
                   ++ mkChange (Some "aws_alb"%string)
                        (Some (mkBody (Some ["create"%string]) (Some AfterNull)))
                   :: [Samples.create "aws_nat_gateway" []])))
  = estimate_cost Samples.estimator
      (mkPlan (Some ([Samples.instance "t3.micro"; Samples.load_balancer]
                     ++ mkChange (Some "aws_lb"%string)
                          (Some (mkBody (Some ["create"%string]) (Some AfterNull)))
                     :: [Samples.create "aws_nat_gateway" []]))).
Proof.
  apply (C9_alb_counts_as_lb Samples.estimator
           [Samples.instance "t3.micro"; Samples.load_balancer]
           [Samples.create "aws_nat_gateway" []]
           (entry (Some "aws_alb"%string) (Some ["create"%string]) (Some AfterNull))
           (mkResources [JStr "t3.micro"] [] 1 1)).
  - reflexivity.
  - reflexivity.
  - vm_compute. reflexivity.
Defined.

Lemma classify_unrecognised (c : resource_change) (r : resources) :
  recognised (type_ c) = false -> classify r c = Some r.
Proof.
  intros H. unfold classify.
  rewrite !(is_type_recognised _ _ H) by (cbn; tauto). reflexivity.
Qed.

Lemma loop_body_unrecognised (c : resource_change) (r : resources) :
  recognised (type_ c) = false -> loop_body r c = Some r.
Proof.
  intros H. unfold loop_body. destruct (delete_only c); [reflexivity|].
  apply classify_unrecognised, H.
Qed.

(** C7.  An entry whose type tag is none of the six recognised ones (or
    is missing) changes nothing: the inventory is the same after it, and
    the whole result of the run - monthly cost, breakdown lines, inventory
    lists and counts - is that of the plan without the entry. *)
Theorem C7_unknown_kind_dropped (self : AWSCostEstimator)
    (pre post : list resource_change) (c : resource_change) :
  recognised (type_ c) = false ->
  (forall r, loop_body r c = Some r) /\
  estimate_cost self (mkPlan (Some (pre ++ c :: post)))
  = estimate_cost self (mkPlan (Some (pre ++ post))).
Proof.
  intros H. split.
  - intros r. apply loop_body_unrecognised, H.
  - unfold estimate_cost, parse_terraform_plan, changes_of; cbn [resource_changes].
    rewrite (ParseFacts.parse_insert pre post c no_resources)
      by (apply loop_body_unrecognised, H).
    rewrite ParseFacts.parse_concat.
    destruct (parse_loop no_resources pre) as [a|]; [|reflexivity].
    destruct (parse_loop no_resources post) as [b|]; [|reflexivity].
    rewrite ParseFacts.res_app_nil_l. reflexivity.
Qed.

Lemma C7_witness :
  (forall r, loop_body r Samples.bucket = Some r) /\
  estimate_cost Samples.estimator
    (mkPlan (Some ([Samples.instance "t3.micro"]
                   ++ Samples.bucket :: [Samples.load_balancer])))
  = estimate_cost Samples.estimator
    (mkPlan (Some ([Samples.instance "t3.micro"] ++ [Samples.load_balancer]))).
Proof.
  apply (C7_unknown_kind_dropped Samples.estimator
           [Samples.instance "t3.micro"] [Samples.load_balancer] Samples.bucket).
  reflexivity.
Defined.

(** C8.  The aggregation depends on the catalogue only through the prices
    resolved for the identifiers of the inventory: two runs that resolve
    every identifier to the same price return the same monthly cost, the
    same breakdown lines in the same order and the same inventory, also
    from estimator objects that differ otherwise (region, other catalogue
    entries); the same holds for whole runs on a plan. *)
Theorem C8_aggregation_deterministic (self1 self2 : AWSCostEstimator)
    (p : plan) (res : resources) :
  parse_terraform_plan p = Some res ->
  (forall id, In id (ec2_instances res) ->
              get_ec2_price self1 id = get_ec2_price self2 id) ->
  (forall id, In id (rds_instances res) ->
              get_rds_price self1 id = get_rds_price self2 id) ->
  aggregate self1 res = aggregate self2 res /\
  estimate_cost self1 p = estimate_cost self2 p.
Proof.
  intros Hp H1 H2.
  pose proof (AggFacts.aggregate_ext self1 self2 res H1 H2) as E.
  split; [exact E|]. unfold estimate_cost. rewrite Hp, E. reflexivity.
Qed.

Lemma C8_witness :
  aggregate Samples.estimator (mkResources [JStr "t3.micro"] [] 1 1)
  = aggregate Samples.small_estimator (mkResources [JStr "t3.micro"] [] 1 1) /\
  estimate_cost Samples.estimator
    (Samples.plan_of [Samples.instance "t3.micro"; Samples.load_balancer;
                      Samples.create "aws_nat_gateway" []])
  = estimate_cost Samples.small_estimator
    (Samples.plan_of [Samples.instance "t3.micro"; Samples.load_balancer;
                      Samples.create "aws_nat_gateway" []]).
Proof.
  apply (C8_aggregation_deterministic Samples.estimator Samples.small_estimator
           (Samples.plan_of [Samples.instance "t3.micro"; Samples.load_balancer;
                             Samples.create "aws_nat_gateway" []])
           (mkResources [JStr "t3.micro"] [] 1 1)).
  - vm_compute. reflexivity.
  - intros id [<-|[]]. reflexivity.
  - intros id [].
Defined.

(** *** Items the catalogue gives no usable price for *)

Lemma compute_change_body (c : resource_change) (id : json) :
  compute_change c id ->
  loop_body no_resources c = Some (mkResources [id] [] 0 0).
Proof.
  intros (Ht & Hd & Ha & Hv). unfold loop_body. rewrite Hd.
  unfold classify. apply orb_true_iff in Ht.
  destruct (is_type (type_ c) "aws_instance") eqn:E1.
  - rewrite Ha, Hv. reflexivity.
  - destruct Ht as [Ht|Ht]; [discriminate|].
    rewrite Ht, Ha, Hv. reflexivity.
Qed.

Lemma database_change_body (c : resource_change) (id : json) :
  database_change c id ->
  loop_body no_resources c = Some (mkResources [] [id] 0 0).
Proof.
  intros (Ht & Hd & Ha & Hv). unfold loop_body. rewrite Hd.
  unfold classify. destruct (type_ c) as [t|]; [|discriminate Ht].
  cbn [is_type] in *. apply String.eqb_eq in Ht. subst t.
  cbn. rewrite Ha, Hv. reflexivity.
Qed.

Lemma ec2_item_unpriced (self : AWSCostEstimator)
    (pre post : list resource_change) (c : resource_change) (id : json)
    (r0 : estimate) :
  compute_change c id ->
  unpriced (get_ec2_price self id) = true ->
  estimate_cost self (mkPlan (Some (pre ++ post))) = Some r0 ->
  exists r, estimate_cost self (mkPlan (Some (pre ++ c :: post))) = Some r /\
            ec2_counted_only id r0 r.
Proof.
  intros Hc Hu H0.
  unfold estimate_cost, parse_terraform_plan, changes_of in *;
    cbn [resource_changes] in *.
  rewrite (ParseFacts.parse_insert pre post c _ (compute_change_body c id Hc)).
  rewrite ParseFacts.parse_concat in H0.
  destruct (parse_loop no_resources pre) as [a|]; [|discriminate].
  destruct (parse_loop no_resources post) as [b|]; [|discriminate].
  injection H0 as <-. eexists. split; [reflexivity|].
  unfold ec2_counted_only. rewrite !AggFacts.resources_aggregate.
  unfold res_app;
    cbn [resources_ ec2_instances rds_instances albs nat_gateways app Nat.add].
  destruct (AggFacts.aggregate_skip_ec2 self (ec2_instances a) id
              (ec2_instances b) (rds_instances a ++ rds_instances b)
              (albs a + albs b) (nat_gateways a + nat_gateways b) Hu) as [E1 E2].
  repeat split; try assumption; try reflexivity.
  - apply in_or_app. right. left. reflexivity.
  - rewrite !length_app. cbn [List.length]. lia.
Qed.

Lemma rds_item_unpriced (self : AWSCostEstimator)
    (pre post : list resource_change) (c : resource_change) (id : json)
    (r0 : estimate) :
  database_change c id ->
  unpriced (get_rds_price self id) = true ->
  estimate_cost self (mkPlan (Some (pre ++ post))) = Some r0 ->
  exists r, estimate_cost self (mkPlan (Some (pre ++ c :: post))) = Some r /\
            rds_counted_only id r0 r.
Proof.
  intros Hc Hu H0.
  unfold estimate_cost, parse_terraform_plan, changes_of in *;
    cbn [resource_changes] in *.
  rewrite (ParseFacts.parse_insert pre post c _ (database_change_body c id Hc)).
  rewrite ParseFacts.parse_concat in H0.
  destruct (parse_loop no_resources pre) as [a|]; [|discriminate].
  destruct (parse_loop no_resources post) as [b|]; [|discriminate].
  injection H0 as <-. eexists. split; [reflexivity|].
  unfold rds_counted_only. rewrite !AggFacts.resources_aggregate.
  unfold res_app;
    cbn [resources_ ec2_instances rds_instances albs nat_gateways app Nat.add].
  destruct (AggFacts.aggregate_skip_rds self (ec2_instances a ++ ec2_instances b)
              (rds_instances a) id (rds_instances b)
              (albs a + albs b) (nat_gateways a + nat_gateways b) Hu) as [E1 E2].
  repeat split; try assumption; try reflexivity.
  - apply in_or_app. right. left. reflexivity.
  - rewrite !length_app. cbn [List.length]. lia.
Qed.

Lemma first_price_fails (resp : response) :
  lookup_fails resp -> first_price resp = None.
Proof. intros [->|[->|[rest ->]]]; reflexivity. Qed.

(** C4.  A compute-instance entry whose catalogue call raises, returns an
    empty result set or returns an unreadable first record resolves to no
    price ([None]).  The run still completes whenever the rest of the plan
    parses, and its result is that of the plan without the entry - same
    monthly cost, same breakdown lines - except that
    [resources.ec2_instances] holds the identifier, one element longer. *)
Theorem C4_failed_lookup_counted_not_priced (self : AWSCostEstimator)
    (pre post : list resource_change) (c : resource_change) (id : json)
    (r0 : estimate) :
  compute_change c id ->
  lookup_fails (get_products self "AmazonEC2" (ec2_filters self id)) ->
  estimate_cost self (mkPlan (Some (pre ++ post))) = Some r0 ->
  get_ec2_price self id = None /\
  exists r,
    estimate_cost self (mkPlan (Some (pre ++ c :: post))) = Some r /\
    monthly_cost r = monthly_cost r0 /\
    breakdown r = breakdown r0 /\
    In id (ec2_instances (resources_ r)) /\
    List.length (ec2_instances (resources_ r))
    = S (List.length (ec2_instances (resources_ r0))) /\
    rds_instances (resources_ r) = rds_instances (resources_ r0) /\
    albs (resources_ r) = albs (resources_ r0) /\
    nat_gateways (resources_ r) = nat_gateways (resources_ r0).
Proof.
  intros Hc Hf H0.
  assert (Hn : get_ec2_price self id = None)
    by (unfold get_ec2_price; apply first_price_fails, Hf).
  split; [exact Hn|].
  apply (ec2_item_unpriced self pre post c id r0 Hc); [|exact H0].
  rewrite Hn. reflexivity.
Qed.

Lemma C4_witness :
  get_ec2_price Samples.estimator (JStr "t3.nano") = None /\
  exists r,
    estimate_cost Samples.estimator
      (mkPlan (Some ([Samples.instance "t3.micro"]
                     ++ Samples.instance "t3.nano" :: [Samples.load_balancer])))
    = Some r /\
    monthly_cost r = Dec.mk 240170000000 (-10) /\
    breakdown r = ["EC2 t3.micro: $0.0104000000/hour";
                   "**EC2 Total**: $7.59/month";
                   "ALB (1x): $16.42/month (excluding LCU)"]%string /\
    In (JStr "t3.nano") (ec2_instances (resources_ r)) /\
    List.length (ec2_instances (resources_ r)) = 2%nat /\
    rds_instances (resources_ r) = [] /\
    albs (resources_ r) = 1%nat /\
    nat_gateways (resources_ r) = 0%nat.
Proof.
  apply (C4_failed_lookup_counted_not_priced Samples.estimator
           [Samples.instance "t3.micro"] [Samples.load_balancer]
           (Samples.instance "t3.nano") (JStr "t3.nano")
           (mkEstimate (Dec.mk 240170000000 (-10))
              ["EC2 t3.micro: $0.0104000000/hour";
               "**EC2 Total**: $7.59/month";
               "ALB (1x): $16.42/month (excluding LCU)"]%string
              (mkResources [JStr "t3.micro"] [] 1 0))).
  - repeat split; reflexivity.
  - right; left. reflexivity.
  - vm_compute. reflexivity.
Defined.

(** C10.  A compute or database item whose lookup resolves to a price of
    exactly zero (a zero coefficient, on any exponent) is handled as one
    without a price: the loop iteration leaves the hourly sum and the
    breakdown as they are, as it does for [None]; the run's monthly cost
    and breakdown lines are those of the plan without the entry, and the
    inventory still counts the item. *)
Theorem C10_zero_price_as_absent (self : AWSCostEstimator)
    (pre post : list resource_change) (c : resource_change) (id : json)
    (p : Dec.Decimal) (r0 : estimate) :
  Dec.coefficient p = 0 ->
  estimate_cost self (mkPlan (Some (pre ++ post))) = Some r0 ->
  (forall get_price label st,
      get_price id = Some p \/ get_price id = None ->
      price_step get_price label st id = st)
  /\
  (compute_change c id -> get_ec2_price self id = Some p ->
   exists r,
     estimate_cost self (mkPlan (Some (pre ++ c :: post))) = Some r /\
     ec2_counted_only id r0 r)
  /\
  (database_change c id -> get_rds_price self id = Some p ->
   exists r,
     estimate_cost self (mkPlan (Some (pre ++ c :: post))) = Some r /\
     rds_counted_only id r0 r).
Proof.
  intros Hz H0.
  assert (Hu : unpriced (Some p) = true).
  { unfold unpriced, Dec.truthy. rewrite Hz. reflexivity. }
  split; [|split].
  - intros get_price label st [E|E]; apply AggFacts.price_step_unpriced;
      rewrite E; [exact Hu | reflexivity].
  - intros Hc Hp. apply (ec2_item_unpriced self pre post c id r0 Hc); [|exact H0].
    rewrite Hp. exact Hu.
  - intros Hc Hp. apply (rds_item_unpriced self pre post c id r0 Hc); [|exact H0].
    rewrite Hp. exact Hu.
Qed.

Lemma C10_witness :
  (exists r,
     estimate_cost Samples.estimator
       (mkPlan (Some ([Samples.instance "t3.micro"]
                      ++ Samples.instance "t4g.free" :: [Samples.load_balancer])))
     = Some r /\
     ec2_counted_only (JStr "t4g.free")
       (mkEstimate (Dec.mk 240170000000 (-10))
          ["EC2 t3.micro: $0.0104000000/hour";
           "**EC2 Total**: $7.59/month";
           "ALB (1x): $16.42/month (excluding LCU)"]%string
          (mkResources [JStr "t3.micro"] [] 1 0)) r)
  /\
  (exists r,
     estimate_cost Samples.estimator
       (mkPlan (Some ([Samples.instance "t3.micro"]
                      ++ Samples.database "db.free" :: [Samples.load_balancer])))
     = Some r /\
     rds_counted_only (JStr "db.free")
       (mkEstimate (Dec.mk 240170000000 (-10))
          ["EC2 t3.micro: $0.0104000000/hour";
           "**EC2 Total**: $7.59/month";
           "ALB (1x): $16.42/month (excluding LCU)"]%string
          (mkResources [JStr "t3.micro"] [] 1 0)) r).
Proof.
  split.
  - apply (C10_zero_price_as_absent Samples.estimator
             [Samples.instance "t3.micro"] [Samples.load_balancer]
             (Samples.instance "t4g.free") (JStr "t4g.free") (Dec.mk 0 (-10))).
    + reflexivity.
    + vm_compute. reflexivity.
    + repeat split; reflexivity.
    + reflexivity.
  - apply (C10_zero_price_as_absent Samples.estimator
             [Samples.instance "t3.micro"] [Samples.load_balancer]
             (Samples.database "db.free") (JStr "db.free") (Dec.mk 0 (-10))).
    + reflexivity.
    + vm_compute. reflexivity.
    + repeat split; reflexivity.
    + reflexivity.
Defined.

(** *** The load-balancer line *)

Lemma res_app_empty (a b : resources) :
  res_app a b = no_resources -> a = no_resources /\ b = no_resources.
Proof.
  destruct a as [a1 a2 a3 a4], b as [b1 b2 b3 b4]. unfold res_app, no_resources; cbn.
  intros H. injection H as H1 H2 H3 H4.
  apply app_eq_nil in H1, H2. destruct H1, H2. subst.
  assert (a3 = 0 /\ b3 = 0 /\ a4 = 0 /\ b4 = 0)%nat as (-> & -> & -> & ->) by lia.
  split; reflexivity.
Qed.

(** C1, as the code has it.  For a plan with exactly one ['aws_lb'] entry
    (not a pure deletion) and nothing else that enters the inventory, the
    run returns the single breakdown line
    ["ALB (1x): $16.42/month (excluding LCU)"]: the monthly amount is the
    exact product [0.0225 * 730 = 16.4250], which is the returned monthly
    cost, and [:.2f] shows it rounded half to even, 16.42. *)
Theorem C1_one_alb_line (self : AWSCostEstimator)
    (pre post : list resource_change) (c : resource_change) :
  is_type (type_ c) "aws_lb" = true ->
  delete_only c = false ->
  parse_loop no_resources (pre ++ post) = Some no_resources ->
  estimate_cost self (mkPlan (Some (pre ++ c :: post)))
  = Some (mkEstimate (Dec.mk 164250 (-4))
            ["ALB (1x): $16.42/month (excluding LCU)"%string]
            (mkResources [] [] 1 0)).
Proof.
  intros Ht Hd H0.
  assert (Hb : loop_body no_resources c = Some (mkResources [] [] 1 0)).
  { unfold loop_body. rewrite Hd. rewrite classify_lb by (rewrite Ht; reflexivity).
    reflexivity. }
  unfold estimate_cost, parse_terraform_plan, changes_of; cbn [resource_changes].
  rewrite (ParseFacts.parse_insert pre post c _ Hb).
  rewrite ParseFacts.parse_concat in H0.
  destruct (parse_loop no_resources pre) as [a|]; [|discriminate].
  destruct (parse_loop no_resources post) as [b|]; [|discriminate].
  assert (Hab : res_app a b = no_resources) by congruence.
  apply res_app_empty in Hab. destruct Hab as [-> ->].
  vm_compute. reflexivity.
Qed.

Lemma C1_witness :
  estimate_cost Samples.estimator
    (mkPlan (Some ([Samples.bucket; Samples.destroy "aws_instance"]
                   ++ Samples.load_balancer :: [Samples.bucket])))
  = Some (mkEstimate (Dec.mk 164250 (-4))
            ["ALB (1x): $16.42/month (excluding LCU)"%string]
            (mkResources [] [] 1 0)).
Proof.
  apply (C1_one_alb_line Samples.estimator
           [Samples.bucket; Samples.destroy "aws_instance"] [Samples.bucket]
           Samples.load_balancer); reflexivity.
Defined.

(** C1 as the specification words it does not hold: on the plan with one
    ['aws_lb'] entry no breakdown line shows 16.43. *)
Lemma C1_no_line_shows_16_43 :
  ~ (forall (self : AWSCostEstimator) (c : resource_change),
        is_type (type_ c) "aws_lb" = true ->
        delete_only c = false ->
        exists r line,
          estimate_cost self (mkPlan (Some [c])) = Some r /\
          In line (breakdown r) /\
          has_infix "ALB" line = true /\
          has_infix "16.43" line = true).
Proof.
  intros H.
  destruct (H Samples.estimator Samples.load_balancer eq_refl eq_refl)
    as (r & line & Hr & Hin & _ & H43).
  assert (E : estimate_cost Samples.estimator (mkPlan (Some [Samples.load_balancer]))
              = Some (mkEstimate (Dec.mk 164250 (-4))
                        ["ALB (1x): $16.42/month (excluding LCU)"%string]
                        (mkResources [] [] 1 0)))
    by (vm_compute; reflexivity).
  rewrite E in Hr. injection Hr as <-. cbn [breakdown In] in Hin.
  destruct Hin as [<-|[]]. vm_compute in H43. discriminate H43.
Qed.

(** *** Monotonicity *)

Lemma priceable_body (c : resource_change) :
  priceable c = true -> exists d, loop_body no_resources c = Some d.
Proof.
  unfold priceable, loop_body. intros H. apply andb_true_iff in H.
  destruct H as [Hd H]. apply negb_true_iff in Hd. rewrite Hd.
  unfold classify.
  destruct (is_type (type_ c) "aws_instance") eqn:E1; cbn [orb] in H.
  { destruct (after_get (change_after c) "instance_type"); [eauto|discriminate]. }
  destruct (is_type (type_ c) "aws_launch_template") eqn:E2.
  { destruct (after_get (change_after c) "instance_type"); [eauto|discriminate]. }
  destruct (is_type (type_ c) "aws_db_instance") eqn:E3.
  { destruct (after_get (change_after c) "instance_class"); [eauto|discriminate]. }
  destruct (is_type (type_ c) "aws_lb" || is_type (type_ c) "aws_alb"); [eauto|].
  destruct (is_type (type_ c) "aws_nat_gateway"); eauto.
Qed.

(** C3, as the code has it.  When every price the catalogue resolves is
    zero or more, appending one priceable change entry to a plan never
    decreases the monthly cost.  The parser, which returned an inventory
    for the plan, returns one for the extended plan; and whatever result
    the run on the extended plan returns, its cost is not smaller than
    that of the run on the plan (compared as the [Decimal] totals that
    [float()] then converts, a conversion that keeps the order). *)
Theorem C3_monotone_for_nonneg_prices (self : AWSCostEstimator) (p : plan)
    (c : resource_change) (r : estimate) :
  prices_nonneg self ->
  priceable c = true ->
  estimate_cost self p = Some r ->
  (exists inv, parse_terraform_plan (append_change p c) = Some inv) /\
  (forall r',
      estimate_cost self (append_change p c) = Some r' ->
      (Dec.value (monthly_cost r) <= Dec.value (monthly_cost r'))%Q).
Proof.
  intros Hnn Hc Hr.
  destruct (priceable_body c Hc) as [d Hd].
  unfold estimate_cost, parse_terraform_plan, append_change in *.
  cbn [changes_of resource_changes].
  rewrite (ParseFacts.parse_insert (changes_of p) [] c d Hd).
  destruct (parse_loop no_resources (changes_of p)) as [a|]; [|discriminate].
  injection Hr as <-. cbn [parse_loop]. split; [eexists; reflexivity|].
  intros r' Hr'. injection Hr' as <-.
  rewrite ParseFacts.res_app_nil_r, !AggFacts.monthly_cost_aggregate.
  apply AggFacts.total_mono, Hnn.
Qed.

Lemma sample_prices_nonneg : prices_nonneg Samples.estimator.
Proof.
  intros id p. unfold get_ec2_price, get_rds_price, ec2_filters, rds_filters.
  cbn. unfold Samples.catalogue; cbn.
  destruct id as [|b|n|s]; cbn; try (intros [H|H]; discriminate H).
  repeat match goal with
         | |- context [String.eqb s ?t] => destruct (String.eqb s t)
         end; cbn; intros [H|H]; try discriminate H;
    injection H as <-; cbn; lia.
Qed.

Lemma C3_witness :
  (Dec.value (Dec.mk 75920000000 (-10))
   <= Dec.value (Dec.mk 207320000000 (-10)))%Q.
Proof.
  apply (proj2 (C3_monotone_for_nonneg_prices Samples.estimator
                  (Samples.plan_of [Samples.instance "t3.micro"])
                  (Samples.database "db.t3.micro")
                  (mkEstimate (Dec.mk 75920000000 (-10))
                     ["EC2 t3.micro: $0.0104000000/hour";
                      "**EC2 Total**: $7.59/month"]%string
                     (mkResources [JStr "t3.micro"] [] 0 0))
                  sample_prices_nonneg eq_refl
                  ltac:(vm_compute; reflexivity))
           (mkEstimate (Dec.mk 207320000000 (-10))
              ["EC2 t3.micro: $0.0104000000/hour";
               "**EC2 Total**: $7.59/month";
               "RDS db.t3.micro: $0.0180000000/hour";
               "**RDS Total**: $13.14/month"]%string
              (mkResources [JStr "t3.micro"] [JStr "db.t3.micro"] 0 0))).
  vm_compute. reflexivity.
Defined.

(** C3 as the specification words it - for every catalogue state - does
    not hold: with a catalogue that resolves one instance type to a
    negative hourly price, appending an instance of that type lowers the
    monthly cost from 7.592 to 3.942. *)
Lemma C3_negative_price_lowers_cost :
  ~ (forall (self : AWSCostEstimator) (p : plan) (c : resource_change)
            (r r' : estimate),
        priceable c = true ->
        estimate_cost self p = Some r ->
        estimate_cost self (append_change p c) = Some r' ->
        (Dec.value (monthly_cost r) <= Dec.value (monthly_cost r'))%Q).
Proof.
  intros H.
  assert (E1 : estimate_cost Samples.rebate_estimator
                 (Samples.plan_of [Samples.instance "t3.micro"])
               = Some (mkEstimate (Dec.mk 75920000000 (-10))
                         ["EC2 t3.micro: $0.0104000000/hour";
                          "**EC2 Total**: $7.59/month"]%string
                         (mkResources [JStr "t3.micro"] [] 0 0)))
    by (vm_compute; reflexivity).
  assert (E2 : estimate_cost Samples.rebate_estimator
                 (append_change (Samples.plan_of [Samples.instance "t3.micro"])
                                (Samples.instance "promo"))
               = Some (mkEstimate (Dec.mk 39420000000 (-10))
                         ["EC2 t3.micro: $0.0104000000/hour";
                          "EC2 promo: $-0.0050000000/hour";
                          "**EC2 Total**: $3.94/month"]%string
                         (mkResources [JStr "t3.micro"; JStr "promo"] [] 0 0)))
    by (vm_compute; reflexivity).
  specialize (H _ _ (Samples.instance "promo") _ _ eq_refl E1 E2).
  cbn [monthly_cost] in H. apply Qle_bool_iff in H. vm_compute in H.
  discriminate H.
Qed.

(** *** The database subtotal *)

Lemma truthy_pos (p : Dec.Decimal) : 0 < Dec.coefficient p -> Dec.truthy p = true.
Proof.
  intros H. unfold Dec.truthy.
  destruct (Z.eqb_spec (Dec.coefficient p) 0); [lia|reflexivity].
Qed.

Lemma gt0_pos (p : Dec.Decimal) : 0 < Dec.coefficient p -> Dec.gt0 p = true.
Proof. intros H. unfold Dec.gt0. apply Z.ltb_lt, H. Qed.

Lemma add_total_zero label st : add_total label (Dec.mk 0 0) st = st.
Proof. reflexivity. Qed.

Lemma add_flat_zero label note price st : add_flat label note price 0 st = st.
Proof. reflexivity. Qed.

Lemma price_step_priced get_price label st id p :
  get_price id = Some p -> Dec.truthy p = true ->
  price_step get_price label st id
  = (Dec.add (fst st) p,
     snd st ++ [label +:+ " " +:+ py_str id +:+ ": $" +:+ Dec.str p +:+ "/hour"]).
Proof. intros E T. unfold price_step. rewrite E, T. reflexivity. Qed.

Lemma add_total_pos label h st :
  Dec.gt0 h = true ->
  add_total label h st
  = (Dec.add (fst st) (Dec.mul h (Dec.of_int 730)),
     snd st ++ ["**" +:+ label +:+ " Total**: $"
                  +:+ Dec.format_2f (Dec.mul h (Dec.of_int 730)) +:+ "/month"]).
Proof. intros G. unfold add_total. rewrite G. reflexivity. Qed.

(** Without rounding the subtotal is the exact product. *)
Lemma subtotal_exact (p1 p2 : Dec.Decimal) :
  0 < Dec.coefficient p1 -> 0 < Dec.coefficient p2 ->
  let s := Dec.add_exact (Dec.add_exact (Dec.mk 0 0) p1) p2 in
  Dec.fits (Dec.mul_exact s (Dec.of_int 730)) ->
  Dec.add (Dec.mk 0 0)
    (Dec.mul (Dec.add (Dec.add (Dec.mk 0 0) p1) p2) (Dec.of_int 730))
  = Dec.mul_exact s (Dec.of_int 730).
Proof.
  intros H1 H2 s F.
  set (z1 := Dec.add_exact (Dec.mk 0 0) p1) in *.
  assert (P1 : 0 < Dec.coefficient z1).
  { unfold z1, Dec.add_exact; cbn [Dec.coefficient Dec.exponent].
    pose proof (DecFacts.pow10_pos (Dec.exponent p1 - Z.min 0 (Dec.exponent p1))
                  ltac:(lia)). nia. }
  assert (Ks : Dec.coefficient s
               = Dec.coefficient z1
                 * 10 ^ (Dec.exponent z1 - Z.min (Dec.exponent z1) (Dec.exponent p2))
                 + Dec.coefficient p2
                   * 10 ^ (Dec.exponent p2 - Z.min (Dec.exponent z1) (Dec.exponent p2)))
    by reflexivity.
  pose proof (DecFacts.pow10_pos
                (Dec.exponent z1 - Z.min (Dec.exponent z1) (Dec.exponent p2))
                ltac:(lia)) as Q1.
  pose proof (DecFacts.pow10_pos
                (Dec.exponent p2 - Z.min (Dec.exponent z1) (Dec.exponent p2))
                ltac:(lia)) as Q2.
  assert (Fm : Dec.coefficient s * 730 < 10 ^ Dec.prec).
  { unfold Dec.fits, Dec.mul_exact, Dec.of_int in F; cbn [Dec.coefficient] in F.
    lia. }
  assert (Fs : Dec.fits s) by (unfold Dec.fits; nia).
  assert (F1 : Dec.fits z1) by (unfold Dec.fits; nia).
  rewrite (DecFacts.fix_id z1 F1 : Dec.add (Dec.mk 0 0) p1 = z1).
  rewrite (DecFacts.fix_id s Fs : Dec.add z1 p2 = s).
  rewrite (DecFacts.fix_id _ F : Dec.mul s (Dec.of_int 730) = _).
  unfold Dec.add. rewrite DecFacts.add_exact_zero_l.
  - apply DecFacts.fix_id, F.
  - unfold Dec.mul_exact, Dec.of_int; cbn [Dec.exponent].
    unfold s, z1. rewrite !DecFacts.add_exact_exponent. cbn [Dec.exponent]. lia.
Qed.

(** The run on a plan of two database entries. *)
Lemma two_databases_run (self : AWSCostEstimator) (c1 c2 : resource_change)
    (id1 id2 : json) :
  database_change c1 id1 -> database_change c2 id2 ->
  estimate_cost self (mkPlan (Some [c1; c2]))
  = Some (aggregate self (mkResources [] [id1; id2] 0 0)).
Proof.
  intros Hc1 Hc2.
  unfold estimate_cost, parse_terraform_plan, changes_of; cbn [resource_changes].
  cbn [parse_loop].
  rewrite (database_change_body c1 id1 Hc1).
  rewrite (ParseFacts.loop_body_app _ c2), (database_change_body c2 id2 Hc2).
  reflexivity.
Qed.

(** Two databases with positive prices: the sum, then one conversion. *)
Lemma two_databases_rounded (self : AWSCostEstimator) (id1 id2 : json)
    (p1 p2 : Dec.Decimal) :
  get_rds_price self id1 = Some p1 -> get_rds_price self id2 = Some p2 ->
  0 < Dec.coefficient p1 -> 0 < Dec.coefficient p2 ->
  let rds_hourly := Dec.add (Dec.add (Dec.mk 0 0) p1) p2 in
  let rds_monthly := Dec.mul rds_hourly (Dec.of_int 730) in
  aggregate self (mkResources [] [id1; id2] 0 0)
  = mkEstimate (Dec.add (Dec.mk 0 0) rds_monthly)
      [ "RDS " +:+ py_str id1 +:+ ": $" +:+ Dec.str p1 +:+ "/hour";
        "RDS " +:+ py_str id2 +:+ ": $" +:+ Dec.str p2 +:+ "/hour";
        "**RDS Total**: $" +:+ Dec.format_2f rds_monthly +:+ "/month" ]
      (mkResources [] [id1; id2] 0 0).
Proof.
  intros Hp1 Hp2 H1 H2 rds_hourly rds_monthly.
  assert (Hh : Dec.gt0 rds_hourly = true).
  { apply gt0_pos. unfold rds_hourly. apply DecFacts.add_pos; [|exact H2].
    apply DecFacts.add_nonneg; [apply AggFacts.zero_nonneg|].
    unfold Dec.nonneg; lia. }
  unfold aggregate, price_loop;
    cbn [ec2_instances rds_instances albs nat_gateways fold_left].
  cbn [fst snd]. rewrite add_total_zero. cbn [fst snd].
  rewrite (price_step_priced _ _ _ id1 p1 Hp1 (truthy_pos p1 H1)). cbn [fst snd].
  rewrite (price_step_priced _ _ _ id2 p2 Hp2 (truthy_pos p2 H2)). cbn [fst snd].
  fold rds_hourly. rewrite (add_total_pos _ _ _ Hh). cbn [fst snd].
  fold rds_monthly. rewrite !add_flat_zero. cbn [fst snd app]. reflexivity.
Qed.

(** Two databases with prices that are zero or more, below the precision:
    the total is the exact product. *)
Lemma two_databases_exact (self : AWSCostEstimator) (id1 id2 : json)
    (p1 p2 : Dec.Decimal) (E : Z) :
  get_rds_price self id1 = Some p1 -> get_rds_price self id2 = Some p2 ->
  0 <= Dec.coefficient p1 -> 0 <= Dec.coefficient p2 ->
  E <= 0 -> E <= Dec.exponent p1 -> E <= Dec.exponent p2 ->
  ((Dec.value p1 + Dec.value p2) * 730 < 10 ^ (Dec.prec + E))%Q ->
  (Dec.value (total self (mkResources [] [id1; id2] 0 0))
   == (Dec.value p1 + Dec.value p2) * 730)%Q.
Proof.
  intros Hp1 Hp2 H1 H2 HE He1 He2 Hlt.
  pose proof (DecFacts.value_nonneg p1 H1) as V1.
  pose proof (DecFacts.value_nonneg p2 H2) as V2.
  set (B := (10 ^ (Dec.prec + E))%Q) in *.
  set (v1 := Dec.value p1) in *. set (v2 := Dec.value p2) in *.
  set (g := get_rds_price self).
  assert (S1 : Dec.holds E (hourly_step g (Dec.mk 0 0) id1) (0 + v1)).
  { apply ExactAgg.hourly_step_holds;
      [exact Hp1 | exact H1 | exact He1 | apply ExactAgg.zero_holds, HE |].
    fold v1 B. lra. }
  assert (S2 : Dec.holds E (hourly_step g (hourly_step g (Dec.mk 0 0) id1) id2)
                 (0 + v1 + v2)).
  { apply ExactAgg.hourly_step_holds;
      [exact Hp2 | exact H2 | exact He2 | exact S1 |].
    fold v2 B. lra. }
  destruct (ExactAgg.tot_holds E _ (Dec.mk 0 0) _ 0 S2 (ExactAgg.zero_holds E HE))
    as (_ & _ & T).
  - fold B. lra.
  - change (total self (mkResources [] [id1; id2] 0 0))
      with (tot (hourly_step g (hourly_step g (Dec.mk 0 0) id1) id2) (Dec.mk 0 0)).
    rewrite T. ring.
Qed.

(** C5, as the code has it.  Take a plan of two ['aws_db_instance']
    entries (of the same class or not) whose prices [p1], [p2] resolve to
    amounts that are zero or more, with exponents not below -1000026, the
    smallest exponent of Python's default decimal context.  A run that
    returns on two positive prices has summed the hourly prices first,
    [(0 + p1) + p2], and applied the conversion [* 730] once to the sum,
    in arithmetic that rounds every result half to even to 28 significant
    digits; that subtotal is the monthly cost and what the one total line
    shows.  When the exact product [(p1 + p2) * 730], written on the
    exponent [E] of the sum, has at most 28 digits, the run returns and no
    step rounds: the monthly cost has the value [(p1 + p2) * 730], and for
    two positive prices it is that product digit for digit. *)
Theorem C5_sum_then_convert (self : AWSCostEstimator)
    (c1 c2 : resource_change) (id1 id2 : json) (p1 p2 : Dec.Decimal) :
  database_change c1 id1 -> database_change c2 id2 ->
  get_rds_price self id1 = Some p1 -> get_rds_price self id2 = Some p2 ->
  0 <= Dec.coefficient p1 -> 0 <= Dec.coefficient p2 ->
  let E := Z.min 0 (Z.min (Dec.exponent p1) (Dec.exponent p2)) in
  -1000026 <= E ->
  let rds_hourly := Dec.add (Dec.add (Dec.mk 0 0) p1) p2 in
  let rds_monthly := Dec.mul rds_hourly (Dec.of_int 730) in
  let exact :=
    Dec.mul_exact (Dec.add_exact (Dec.add_exact (Dec.mk 0 0) p1) p2)
                  (Dec.of_int 730) in
  (forall r,
      estimate_cost self (mkPlan (Some [c1; c2])) = Some r ->
      0 < Dec.coefficient p1 -> 0 < Dec.coefficient p2 ->
      monthly_cost r = Dec.add (Dec.mk 0 0) rds_monthly /\
      breakdown r
      = [ "RDS " +:+ py_str id1 +:+ ": $" +:+ Dec.str p1 +:+ "/hour";
          "RDS " +:+ py_str id2 +:+ ": $" +:+ Dec.str p2 +:+ "/hour";
          "**RDS Total**: $" +:+ Dec.format_2f rds_monthly +:+ "/month" ]) /\
  (((Dec.value p1 + Dec.value p2) * 730 < 10 ^ (Dec.prec + E))%Q ->
   exists r,
     estimate_cost self (mkPlan (Some [c1; c2])) = Some r /\
     (Dec.value (monthly_cost r) == (Dec.value p1 + Dec.value p2) * 730)%Q /\
     (0 < Dec.coefficient p1 -> 0 < Dec.coefficient p2 ->
      monthly_cost r = exact)).
Proof.
  intros Hc1 Hc2 Hp1 Hp2 H1 H2 E HE rds_hourly rds_monthly exact.
  pose proof (two_databases_run self c1 c2 id1 id2 Hc1 Hc2) as Hrun.
  split.
  - intros r Hr P1 P2. rewrite Hrun in Hr. injection Hr as <-.
    rewrite (two_databases_rounded self id1 id2 p1 p2 Hp1 Hp2 P1 P2).
    split; reflexivity.
  - intros Hlt. eexists. split; [exact Hrun|]. split.
    + rewrite AggFacts.monthly_cost_aggregate.
      apply (two_databases_exact self id1 id2 p1 p2 E);
        try assumption; unfold E; lia.
    + intros P1 P2.
      rewrite (two_databases_rounded self id1 id2 p1 p2 Hp1 Hp2 P1 P2).
      cbn [monthly_cost].
      apply subtotal_exact; [exact P1 | exact P2 |].
      apply (ExactFacts.fits_of_value _ E).
      * apply DecFacts.mul_exact_nonneg; [|unfold Dec.nonneg; cbn; lia].
        apply DecFacts.add_exact_nonneg; [|exact H2].
        apply DecFacts.add_exact_nonneg; [apply AggFacts.zero_nonneg | exact H1].
      * unfold Dec.mul_exact, Dec.of_int; cbn [Dec.exponent].
        rewrite !DecFacts.add_exact_exponent. cbn [Dec.exponent]. unfold E. lia.
      * rewrite DecFacts.value_mul_exact, !DecFacts.value_add_exact.
        rewrite DecFacts.value_zero, DecFacts.value_of_int.
        change (inject_Z 730) with 730%Q.
        assert (Hq : ((0 + Dec.value p1 + Dec.value p2) * 730
                      == (Dec.value p1 + Dec.value p2) * 730)%Q) by ring.
        rewrite Hq. exact Hlt.
Qed.

Lemma C5_witness :
  exists r,
    estimate_cost Samples.estimator
      (mkPlan (Some [Samples.database "db.t3.micro";
                     Samples.database "db.t3.micro"])) = Some r /\
    (Dec.value (monthly_cost r)
     == (Dec.value (Dec.mk 180000000 (-10)) + Dec.value (Dec.mk 180000000 (-10)))
        * 730)%Q /\
    (0 < 180000000 -> 0 < 180000000 ->
     monthly_cost r = Dec.mk 262800000000 (-10)).
Proof.
  apply (proj2 (C5_sum_then_convert Samples.estimator
                  (Samples.database "db.t3.micro") (Samples.database "db.t3.micro")
                  (JStr "db.t3.micro") (JStr "db.t3.micro")
                  (Dec.mk 180000000 (-10)) (Dec.mk 180000000 (-10))
                  ltac:(repeat split; reflexivity)
                  ltac:(repeat split; reflexivity)
                  eq_refl eq_refl ltac:(cbn; lia) ltac:(cbn; lia)
                  ltac:(cbn; lia))).
  vm_compute. reflexivity.
Defined.

(** C5 as the specification words it - the exact product for every pair
    of resolved prices - does not hold, for two reasons.  The arithmetic
    rounds: for two databases of one class priced
    0.1234567890123456789012345678 an hour, the sum
    0.2469135780246913578024691356 is exact, but its product by 730 has 31
    digits and is rounded to 180.2469119580246911958024690.  And the
    subtotal is only taken when the sum is positive: for two databases
    priced -0.0050000000 an hour, a product well below the precision, the
    two item lines are written but the monthly cost is 0, not -7.30. *)
Lemma C5_long_price_is_rounded :
  ~ (forall (self : AWSCostEstimator) (c1 c2 : resource_change) (id : json)
            (p1 p2 : Dec.Decimal) (r : estimate),
        database_change c1 id -> database_change c2 id ->
        get_rds_price self id = Some p1 -> get_rds_price self id = Some p2 ->
        estimate_cost self (mkPlan (Some [c1; c2])) = Some r ->
        (Dec.value (monthly_cost r) == (Dec.value p1 + Dec.value p2) * 730)%Q)
  /\
  ~ (forall (self : AWSCostEstimator) (c1 c2 : resource_change) (id : json)
            (p1 p2 : Dec.Decimal) (r : estimate),
        database_change c1 id -> database_change c2 id ->
        get_rds_price self id = Some p1 -> get_rds_price self id = Some p2 ->
        -1000026 <= Z.min 0 (Z.min (Dec.exponent p1) (Dec.exponent p2)) ->
        ((Dec.value p1 + Dec.value p2) * 730
         < 10 ^ (Dec.prec
                 + Z.min 0 (Z.min (Dec.exponent p1) (Dec.exponent p2))))%Q ->
        estimate_cost self (mkPlan (Some [c1; c2])) = Some r ->
        (Dec.value (monthly_cost r) == (Dec.value p1 + Dec.value p2) * 730)%Q).
Proof.
  split; intros H.
  - assert (E : estimate_cost Samples.estimator
                  (mkPlan (Some [Samples.database "db.long";
                                 Samples.database "db.long"]))
                = Some (mkEstimate (Dec.mk 1802469119580246911958024690 (-25))
                          ["RDS db.long: $0.1234567890123456789012345678/hour";
                           "RDS db.long: $0.1234567890123456789012345678/hour";
                           "**RDS Total**: $180.25/month"]%string
                          (mkResources [] [JStr "db.long"; JStr "db.long"] 0 0)))
      by (vm_compute; reflexivity).
    assert (D : database_change (Samples.database "db.long") (JStr "db.long"))
      by (repeat split; reflexivity).
    specialize (H Samples.estimator _ _ (JStr "db.long")
                  (Dec.mk 1234567890123456789012345678 (-28))
                  (Dec.mk 1234567890123456789012345678 (-28)) _
                  D D eq_refl eq_refl E).
    cbn [monthly_cost] in H. apply Qeq_bool_iff in H. vm_compute in H.
    discriminate H.
  - assert (E : estimate_cost Samples.credit_estimator
                  (mkPlan (Some [Samples.database "db.credit";
                                 Samples.database "db.credit"]))
                = Some (mkEstimate (Dec.mk 0 0)
                          ["RDS db.credit: $-0.0050000000/hour";
                           "RDS db.credit: $-0.0050000000/hour"]%string
                          (mkResources [] [JStr "db.credit"; JStr "db.credit"] 0 0)))
      by (vm_compute; reflexivity).
    assert (D : database_change (Samples.database "db.credit") (JStr "db.credit"))
      by (repeat split; reflexivity).
    specialize (H Samples.credit_estimator _ _ (JStr "db.credit")
                  (Dec.mk (-50000000) (-10)) (Dec.mk (-50000000) (-10)) _
                  D D eq_refl eq_refl
                  ltac:(cbn; lia) ltac:(vm_compute; reflexivity) E).
    cbn [monthly_cost] in H. apply Qeq_bool_iff in H. vm_compute in H.
    discriminate H.
Qed.

(* ===================================================================== *)
(** ** Further properties of the code *)
(* ===================================================================== *)

(** *** The inventory as a comprehension *)

Module ParseSpec.
Import Plan Estimator.

(** What one entry adds, read off its fields. *)
Lemma loop_body_spec (c : resource_change) :
  loop_body no_resources c =
  if raises c then None
  else Some (mkResources
               (if negb (delete_only c) && is_compute c
                then param_of c "instance_type" else [])
               (if negb (delete_only c) && is_database c
                then param_of c "instance_class" else [])
               (one_if (negb (delete_only c) && is_load_balancer c))
               (one_if (negb (delete_only c) && is_nat_gateway c))).
Proof.
  unfold loop_body, raises, is_compute, is_database, is_load_balancer,
    is_nat_gateway, param_of, classify.
  destruct (delete_only c); cbn [negb andb]; [reflexivity|].
  destruct (type_ c) as [t|]; cbn [is_type orb]; [|reflexivity].
  destruct (String.eqb_spec t "aws_instance") as [E|_].
  { subst t. cbn. destruct (change_after c) as [|d]; cbn; [reflexivity|].
    destruct (truthy (dict_get d "instance_type")); reflexivity. }
  destruct (String.eqb_spec t "aws_launch_template") as [E|_].
  { subst t. cbn. destruct (change_after c) as [|d]; cbn; [reflexivity|].
    destruct (truthy (dict_get d "instance_type")); reflexivity. }
  destruct (String.eqb_spec t "aws_db_instance") as [E|_].
  { subst t. cbn. destruct (change_after c) as [|d]; cbn; [reflexivity|].
    destruct (truthy (dict_get d "instance_class")); reflexivity. }
  cbn [orb andb].
  destruct (String.eqb_spec t "aws_lb") as [E|_].
  { subst t. cbn. destruct (change_after c); reflexivity. }
  destruct (String.eqb_spec t "aws_alb") as [E|_].
  { subst t. cbn. destruct (change_after c); reflexivity. }
  cbn [orb]. destruct (String.eqb t "aws_nat_gateway");
    destruct (change_after c); reflexivity.
Qed.

Lemma lb_count_cons c cs :
  lb_count (c :: cs)
  = (one_if (negb (delete_only c) && is_load_balancer c) + lb_count cs)%nat.
Proof.
  unfold lb_count. cbn [List.filter].
  destruct (negb (delete_only c) && is_load_balancer c); reflexivity.
Qed.

Lemma nat_count_cons c cs :
  nat_count (c :: cs)
  = (one_if (negb (delete_only c) && is_nat_gateway c) + nat_count cs)%nat.
Proof.
  unfold nat_count. cbn [List.filter].
  destruct (negb (delete_only c) && is_nat_gateway c); reflexivity.
Qed.

(** The loop, as a whole: it raises on the first entry that [raises]
    marks, and otherwise returns the comprehensions. *)
Lemma parse_loop_spec (cs : list resource_change) :
  parse_loop no_resources cs =
  if existsb raises cs then None
  else Some (mkResources (ec2_ids cs) (rds_ids cs) (lb_count cs) (nat_count cs)).
Proof.
  induction cs as [|c cs IH]; [reflexivity|].
  cbn [parse_loop existsb]. rewrite loop_body_spec.
  destruct (raises c); cbn [orb]; [reflexivity|].
  rewrite ParseFacts.parse_loop_res, IH.
  destruct (existsb raises cs); cbn [option_map]; [reflexivity|].
  rewrite lb_count_cons, nat_count_cons. reflexivity.
Qed.

Lemma existsb_perm {A} (f : A -> bool) (l l' : list A) :
  Permutation l l' -> existsb f l = existsb f l'.
Proof.
  induction 1; cbn [existsb]; try congruence.
  destruct (f x), (f y); reflexivity.
Qed.

Lemma filter_length_perm {A} (f : A -> bool) (l l' : list A) :
  Permutation l l' ->
  List.length (List.filter f l) = List.length (List.filter f l').
Proof.
  induction 1; cbn [List.filter]; try congruence.
  - destruct (f x); cbn [List.length]; congruence.
  - destruct (f x), (f y); reflexivity.
Qed.

Lemma hourly_exact_perm get_price (l l' : list json) :
  Permutation l l' ->
  (hourly_exact get_price l == hourly_exact get_price l')%Q.
Proof.
  induction 1; cbn [hourly_exact]; try lra.
Qed.

End ParseSpec.

(** *** Regions *)

Lemma location_unmapped (client : string -> list Filter -> response)
    (rgn : string) :
  String.eqb rgn "us-east-1" = false ->
  String.eqb rgn "us-west-2" = false ->
  String.eqb rgn "eu-west-1" = false ->
  _region_to_location (mkEstimator rgn client) = "EU (Stockholm)"%string.
Proof.
  intros H1 H2 H3. unfold _region_to_location; cbn [region].
  rewrite H1, H2, H3. destruct (String.eqb rgn "eu-north-1"); reflexivity.
Qed.

Lemma estimate_same_location (self1 self2 : AWSCostEstimator) (p : plan) :
  get_products self1 = get_products self2 ->
  _region_to_location self1 = _region_to_location self2 ->
  estimate_cost self1 p = estimate_cost self2 p.
Proof.
  intros Hc Hl. unfold estimate_cost.
  destruct (parse_terraform_plan p) as [res|]; [|reflexivity].
  f_equal. apply AggFacts.aggregate_ext; intros id _.
  - unfold get_ec2_price, ec2_filters. rewrite Hc, Hl. reflexivity.
  - unfold get_rds_price, rds_filters. rewrite Hc, Hl. reflexivity.
Qed.

(** X1.  A region that the table of [_region_to_location] does not list
    is priced as ['eu-north-1']: the location sent to the catalogue is
    ['EU (Stockholm)'], every request is the one an ['eu-north-1']
    estimator makes, and so is the result of every run. *)
Theorem X1_unmapped_region_priced_as_stockholm
    (client : string -> list Filter -> response) (rgn : string) (p : plan) :
  String.eqb rgn "us-east-1" = false ->
  String.eqb rgn "us-west-2" = false ->
  String.eqb rgn "eu-west-1" = false ->
  _region_to_location (mkEstimator rgn client) = "EU (Stockholm)"%string /\
  (forall id,
      ec2_filters (mkEstimator rgn client) id
      = ec2_filters (mkEstimator "eu-north-1" client) id /\
      rds_filters (mkEstimator rgn client) id
      = rds_filters (mkEstimator "eu-north-1" client) id) /\
  estimate_cost (mkEstimator rgn client) p
  = estimate_cost (mkEstimator "eu-north-1" client) p.
Proof.
  intros H1 H2 H3.
  pose proof (location_unmapped client rgn H1 H2 H3) as L.
  split; [exact L|]. split.
  - intros id. unfold ec2_filters, rds_filters. rewrite L. split; reflexivity.
  - apply estimate_same_location; [reflexivity|]. rewrite L. reflexivity.
Qed.

Lemma X1_witness :
  _region_to_location (mkEstimator "ap-south-1" Samples.catalogue)
  = "EU (Stockholm)"%string /\
  (forall id,
      ec2_filters (mkEstimator "ap-south-1" Samples.catalogue) id
      = ec2_filters (mkEstimator "eu-north-1" Samples.catalogue) id /\
      rds_filters (mkEstimator "ap-south-1" Samples.catalogue) id
      = rds_filters (mkEstimator "eu-north-1" Samples.catalogue) id) /\
  estimate_cost (mkEstimator "ap-south-1" Samples.catalogue)
    (Samples.plan_of [Samples.instance "t3.micro"])
  = estimate_cost (mkEstimator "eu-north-1" Samples.catalogue)
    (Samples.plan_of [Samples.instance "t3.micro"]).
Proof.
  apply (X1_unmapped_region_priced_as_stockholm Samples.catalogue "ap-south-1"
           (Samples.plan_of [Samples.instance "t3.micro"])); reflexivity.
Defined.

(** *** The parser, entry by entry *)

(** X3.  When [parse_terraform_plan] returns, the inventory is read off
    the change list in plan order: [ec2_instances] holds the true
    [instance_type] values of the ['aws_instance'] and
    ['aws_launch_template'] entries that are not pure deletions,
    [rds_instances] the true [instance_class] values of such
    ['aws_db_instance'] entries, and the two counters are the numbers of
    such ['aws_lb']/['aws_alb'] and ['aws_nat_gateway'] entries. *)
Theorem X3_inventory_in_plan_order (p : plan) (r : resources) :
  parse_terraform_plan p = Some r ->
  ec2_instances r = ec2_ids (changes_of p) /\
  rds_instances r = rds_ids (changes_of p) /\
  albs r = lb_count (changes_of p) /\
  nat_gateways r = nat_count (changes_of p).
Proof.
  unfold parse_terraform_plan. rewrite ParseSpec.parse_loop_spec.
  destruct (existsb raises (changes_of p)); [discriminate|].
  intros H. injection H as <-. repeat split.
Qed.

Lemma X3_witness :
  ec2_instances (mkResources [JStr "t3.micro"; JStr "t3.nano"]
                             [JStr "db.t3.micro"] 1 0)
  = ec2_ids [Samples.instance "t3.micro"; Samples.destroy "aws_instance";
             Samples.entry_replace_database; Samples.load_balancer;
             Samples.bucket; Samples.instance "t3.nano"] /\
  rds_instances (mkResources [JStr "t3.micro"; JStr "t3.nano"]
                             [JStr "db.t3.micro"] 1 0)
  = rds_ids [Samples.instance "t3.micro"; Samples.destroy "aws_instance";
             Samples.entry_replace_database; Samples.load_balancer;
             Samples.bucket; Samples.instance "t3.nano"] /\
  albs (mkResources [JStr "t3.micro"; JStr "t3.nano"] [JStr "db.t3.micro"] 1 0)
  = lb_count [Samples.instance "t3.micro"; Samples.destroy "aws_instance";
              Samples.entry_replace_database; Samples.load_balancer;
              Samples.bucket; Samples.instance "t3.nano"] /\
  nat_gateways (mkResources [JStr "t3.micro"; JStr "t3.nano"]
                            [JStr "db.t3.micro"] 1 0)
  = nat_count [Samples.instance "t3.micro"; Samples.destroy "aws_instance";
               Samples.entry_replace_database; Samples.load_balancer;
               Samples.bucket; Samples.instance "t3.nano"].
Proof.
  apply (X3_inventory_in_plan_order
           (Samples.plan_of
              [Samples.instance "t3.micro"; Samples.destroy "aws_instance";
               Samples.entry_replace_database; Samples.load_balancer;
               Samples.bucket; Samples.instance "t3.nano"])).
  vm_compute. reflexivity.
Defined.

(** X4.  An entry of type ['aws_instance'], ['aws_launch_template'] or
    ['aws_db_instance'] that is not a pure deletion and has a JSON [null]
    under ['after'] makes [parse_terraform_plan] raise - there [after.get]
    is called on [None] - and with it [estimate_cost], wherever the entry
    stands in the plan and whatever the other entries are. *)
Theorem X4_raises_on_null_after (self : AWSCostEstimator) (p : plan) :
  existsb raises (changes_of p) = true ->
  parse_terraform_plan p = None /\ estimate_cost self p = None.
Proof.
  intros H. unfold estimate_cost, parse_terraform_plan.
  rewrite ParseSpec.parse_loop_spec, H. split; reflexivity.
Qed.

Lemma X4_witness :
  parse_terraform_plan
    (Samples.plan_of
       [Samples.load_balancer;
        entry (Some "aws_launch_template"%string) (Some ["update"%string])
              (Some AfterNull);
        Samples.instance "t3.micro"]) = None /\
  estimate_cost Samples.estimator
    (Samples.plan_of
       [Samples.load_balancer;
        entry (Some "aws_launch_template"%string) (Some ["update"%string])
              (Some AfterNull);
        Samples.instance "t3.micro"]) = None.
Proof.
  apply X4_raises_on_null_after. reflexivity.
Defined.

(** X5.  The inventory of a change list made of two stretches is the
    inventory of the first followed by that of the second - lists
    appended, counters added - and parsing raises when parsing either
    stretch does. *)
Theorem X5_inventory_of_concatenation (cs1 cs2 : list resource_change) :
  parse_terraform_plan (mkPlan (Some (cs1 ++ cs2))) =
  match parse_terraform_plan (mkPlan (Some cs1)),
        parse_terraform_plan (mkPlan (Some cs2)) with
  | Some r1, Some r2 =>
      Some (mkResources (ec2_instances r1 ++ ec2_instances r2)
                        (rds_instances r1 ++ rds_instances r2)
                        (albs r1 + albs r2) (nat_gateways r1 + nat_gateways r2))
  | _, _ => None
  end.
Proof.
  unfold parse_terraform_plan, changes_of; cbn [resource_changes].
  rewrite ParseFacts.parse_concat.
  destruct (parse_loop no_resources cs1), (parse_loop no_resources cs2);
    reflexivity.
Qed.

(** X6.  A compute or database entry whose [after] object has no true
    value under the key the parser reads ([instance_type], resp.
    [instance_class]: the key is missing, or holds [null], an empty
    string, [false] or 0) is dropped without a trace: the result of the
    run is that of the plan without the entry. *)
Theorem X6_entry_without_parameter_dropped (self : AWSCostEstimator)
    (pre post : list resource_change) (c : resource_change)
    (d : gmap string json) :
  change_after c = AfterObj d ->
  (is_compute c = true /\ truthy (dict_get d "instance_type") = false) \/
  (is_database c = true /\ truthy (dict_get d "instance_class") = false) ->
  (forall r, loop_body r c = Some r) /\
  estimate_cost self (mkPlan (Some (pre ++ c :: post)))
  = estimate_cost self (mkPlan (Some (pre ++ post))).
Proof.
  intros Ha Hk.
  assert (Hb : loop_body no_resources c = Some no_resources).
  { rewrite ParseSpec.loop_body_spec. unfold raises, param_of.
    rewrite Ha. cbn [after_get]. rewrite andb_false_r.
    destruct Hk as [[Hc Hv]|[Hd Hv]].
    - rewrite Hc, Hv.
      assert (Hdb : is_database c = false).
      { unfold is_compute, is_database in *. destruct (type_ c) as [t|];
          [|reflexivity]. cbn [is_type] in *.
        destruct (String.eqb_spec t "aws_db_instance") as [->|]; [|reflexivity].
        discriminate Hc. }
      assert (Hlb : is_load_balancer c = false).
      { unfold is_compute, is_load_balancer in *. destruct (type_ c) as [t|];
          [|reflexivity]. cbn [is_type] in *.
        destruct (String.eqb_spec t "aws_lb") as [->|]; [discriminate Hc|].
        destruct (String.eqb_spec t "aws_alb") as [->|]; [discriminate Hc|].
        reflexivity. }
      assert (Hng : is_nat_gateway c = false).
      { unfold is_compute, is_nat_gateway in *. destruct (type_ c) as [t|];
          [|reflexivity]. cbn [is_type] in *.
        destruct (String.eqb_spec t "aws_nat_gateway") as [->|]; [|reflexivity].
        discriminate Hc. }
      rewrite Hdb, Hlb, Hng, !andb_false_r.
      destruct (negb (delete_only c)); reflexivity.
    - rewrite Hd, Hv.
      assert (Hc : is_compute c = false).
      { unfold is_compute, is_database in *. destruct (type_ c) as [t|];
          [|reflexivity]. cbn [is_type] in *.
        apply String.eqb_eq in Hd. subst t. reflexivity. }
      assert (Hlb : is_load_balancer c = false).
      { unfold is_load_balancer, is_database in *. destruct (type_ c) as [t|];
          [|reflexivity]. cbn [is_type] in *.
        apply String.eqb_eq in Hd. subst t. reflexivity. }
      assert (Hng : is_nat_gateway c = false).
      { unfold is_nat_gateway, is_database in *. destruct (type_ c) as [t|];
          [|reflexivity]. cbn [is_type] in *.
        apply String.eqb_eq in Hd. subst t. reflexivity. }
      rewrite Hc, Hlb, Hng, !andb_false_r.
      destruct (negb (delete_only c)); reflexivity. }
  split.
  - intros r. rewrite ParseFacts.loop_body_app, Hb. cbn [option_map].
    rewrite ParseFacts.res_app_nil_r. reflexivity.
  - unfold estimate_cost, parse_terraform_plan, changes_of; cbn [resource_changes].
    rewrite (ParseFacts.parse_insert pre post c no_resources Hb).
    rewrite ParseFacts.parse_concat.
    destruct (parse_loop no_resources pre) as [a|]; [|reflexivity].
    destruct (parse_loop no_resources post) as [b|]; [|reflexivity].
    rewrite ParseFacts.res_app_nil_l. reflexivity.
Qed.

Lemma X6_witness :
  (forall r, loop_body r (Samples.create "aws_instance"
                            [("ami"%string, JStr "ami-1")]) = Some r) /\
  estimate_cost Samples.estimator
    (mkPlan (Some ([Samples.instance "t3.micro"]
                   ++ Samples.create "aws_instance" [("ami"%string, JStr "ami-1")]
                   :: [Samples.load_balancer])))
  = estimate_cost Samples.estimator
    (mkPlan (Some ([Samples.instance "t3.micro"] ++ [Samples.load_balancer]))).
Proof.
  apply (X6_entry_without_parameter_dropped Samples.estimator
           [Samples.instance "t3.micro"] [Samples.load_balancer]
           (Samples.create "aws_instance" [("ami"%string, JStr "ami-1")])
           (list_to_map [("ami"%string, JStr "ami-1")])).
  - reflexivity.
  - left. split; reflexivity.
Defined.

Lemma estimate_same_body (self : AWSCostEstimator)
    (pre post : list resource_change) (c1 c2 : resource_change) :
  loop_body no_resources c1 = loop_body no_resources c2 ->
  estimate_cost self (mkPlan (Some (pre ++ c1 :: post)))
  = estimate_cost self (mkPlan (Some (pre ++ c2 :: post))).
Proof.
  intros H. unfold estimate_cost, parse_terraform_plan, changes_of;
    cbn [resource_changes].
  rewrite !ParseFacts.parse_loop_app. cbn [parse_loop].
  destruct (parse_loop no_resources pre) as [a|]; [|reflexivity].
  rewrite (ParseFacts.loop_body_app a c1), (ParseFacts.loop_body_app a c2), H.
  reflexivity.
Qed.

(** X7.  A launch template is inventoried as a running instance: with the
    tag ['aws_launch_template'] in place of ['aws_instance'] an entry
    adds the same identifier to [ec2_instances] (or raises alike), and
    the run on the plan returns the same cost, lines and inventory. *)
Theorem X7_launch_template_as_instance (self : AWSCostEstimator)
    (pre post : list resource_change) (b : option change_body) (r : resources) :
  loop_body r (mkChange (Some "aws_launch_template"%string) b)
  = loop_body r (mkChange (Some "aws_instance"%string) b) /\
  estimate_cost self
    (mkPlan (Some (pre ++ mkChange (Some "aws_launch_template"%string) b :: post)))
  = estimate_cost self
    (mkPlan (Some (pre ++ mkChange (Some "aws_instance"%string) b :: post))).
Proof.
  assert (H : forall r0,
             loop_body r0 (mkChange (Some "aws_launch_template"%string) b)
             = loop_body r0 (mkChange (Some "aws_instance"%string) b)).
  { intros r0. unfold loop_body, delete_only, change_action, classify,
      change_after; cbn [change type_ is_type].
    destruct (bool_decide _); reflexivity. }
  split; [apply H|]. apply estimate_same_body, H.
Qed.

(** X8.  Apart from the test for a pure deletion the action list is not
    read: an entry is inventoried and priced the same under any two
    action lists other than [['delete']] - a ['no-op'] or an ['update']
    like a ['create'] - so the monthly cost is that of everything the
    plan leaves in place, not of what the plan adds. *)
Theorem X8_actions_do_not_matter (self : AWSCostEstimator)
    (pre post : list resource_change) (t : option string)
    (acts1 acts2 : option (list string)) (aft : option after_value) :
  acts1 <> Some ["delete"%string] ->
  acts2 <> Some ["delete"%string] ->
  (forall r, loop_body r (entry t acts1 aft) = loop_body r (entry t acts2 aft)) /\
  estimate_cost self (mkPlan (Some (pre ++ entry t acts1 aft :: post)))
  = estimate_cost self (mkPlan (Some (pre ++ entry t acts2 aft :: post))).
Proof.
  intros H1 H2.
  assert (Hn : forall acts, acts <> Some ["delete"%string] ->
                 delete_only (entry t acts aft) = false).
  { intros acts Ha. unfold delete_only, change_action, entry; cbn [change actions].
    apply bool_decide_eq_false_2. destruct acts as [a|]; [congruence|discriminate]. }
  assert (H : forall r,
             loop_body r (entry t acts1 aft) = loop_body r (entry t acts2 aft)).
  { intros r. unfold loop_body. rewrite (Hn acts1 H1), (Hn acts2 H2). reflexivity. }
  split; [exact H|]. apply estimate_same_body, H.
Qed.

Lemma X8_witness :
  (forall r,
      loop_body r (entry (Some "aws_instance"%string) (Some ["no-op"%string])
                     (Some (AfterObj {[ "instance_type"%string := JStr "t3.micro" ]})))
      = loop_body r (entry (Some "aws_instance"%string) (Some ["create"%string])
                       (Some (AfterObj {[ "instance_type"%string := JStr "t3.micro" ]}))))
  /\
  estimate_cost Samples.estimator
    (mkPlan (Some ([] ++ entry (Some "aws_instance"%string) (Some ["no-op"%string])
                           (Some (AfterObj {[ "instance_type"%string := JStr "t3.micro" ]}))
                      :: [])))
  = estimate_cost Samples.estimator
    (mkPlan (Some ([] ++ entry (Some "aws_instance"%string) (Some ["create"%string])
                           (Some (AfterObj {[ "instance_type"%string := JStr "t3.micro" ]}))
                      :: []))).
Proof.
  apply (X8_actions_do_not_matter Samples.estimator [] []
           (Some "aws_instance"%string) (Some ["no-op"%string])
           (Some ["create"%string])); discriminate.
Defined.

(** *** Lines and totals *)

(** X9.  For a plan with exactly one ['aws_nat_gateway'] entry (not a
    pure deletion) and nothing else that enters the inventory, the run
    returns the monthly cost [0.045 * 730 = 32.850] and the single line
    ["NAT Gateway (1x): $32.85/month (excluding data transfer)"],
    whatever the catalogue and the region. *)
Theorem X9_one_nat_gateway_line (self : AWSCostEstimator)
    (pre post : list resource_change) (c : resource_change) :
  is_nat_gateway c = true ->
  delete_only c = false ->
  parse_loop no_resources (pre ++ post) = Some no_resources ->
  estimate_cost self (mkPlan (Some (pre ++ c :: post)))
  = Some (mkEstimate (Dec.mk 32850 (-3))
            ["NAT Gateway (1x): $32.85/month (excluding data transfer)"%string]
            (mkResources [] [] 0 1)).
Proof.
  intros Ht Hd H0.
  assert (Hb : loop_body no_resources c = Some (mkResources [] [] 0 1)).
  { rewrite ParseSpec.loop_body_spec. unfold raises, is_compute, is_database,
      is_load_balancer, is_nat_gateway in *. rewrite Hd, Ht.
    destruct (type_ c) as [t|]; [|discriminate Ht]. cbn [is_type] in *.
    apply String.eqb_eq in Ht. subst t. cbn. reflexivity. }
  unfold estimate_cost, parse_terraform_plan, changes_of; cbn [resource_changes].
  rewrite (ParseFacts.parse_insert pre post c _ Hb).
  rewrite ParseFacts.parse_concat in H0.
  destruct (parse_loop no_resources pre) as [a|]; [|discriminate].
  destruct (parse_loop no_resources post) as [b|]; [|discriminate].
  assert (Hab : res_app a b = no_resources) by congruence.
  apply res_app_empty in Hab. destruct Hab as [-> ->].
  vm_compute. reflexivity.
Qed.

Lemma X9_witness :
  estimate_cost Samples.small_estimator
    (mkPlan (Some ([Samples.bucket]
                   ++ Samples.create "aws_nat_gateway" [] :: [Samples.destroy "aws_lb"])))
  = Some (mkEstimate (Dec.mk 32850 (-3))
            ["NAT Gateway (1x): $32.85/month (excluding data transfer)"%string]
            (mkResources [] [] 0 1)).
Proof.
  apply (X9_one_nat_gateway_line Samples.small_estimator
           [Samples.bucket] [Samples.destroy "aws_lb"]
           (Samples.create "aws_nat_gateway" [])); reflexivity.
Defined.

Module LineFacts.
Import Plan Estimator.

Lemma count_priced_cons get_price id ids :
  count_priced get_price (id :: ids)
  = (one_if (negb (unpriced (get_price id))) + count_priced get_price ids)%nat.
Proof.
  unfold count_priced. cbn [List.filter].
  destruct (negb (unpriced (get_price id))); reflexivity.
Qed.

(** A price loop writes one line for each identifier with a price that
    passes [if price:], after the lines it was given. *)
Lemma price_fold_lines get_price label ids : forall st,
  exists ls,
    fold_left (price_step get_price label) ids st
    = (fold_left (hourly_step get_price) ids (fst st), snd st ++ ls) /\
    List.length ls = count_priced get_price ids.
Proof.
  induction ids as [|id ids IH]; intros st; cbn [fold_left].
  - exists []. rewrite app_nil_r. destruct st; split; reflexivity.
  - destruct (IH (price_step get_price label st id)) as (ls & E & L).
    rewrite count_priced_cons. unfold price_step, hourly_step, unpriced in *.
    destruct (get_price id) as [p|]; [destruct (Dec.truthy p)|];
      cbn [fst snd negb one_if] in *.
    + eexists. rewrite E, <- app_assoc. split; [reflexivity|].
      cbn [app List.length]. lia.
    + exists ls. split; assumption.
    + exists ls. split; assumption.
Qed.

Lemma hourly_fold_unpriced get_price ids : forall h,
  count_priced get_price ids = 0%nat ->
  fold_left (hourly_step get_price) ids h = h.
Proof.
  induction ids as [|id ids IH]; intros h H; cbn [fold_left]; [reflexivity|].
  rewrite count_priced_cons in H. unfold hourly_step, unpriced in *.
  destruct (get_price id) as [p|]; [destruct (Dec.truthy p)|];
    cbn [negb one_if] in H; try (apply IH; lia). lia.
Qed.

Lemma add_total_lines label h st :
  add_total label h st
  = (tot h (fst st),
     snd st ++ if Dec.gt0 h
               then ["**" +:+ label +:+ " Total**: $"
                       +:+ Dec.format_2f (Dec.mul h (Dec.of_int 730)) +:+ "/month"]
               else []).
Proof.
  unfold add_total, tot. destruct (Dec.gt0 h); [reflexivity|].
  rewrite app_nil_r. destruct st; reflexivity.
Qed.

Lemma add_flat_lines label note price n st :
  exists ls,
    add_flat label note price n st = (flat price n (fst st), snd st ++ ls) /\
    List.length ls = one_if (0 <? n)%nat.
Proof.
  unfold add_flat, flat. destruct (0 <? n)%nat.
  - eexists. split; reflexivity.
  - exists []. rewrite app_nil_r. destruct st; split; reflexivity.
Qed.

(** The number of breakdown lines of a run. *)
Lemma breakdown_length (self : AWSCostEstimator) (res : resources) :
  List.length (breakdown (aggregate self res))
  = (count_priced (get_ec2_price self) (ec2_instances res)
     + one_if (Dec.gt0 (hourly (get_ec2_price self) (ec2_instances res)))
     + count_priced (get_rds_price self) (rds_instances res)
     + one_if (Dec.gt0 (hourly (get_rds_price self) (rds_instances res)))
     + one_if (0 <? albs res)%nat + one_if (0 <? nat_gateways res)%nat)%nat.
Proof.
  unfold aggregate, price_loop, hourly; cbn [breakdown fst snd].
  destruct (price_fold_lines (get_ec2_price self) "EC2" (ec2_instances res)
              (Dec.mk 0 0, [])) as (l1 & E1 & L1).
  rewrite E1. cbn [fst snd]. rewrite add_total_lines. cbn [fst snd].
  match goal with
  | |- context [fold_left (price_step (get_rds_price self) "RDS") _ ?st] =>
      destruct (price_fold_lines (get_rds_price self) "RDS" (rds_instances res) st)
        as (l2 & E2 & L2)
  end.
  rewrite E2. cbn [fst snd]. rewrite add_total_lines. cbn [fst snd].
  match goal with
  | |- context [add_flat "ALB" "LCU" get_alb_price (albs res) ?st] =>
      destruct (add_flat_lines "ALB" "LCU" get_alb_price (albs res) st)
        as (l3 & E3 & L3)
  end.
  rewrite E3. cbn [fst snd].
  match goal with
  | |- context [add_flat "NAT Gateway" "data transfer" get_nat_gateway_price
                  (nat_gateways res) ?st] =>
      destruct (add_flat_lines "NAT Gateway" "data transfer"
                  get_nat_gateway_price (nat_gateways res) st)
        as (l4 & E4 & L4)
  end.
  rewrite E4. cbn [fst snd].
  rewrite !length_app, L1, L2, L3, L4. cbn [app List.length].
  destruct (Dec.gt0 (fold_left (hourly_step (get_ec2_price self))
                       (ec2_instances res) (Dec.mk 0 0)));
    destruct (Dec.gt0 (fold_left (hourly_step (get_rds_price self))
                         (rds_instances res) (Dec.mk 0 0)));
    cbn [List.length one_if]; lia.
Qed.

(** With prices that are zero or more, a category has a positive hourly
    sum exactly when one of its items has a price that counts. *)
Lemma gt0_fold_priced get_price :
  (forall id p, get_price id = Some p -> Dec.nonneg p) ->
  forall ids h, Dec.nonneg h ->
    Dec.gt0 (fold_left (hourly_step get_price) ids h)
    = Dec.gt0 h || (0 <? count_priced get_price ids)%nat.
Proof.
  intros Hn. induction ids as [|id ids IH]; intros h Hh; cbn [fold_left].
  - cbn. rewrite orb_false_r. reflexivity.
  - rewrite count_priced_cons. unfold hourly_step, unpriced.
    destruct (get_price id) as [p|] eqn:Ep; [destruct (Dec.truthy p) eqn:T|];
      cbn [negb one_if Nat.add]; try (apply IH; exact Hh).
    pose proof (Hn id p Ep) as Np.
    assert (Pp : 0 < Dec.coefficient p).
    { unfold Dec.truthy in T. apply negb_true_iff, Z.eqb_neq in T.
      unfold Dec.nonneg in Np. lia. }
    rewrite IH by (apply DecFacts.add_nonneg; assumption).
    unfold Dec.gt0 at 1.
    pose proof (DecFacts.add_pos h p Hh Pp) as Pa.
    apply Z.ltb_lt in Pa. rewrite Pa. cbn. rewrite orb_true_r. reflexivity.
Qed.

End LineFacts.

(** X10.  No cost without a line: when the breakdown of a run is empty,
    its monthly cost is [Decimal('0')].  (Every amount that enters the
    total is written to the breakdown first.) *)
Theorem X10_empty_breakdown_costs_nothing (self : AWSCostEstimator) (p : plan)
    (r : estimate) :
  estimate_cost self p = Some r ->
  breakdown r = [] ->
  monthly_cost r = Dec.mk 0 0.
Proof.
  unfold estimate_cost. destruct (parse_terraform_plan p) as [res|]; [|discriminate].
  intros H Hb. injection H as <-.
  pose proof (LineFacts.breakdown_length self res) as L.
  rewrite Hb in L. cbn [List.length] in L.
  assert (He : count_priced (get_ec2_price self) (ec2_instances res) = 0%nat) by lia.
  assert (Hr : count_priced (get_rds_price self) (rds_instances res) = 0%nat) by lia.
  assert (Ha : (0 <? albs res)%nat = false)
    by (destruct (0 <? albs res)%nat; cbn [one_if] in L; [lia|reflexivity]).
  assert (Hn : (0 <? nat_gateways res)%nat = false)
    by (destruct (0 <? nat_gateways res)%nat; cbn [one_if] in L; [lia|reflexivity]).
  rewrite AggFacts.monthly_cost_aggregate. unfold total, hourly, flat.
  rewrite (LineFacts.hourly_fold_unpriced _ _ _ He),
          (LineFacts.hourly_fold_unpriced _ _ _ Hr), Ha, Hn.
  reflexivity.
Qed.

Lemma X10_witness :
  monthly_cost (mkEstimate (Dec.mk 0 0) []
                  (mkResources [JStr "t3.nano"; JStr "t4g.free"] [] 0 0))
  = Dec.mk 0 0.
Proof.
  apply (X10_empty_breakdown_costs_nothing Samples.estimator
           (Samples.plan_of [Samples.instance "t3.nano"; Samples.bucket;
                             Samples.instance "t4g.free"])).
  - vm_compute. reflexivity.
  - reflexivity.
Defined.

Lemma sample_prices_in_range : prices_above (-1000026) Samples.estimator.
Proof.
  intros id p. unfold get_ec2_price, get_rds_price, ec2_filters, rds_filters.
  cbn. unfold Samples.catalogue; cbn.
  destruct id as [|b|n|s]; cbn; try (intros [H|H]; discriminate H).
  repeat match goal with
         | |- context [String.eqb s ?t] => destruct (String.eqb s t)
         end; cbn; intros [H|H]; try discriminate H;
    injection H as <-; cbn; lia.
Qed.

(** X11.  With prices that are zero or more, on exponents not below
    -1000026 (the smallest exponent of Python's default decimal context,
    under which a sum of prices can round to zero), the number of
    breakdown lines of a run that returns is fixed by the inventory and by
    which items have a price that counts (present and not zero): one line
    for each such compute item, plus a total line when there is one, the
    same for the database items, plus one line when there are load
    balancers and one when there are NAT gateways.  It is at most the
    number of items plus four. *)
Theorem X11_number_of_lines (self : AWSCostEstimator) (p : plan) (r : estimate) :
  prices_nonneg self ->
  prices_above (-1000026) self ->
  estimate_cost self p = Some r ->
  let e := count_priced (get_ec2_price self) (ec2_instances (resources_ r)) in
  let d := count_priced (get_rds_price self) (rds_instances (resources_ r)) in
  List.length (breakdown r)
  = (e + one_if (0 <? e) + d + one_if (0 <? d)
     + one_if (0 <? albs (resources_ r))
     + one_if (0 <? nat_gateways (resources_ r)))%nat /\
  (List.length (breakdown r)
   <= List.length (ec2_instances (resources_ r))
      + List.length (rds_instances (resources_ r)) + 4)%nat.
Proof.
  intros Hn _. unfold estimate_cost.
  destruct (parse_terraform_plan p) as [res|]; [|discriminate].
  intros H. injection H as <-. cbn zeta.
  rewrite AggFacts.resources_aggregate, LineFacts.breakdown_length.
  unfold hourly.
  rewrite !LineFacts.gt0_fold_priced;
    try apply AggFacts.zero_nonneg;
    try (intros id q Eq; apply (Hn id q); tauto).
  cbn [Dec.gt0 Dec.coefficient Z.ltb Z.compare orb].
  split; [reflexivity|].
  assert (B : forall g l, (count_priced g l <= List.length l)%nat).
  { intros g l. unfold count_priced. apply filter_length_le. }
  pose proof (B (get_ec2_price self) (ec2_instances res)).
  pose proof (B (get_rds_price self) (rds_instances res)).
  assert (O : forall b, (one_if b <= 1)%nat) by (intros []; cbn; lia).
  pose proof (O (0 <? count_priced (get_ec2_price self) (ec2_instances res))%nat).
  pose proof (O (0 <? count_priced (get_rds_price self) (rds_instances res))%nat).
  pose proof (O (0 <? albs res)%nat).
  pose proof (O (0 <? nat_gateways res)%nat).
  lia.
Qed.

Lemma X11_witness :
  List.length ["EC2 t3.micro: $0.0104000000/hour";
               "**EC2 Total**: $7.59/month";
               "ALB (1x): $16.42/month (excluding LCU)"]%string
  = (1 + one_if (0 <? 1) + 0 + one_if (0 <? 0) + one_if (0 <? 1)
     + one_if (0 <? 0))%nat /\
  (List.length ["EC2 t3.micro: $0.0104000000/hour";
                "**EC2 Total**: $7.59/month";
                "ALB (1x): $16.42/month (excluding LCU)"]%string
   <= 2 + 0 + 4)%nat.
Proof.
  apply (X11_number_of_lines Samples.estimator
           (Samples.plan_of [Samples.instance "t3.micro"; Samples.instance "t3.nano";
                             Samples.load_balancer])
           (mkEstimate (Dec.mk 240170000000 (-10))
              ["EC2 t3.micro: $0.0104000000/hour";
               "**EC2 Total**: $7.59/month";
               "ALB (1x): $16.42/month (excluding LCU)"]%string
              (mkResources [JStr "t3.micro"; JStr "t3.nano"] [] 1 0))).
  - exact sample_prices_nonneg.
  - exact sample_prices_in_range.
  - vm_compute. reflexivity.
Defined.

(** *** Exact totals *)

Lemma small_prices_nonneg : prices_nonneg Samples.small_estimator.
Proof.
  intros id p. unfold get_ec2_price, get_rds_price, ec2_filters, rds_filters.
  cbn. unfold Samples.small_catalogue; cbn.
  destruct id as [|b|n|s]; cbn; try (intros [H|H]; discriminate H).
  destruct (String.eqb s "t3.micro"); cbn; intros [H|H]; try discriminate H;
    injection H as <-; cbn; lia.
Qed.

Lemma small_prices_above : prices_above (-10) Samples.small_estimator.
Proof.
  intros id p. unfold get_ec2_price, get_rds_price, ec2_filters, rds_filters.
  cbn. unfold Samples.small_catalogue; cbn.
  destruct id as [|b|n|s]; cbn; try (intros [H|H]; discriminate H).
  destruct (String.eqb s "t3.micro"); cbn; intros [H|H]; try discriminate H;
    injection H as <-; cbn; lia.
Qed.

(** X12.  No rounding below the precision: when every resolved price is
    zero or more with an exponent of at least [E] (for AWS price lists,
    -10), where [-1000026 <= E <= -4] (-1000026 is the smallest exponent
    of Python's default decimal context), and the exact monthly total -
    730 times the hourly prices of the priced items, plus 16.425 for each
    load balancer and 32.85 for each NAT gateway - is below [10^(28+E)],
    then no [Decimal] operation of the run rounds and the returned monthly
    cost is that exact total. *)
Theorem X12_total_exact_below_precision (E : Z) (self : AWSCostEstimator)
    (p : plan) (r : estimate) :
  -1000026 <= E ->
  E <= -4 ->
  prices_nonneg self ->
  prices_above E self ->
  estimate_cost self p = Some r ->
  (exact_total self (resources_ r) < 10 ^ (28 + E))%Q ->
  (Dec.value (monthly_cost r) == exact_total self (resources_ r))%Q.
Proof.
  intros _ HE Hn Ha. unfold estimate_cost.
  destruct (parse_terraform_plan p) as [res|]; [|discriminate].
  intros H. injection H as <-.
  rewrite AggFacts.resources_aggregate, AggFacts.monthly_cost_aggregate.
  intros Hlt.
  destruct (ExactAgg.total_exact E self res HE Hn Ha Hlt) as (_ & _ & Hv).
  exact Hv.
Qed.

Lemma X12_witness :
  (Dec.value (Dec.mk 404420000000 (-10))
   == exact_total Samples.small_estimator
        (mkResources [JStr "t3.micro"; JStr "m5.large"] [] 2 0))%Q.
Proof.
  apply (X12_total_exact_below_precision (-10) Samples.small_estimator
           (Samples.plan_of [Samples.instance "t3.micro"; Samples.load_balancer;
                             Samples.instance "m5.large"; Samples.create "aws_alb" []])
           (mkEstimate (Dec.mk 404420000000 (-10))
              ["EC2 t3.micro: $0.0104000000/hour";
               "**EC2 Total**: $7.59/month";
               "ALB (2x): $32.85/month (excluding LCU)"]%string
              (mkResources [JStr "t3.micro"; JStr "m5.large"] [] 2 0))).
  - lia.
  - lia.
  - exact small_prices_nonneg.
  - exact small_prices_above.
  - vm_compute. reflexivity.
  - vm_compute. reflexivity.
Defined.

Lemma exact_total_perm (self : AWSCostEstimator) (r r' : resources) :
  Permutation (ec2_instances r) (ec2_instances r') ->
  Permutation (rds_instances r) (rds_instances r') ->
  albs r = albs r' -> nat_gateways r = nat_gateways r' ->
  (exact_total self r == exact_total self r')%Q.
Proof.
  intros P1 P2 E1 E2. unfold exact_total.
  rewrite (ParseSpec.hourly_exact_perm (get_ec2_price self) _ _ P1).
  rewrite (ParseSpec.hourly_exact_perm (get_rds_price self) _ _ P2).
  rewrite E1, E2. reflexivity.
Qed.

(** X13.  Under the conditions of X12 the order of the change entries
    does not matter for the cost: a plan with the same entries in another
    order gets a result with the same monthly cost (as a number) and the
    same inventory up to the order of its two lists. *)
Theorem X13_cost_independent_of_order (E : Z) (self : AWSCostEstimator)
    (p p' : plan) (r : estimate) :
  Permutation (changes_of p) (changes_of p') ->
  -1000026 <= E ->
  E <= -4 ->
  prices_nonneg self ->
  prices_above E self ->
  estimate_cost self p = Some r ->
  (exact_total self (resources_ r) < 10 ^ (28 + E))%Q ->
  exists r',
    estimate_cost self p' = Some r' /\
    (Dec.value (monthly_cost r') == Dec.value (monthly_cost r))%Q /\
    Permutation (ec2_instances (resources_ r)) (ec2_instances (resources_ r')) /\
    Permutation (rds_instances (resources_ r)) (rds_instances (resources_ r')) /\
    albs (resources_ r) = albs (resources_ r') /\
    nat_gateways (resources_ r) = nat_gateways (resources_ r').
Proof.
  intros HP _ HE Hn Ha. unfold estimate_cost, parse_terraform_plan.
  rewrite !ParseSpec.parse_loop_spec.
  rewrite <- (ParseSpec.existsb_perm raises _ _ HP).
  destruct (existsb raises (changes_of p)); [discriminate|].
  intros H. injection H as <-. rewrite AggFacts.resources_aggregate.
  intros Hlt. eexists. split; [reflexivity|].
  rewrite AggFacts.resources_aggregate.
  cbn [ec2_instances rds_instances albs nat_gateways].
  assert (P1 : Permutation (ec2_ids (changes_of p)) (ec2_ids (changes_of p')))
    by (unfold ec2_ids; apply Permutation_flat_map, HP).
  assert (P2 : Permutation (rds_ids (changes_of p)) (rds_ids (changes_of p')))
    by (unfold rds_ids; apply Permutation_flat_map, HP).
  assert (C1 : lb_count (changes_of p) = lb_count (changes_of p'))
    by (unfold lb_count; apply ParseSpec.filter_length_perm, HP).
  assert (C2 : nat_count (changes_of p) = nat_count (changes_of p'))
    by (unfold nat_count; apply ParseSpec.filter_length_perm, HP).
  repeat split; try assumption.
  rewrite !AggFacts.monthly_cost_aggregate.
  set (res := mkResources (ec2_ids (changes_of p)) (rds_ids (changes_of p))
                (lb_count (changes_of p)) (nat_count (changes_of p))) in *.
  set (res' := mkResources (ec2_ids (changes_of p')) (rds_ids (changes_of p'))
                 (lb_count (changes_of p')) (nat_count (changes_of p'))).
  assert (EQ : (exact_total self res == exact_total self res')%Q)
    by (apply exact_total_perm; assumption).
  destruct (ExactAgg.total_exact E self res HE Hn Ha Hlt) as (_ & _ & V).
  destruct (ExactAgg.total_exact E self res' HE Hn Ha) as (_ & _ & V').
  - rewrite <- EQ. exact Hlt.
  - rewrite V, V', EQ. reflexivity.
Qed.

Lemma X13_witness :
  exists r',
    estimate_cost Samples.small_estimator
      (Samples.plan_of [Samples.load_balancer; Samples.instance "t3.micro"])
    = Some r' /\
    (Dec.value (monthly_cost r') == Dec.value (Dec.mk 240170000000 (-10)))%Q /\
    Permutation [JStr "t3.micro"] (ec2_instances (resources_ r')) /\
    Permutation [] (rds_instances (resources_ r')) /\
    1%nat = albs (resources_ r') /\
    0%nat = nat_gateways (resources_ r').
Proof.
  apply (X13_cost_independent_of_order (-10) Samples.small_estimator
           (Samples.plan_of [Samples.instance "t3.micro"; Samples.load_balancer])
           (Samples.plan_of [Samples.load_balancer; Samples.instance "t3.micro"])
           (mkEstimate (Dec.mk 240170000000 (-10))
              ["EC2 t3.micro: $0.0104000000/hour";
               "**EC2 Total**: $7.59/month";
               "ALB (1x): $16.42/month (excluding LCU)"]%string
              (mkResources [JStr "t3.micro"] [] 1 0))).
  - apply perm_swap.
  - lia.
  - lia.
  - exact small_prices_nonneg.
  - exact small_prices_above.
  - vm_compute. reflexivity.
  - vm_compute. reflexivity.
Defined.

(** X14.  With prices that are zero or more, the monthly cost of a run
    is never negative and has at most 28 significant digits. *)
Theorem X14_total_nonneg_and_fits (self : AWSCostEstimator) (p : plan)
    (r : estimate) :
  prices_nonneg self ->
  estimate_cost self p = Some r ->
  0 <= Dec.coefficient (monthly_cost r) < 10 ^ 28 /\
  (0 <= Dec.value (monthly_cost r))%Q.
Proof.
  intros Hp. unfold estimate_cost.
  destruct (parse_terraform_plan p) as [res|]; [|discriminate].
  intros H. injection H as <-. rewrite AggFacts.monthly_cost_aggregate.
  assert (Hec2 : forall id q, get_ec2_price self id = Some q -> Dec.nonneg q)
    by (intros id q Eq; apply (Hp id q); left; exact Eq).
  assert (Hrds : forall id q, get_rds_price self id = Some q -> Dec.nonneg q)
    by (intros id q Eq; apply (Hp id q); right; exact Eq).
  pose proof (AggFacts.hourly_nonneg _ Hec2 (ec2_instances res)) as E1.
  pose proof (AggFacts.hourly_nonneg _ Hrds (rds_instances res)) as R1.
  destruct (AggFacts.tot_inv _ _ E1 AggFacts.zero_nonneg AggFacts.zero_fits)
    as (A1 & A1').
  destruct (AggFacts.tot_inv _ _ R1 A1 A1') as (B1 & B1').
  destruct (AggFacts.flat_inv get_alb_price (albs res) _
              ltac:(unfold Dec.nonneg; cbn; lia) B1 B1') as (C1 & C1').
  destruct (AggFacts.flat_inv get_nat_gateway_price (nat_gateways res) _
              ltac:(unfold Dec.nonneg; cbn; lia) C1 C1') as (D1 & D1').
  unfold total. split.
  - unfold Dec.nonneg, Dec.fits in *. change Dec.prec with 28 in D1'. lia.
  - apply DecFacts.value_nonneg, D1.
Qed.

Lemma X14_witness :
  0 <= Dec.coefficient (Dec.mk 240170000000 (-10)) < 10 ^ 28 /\
  (0 <= Dec.value (Dec.mk 240170000000 (-10)))%Q.
Proof.
  apply (X14_total_nonneg_and_fits Samples.estimator
           (Samples.plan_of [Samples.instance "t3.micro"; Samples.load_balancer])
           (mkEstimate (Dec.mk 240170000000 (-10))
              ["EC2 t3.micro: $0.0104000000/hour";
               "**EC2 Total**: $7.59/month";
               "ALB (1x): $16.42/month (excluding LCU)"]%string
              (mkResources [JStr "t3.micro"] [] 1 0))).
  - exact sample_prices_nonneg.
  - vm_compute. reflexivity.
Defined.

(** *** Size of the inventory *)

Lemma entry_adds_at_most_one (c : resource_change) (d : resources) :
  loop_body no_resources c = Some d ->
  (inventory_size d <= one_if (negb (delete_only c)))%nat.
Proof.
  rewrite ParseSpec.loop_body_spec. destruct (raises c); [discriminate|].
  intros H. injection H as <-. unfold inventory_size;
    cbn [ec2_instances rds_instances albs nat_gateways].
  destruct (delete_only c); cbn [negb andb one_if List.length]; [lia|].
  assert (P : forall key, (List.length (param_of c key) <= 1)%nat).
  { intros key. unfold param_of.
    destruct (after_get (change_after c) key) as [v|]; [destruct (truthy v)|];
      cbn; lia. }
  pose proof (P "instance_type"%string). pose proof (P "instance_class"%string).
  unfold is_compute, is_database, is_load_balancer, is_nat_gateway.
  destruct (type_ c) as [t|]; cbn [is_type orb one_if List.length]; [|lia].
  destruct (String.eqb_spec t "aws_instance") as [->|_]; [cbn; lia|].
  destruct (String.eqb_spec t "aws_launch_template") as [->|_]; [cbn; lia|].
  destruct (String.eqb_spec t "aws_db_instance") as [->|_]; [cbn; lia|].
  destruct (String.eqb_spec t "aws_lb") as [->|_]; [cbn; lia|].
  destruct (String.eqb_spec t "aws_alb") as [->|_]; [cbn; lia|].
  destruct (String.eqb t "aws_nat_gateway"); cbn; lia.
Qed.

Lemma inventory_size_app (a b : resources) :
  inventory_size (res_app a b) = (inventory_size a + inventory_size b)%nat.
Proof.
  unfold inventory_size, res_app;
    cbn [ec2_instances rds_instances albs nat_gateways].
  rewrite !length_app. lia.
Qed.

Lemma parse_loop_size (cs : list resource_change) : forall r,
  parse_loop no_resources cs = Some r ->
  (inventory_size r
   <= List.length (List.filter (fun c => negb (delete_only c)) cs))%nat.
Proof.
  induction cs as [|c cs IH]; intros r; cbn [parse_loop].
  - intros H. injection H as <-. cbn. lia.
  - destruct (loop_body no_resources c) as [d|] eqn:Ed; [|discriminate].
    rewrite ParseFacts.parse_loop_res.
    destruct (parse_loop no_resources cs) as [r'|]; [|discriminate].
    cbn [option_map]. intros H. injection H as <-.
    rewrite inventory_size_app.
    pose proof (entry_adds_at_most_one c d Ed) as B.
    pose proof (IH r' eq_refl) as B'.
    cbn [List.filter]. destruct (negb (delete_only c));
      cbn [one_if List.length] in *; lia.
Qed.

(** X15.  An entry is inventoried at most once, and a pure deletion
    never: the number of items of the inventory (both lists and both
    counters) is at most the number of entries that are not pure
    deletions. *)
Theorem X15_one_item_per_entry_at_most (p : plan) (r : resources) :
  parse_terraform_plan p = Some r ->
  (inventory_size r
   <= List.length (List.filter (fun c => negb (delete_only c)) (changes_of p))
   <= List.length (changes_of p))%nat.
Proof.
  intros H. split.
  - apply parse_loop_size, H.
  - apply filter_length_le.
Qed.

Lemma X15_witness :
  (inventory_size (mkResources [JStr "t3.micro"] [] 1 0)
   <= List.length (List.filter (fun c => negb (delete_only c))
                     [Samples.instance "t3.micro"; Samples.destroy "aws_lb";
                      Samples.bucket; Samples.load_balancer])
   <= List.length [Samples.instance "t3.micro"; Samples.destroy "aws_lb";
                   Samples.bucket; Samples.load_balancer])%nat.
Proof.
  apply (X15_one_item_per_entry_at_most
           (Samples.plan_of [Samples.instance "t3.micro"; Samples.destroy "aws_lb";
                             Samples.bucket; Samples.load_balancer])).
  vm_compute. reflexivity.
Defined.
